(** * Commit generator ([generator.py]): a shallow embedding and its properties

    The script fabricates a commit history: it draws timestamps in the last
    year, sorts them, and for each one performs a random file operation
    (create, modify, delete), stages it and commits it with a spoofed date.

    The embedding follows the script function by function.  Everything the
    script obtains from outside (the random generator, the wall clock, the
    exit status of [git]) is read from streams held in the [World]; the
    filesystem, the standard output and the log of spawned processes are
    fields of the same [World].  Python exceptions are values of [exn];
    a computation returns either a value or an exception, together with the
    world it leaves behind (no rollback on failure, as in Python). *)

From Stdlib Require Import ZArith QArith Lia Ascii String List Sorted Permutation.
From stdpp Require Import base gmap sets list strings pretty sorting.

Local Open Scope Z_scope.

(** ** Text: the pieces of [str] the script relies on *)

Module Text.

Definition LF : ascii := Ascii.ascii_of_nat 10.
Definition NL : string := String LF EmptyString.

(** [needle in hay] at the head of [hay]. *)
Fixpoint starts_with (needle hay : string) : bool :=
  match needle, hay with
  | EmptyString, _ => true
  | String a n', String b h' => if Ascii.eqb a b then starts_with n' h' else false
  | String _ _, EmptyString => false
  end.

(** Python's [needle in hay] on [str]. *)
Fixpoint contains (needle hay : string) : bool :=
  starts_with needle hay ||
  match hay with
  | EmptyString => false
  | String _ h' => contains needle h'
  end.

Fixpoint drop (n : nat) (s : string) : string :=
  match n, s with
  | O, _ => s
  | S n', String _ s' => drop n' s'
  | S _, EmptyString => EmptyString
  end.

(** Substitute the first occurrence of [pat] (non-empty) in [s] by [new]. *)
Fixpoint replace_first (pat new s : string) : string :=
  if starts_with pat s then new +:+ drop (String.length pat) s
  else match s with
       | EmptyString => EmptyString
       | String c s' => String c (replace_first pat new s')
       end.

(** Split at every occurrence of the character [sep]; [cur] is the piece
    being read, in reverse. *)
Fixpoint split_go (sep : ascii) (cur : string) (s : string) : list string :=
  match s with
  | EmptyString => [String.rev cur]
  | String c s' =>
      if Ascii.eqb c sep then String.rev cur :: split_go sep EmptyString s'
      else split_go sep (String c cur) s'
  end.

Definition split (sep : ascii) (s : string) : list string :=
  split_go sep EmptyString s.

(** The lines of a text, as [text.splitlines()] gives them for texts whose
    only line break is LF: every LF ends a line, and a non-empty tail after
    the last LF is a line of its own.  [cur] is the line being read, in
    reverse. *)
Fixpoint lines_go (cur : string) (s : string) : list string :=
  match s with
  | EmptyString =>
      match cur with EmptyString => [] | _ => [String.rev cur] end
  | String c s' =>
      if Ascii.eqb c LF then String.rev cur :: lines_go EmptyString s'
      else lines_go (String c cur) s'
  end.

Definition lines (s : string) : list string := lines_go EmptyString s.

Definition line_count (s : string) : nat := length (lines s).

Definition is_empty (s : string) : bool :=
  match s with EmptyString => true | _ => false end.

(** The last character of the text is LF. *)
Fixpoint ends_with_newline (s : string) : bool :=
  match s with
  | EmptyString => false
  | String c EmptyString => Ascii.eqb c LF
  | String _ s' => ends_with_newline s'
  end.

Definition is_digit (c : ascii) : bool :=
  let n := Ascii.nat_of_ascii c in (48 <=? n)%nat && (n <=? 57)%nat.

Fixpoint all_chars (p : ascii -> bool) (s : string) : bool :=
  match s with
  | EmptyString => true
  | String c s' => p c && all_chars p s'
  end.

(** The character [c] does not occur in [s]. *)
Definition no_char (c : ascii) (s : string) : bool :=
  all_chars (fun x => negb (Ascii.eqb x c)) s.

Fixpoint repeat_char (c : ascii) (n : nat) : string :=
  match n with
  | O => EmptyString
  | S n' => String c (repeat_char c n')
  end.

(** [str(n)] for an integer. *)
Definition str_int (n : Z) : string := pretty n.

(** C-style [%0<w>d]: decimal digits, zero-filled on the left to width [w]. *)
Definition zero_pad (w : nat) (n : Z) : string :=
  let s := str_int n in
  repeat_char "0"%char (w - String.length s) +:+ s.

(** [s] has the shape of [pat]: a [9] in [pat] stands for any digit, every
    other character for itself. *)
Fixpoint like_pattern (pat s : string) : bool :=
  match pat, s with
  | EmptyString, EmptyString => true
  | String p pat', String c s' =>
      (if Ascii.eqb p "9"%char then is_digit c else Ascii.eqb c p)
      && like_pattern pat' s'
  | _, _ => false
  end.

Fixpoint join (sep : string) (l : list string) : string :=
  match l with
  | [] => EmptyString
  | [x] => x
  | x :: l' => x +:+ sep +:+ join sep l'
  end.

End Text.

(** ** Datetime: naive [datetime] values and [timedelta]

    A naive [datetime] is a point of the proleptic Gregorian calendar with
    microsecond resolution.  It is represented by the number of microseconds
    elapsed since 0001-01-01 00:00:00, so that [datetime + timedelta] is
    addition and the comparison of two datetimes is the comparison of
    integers.  The calendar fields are recovered with the algorithm of the
    [datetime] module ([_ord2ymd]).  Python restricts datetimes to the years
    1..9999 and raises [OverflowError] outside; [valid] is that range. *)

Module Datetime.

Definition datetime := Z.

Definition US_PER_SECOND : Z := 1000000.
Definition SECONDS_PER_DAY : Z := 86400.
Definition US_PER_DAY : Z := SECONDS_PER_DAY * US_PER_SECOND.

(** [timedelta(days=d, seconds=s)], in microseconds. *)
Definition timedelta (days seconds : Z) : Z :=
  days * US_PER_DAY + seconds * US_PER_SECOND.

(** Ordinal of the last day Python accepts, 9999-12-31. *)
Definition MAX_ORDINAL : Z := 3652059.

Definition valid (d : datetime) : Prop := 0 <= d < MAX_ORDINAL * US_PER_DAY.

Definition DI400Y : Z := 146097.
Definition DI100Y : Z := 36524.
Definition DI4Y : Z := 1461.

Definition DAYS_IN_MONTH (m : Z) : Z :=
  match m with
  | 1 => 31 | 2 => 28 | 3 => 31 | 4 => 30 | 5 => 31 | 6 => 30
  | 7 => 31 | 8 => 31 | 9 => 30 | 10 => 31 | 11 => 30 | 12 => 31
  | _ => -1
  end.

Definition DAYS_BEFORE_MONTH (m : Z) : Z :=
  match m with
  | 1 => 0 | 2 => 31 | 3 => 59 | 4 => 90 | 5 => 120 | 6 => 151
  | 7 => 181 | 8 => 212 | 9 => 243 | 10 => 273 | 11 => 304 | 12 => 334
  | _ => -1
  end.

(** Month and day of the [n]-th day (from 0) of a year. *)
Definition month_day (leapyear : bool) (n : Z) : Z * Z :=
  let month := Z.shiftr (n + 50) 5 in
  let preceding :=
    DAYS_BEFORE_MONTH month + (if (2 <? month) && leapyear then 1 else 0) in
  if n <? preceding then
    let month' := month - 1 in
    let preceding' :=
      preceding -
      (DAYS_IN_MONTH month' + (if (month' =? 2) && leapyear then 1 else 0)) in
    (month', n - preceding' + 1)
  else (month, n - preceding + 1).

(** [_ord2ymd]: (year, month, day) of a proleptic Gregorian ordinal, where
    day 1 is 0001-01-01. *)
Definition ord2ymd (ordinal : Z) : Z * Z * Z :=
  let n := ordinal - 1 in
  let n400 := n / DI400Y in
  let n := n mod DI400Y in
  let year := n400 * 400 + 1 in
  let n100 := n / DI100Y in
  let n := n mod DI100Y in
  let n4 := n / DI4Y in
  let n := n mod DI4Y in
  let n1 := n / 365 in
  let n := n mod 365 in
  let year := year + n100 * 100 + n4 * 4 + n1 in
  if (n1 =? 4) || (n100 =? 4) then (year - 1, 12, 31)
  else
    let leapyear := (n1 =? 3) && (negb (n4 =? 24) || (n100 =? 3)) in
    let '(month, day) := month_day leapyear n in
    (year, month, day).

(** The month is in 1..12 and the day in 1..31. *)
Definition month_day_in_range (leapyear : bool) (n : Z) : bool :=
  let '(m, d) := month_day leapyear n in
  (1 <=? m) && (m <=? 12) && (1 <=? d) && (d <=? 31).

Definition toordinal (d : datetime) : Z := d / US_PER_DAY + 1.

Definition year (d : datetime) : Z := fst (fst (ord2ymd (toordinal d))).
Definition month (d : datetime) : Z := snd (fst (ord2ymd (toordinal d))).
Definition day (d : datetime) : Z := snd (ord2ymd (toordinal d)).
Definition hour (d : datetime) : Z := (d mod US_PER_DAY) / (3600 * US_PER_SECOND).
Definition minute (d : datetime) : Z := (d / (60 * US_PER_SECOND)) mod 60.
Definition second (d : datetime) : Z := (d / US_PER_SECOND) mod 60.
Definition microsecond (d : datetime) : Z := d mod US_PER_SECOND.

(** The date and the time of day of [isoformat], zero-padded as [%04d] and
    [%02d]. *)
Definition fmt_date (d : datetime) : string :=
  Text.zero_pad 4 (year d) +:+ "-" +:+ Text.zero_pad 2 (month d)
    +:+ "-" +:+ Text.zero_pad 2 (day d).

Definition fmt_time (d : datetime) : string :=
  Text.zero_pad 2 (hour d) +:+ ":" +:+ Text.zero_pad 2 (minute d)
    +:+ ":" +:+ Text.zero_pad 2 (second d).

(** [d.strftime("%Y-%m-%d %H:%M:%S")].  The C library prints [%Y] as the
    plain decimal year; some versions of Python pad it to four digits.  The
    two agree from the year 1000 on. *)
Definition strftime_ymd_hms (d : datetime) : string :=
  (Text.str_int (year d) +:+ "-" +:+ Text.zero_pad 2 (month d)
     +:+ "-" +:+ Text.zero_pad 2 (day d))
    +:+ " " +:+ fmt_time d.

(** [str(d)], that is [d.isoformat(sep=' ')]: the fraction is printed only
    when the microsecond field is not zero. *)
Definition str (d : datetime) : string :=
  fmt_date d +:+ " " +:+ fmt_time d +:+
  (if microsecond d =? 0 then EmptyString
   else "." +:+ Text.zero_pad 6 (microsecond d)).

(** Build a datetime from its fields ([_ymd2ord] of the [datetime] module);
    used to write down concrete instants. *)
Definition is_leap (y : Z) : bool :=
  (y mod 4 =? 0) && (negb (y mod 100 =? 0) || (y mod 400 =? 0)).

Definition days_before_year (y : Z) : Z :=
  let y := y - 1 in y * 365 + y / 4 - y / 100 + y / 400.

Definition ymd2ord (y m d : Z) : Z :=
  days_before_year y + DAYS_BEFORE_MONTH m
    + (if (2 <? m) && is_leap y then 1 else 0) + d.

Definition make (y m d hh mm ss us : Z) : datetime :=
  (ymd2ord y m d - 1) * US_PER_DAY
    + ((hh * 60 + mm) * 60 + ss) * US_PER_SECOND + us.

End Datetime.

(** ** The world the script runs in *)

(** A path: the names that lead from a directory down to an entry.  Inside
    the working tree a path starts at the working directory: [./sub/a.txt]
    is [["sub"; "a.txt"]] and the working directory itself is [[]].
    Outside of it a path starts at the root of the filesystem. *)
Definition path := list string.

(** The filesystem: the working tree, with the sub-directories that exist
    and the regular files with their text, and what lies outside the
    working tree, of which the script can only tell whether it is there.
    The working directory and the directories above it always exist.
    There are directories and regular files only (no links), and every
    entry may be read and written. *)
Record FileSystem := {
  dirs : gset path;
  files : gmap path string;
  outer_dirs : gset path;
  outer_files : gset path
}.

(** A stream of values supplied from outside, with a read position. *)
Record Feed := {
  src : nat -> Z;
  pos : nat
}.

Definition peek (f : Feed) : Z := src f (pos f).
Definition advance (f : Feed) : Feed := {| src := src f; pos := S (pos f) |}.

(** A spawned child process: its argument vector and the environment it
    was given. *)
Record Process := {
  argv : list string;
  env : gmap string string
}.

Record World := {
  fs : FileSystem;
  getcwd : string;                  (* absolute path of the working directory *)
  environ : gmap string string;     (* os.environ *)
  rng : Feed;                       (* raw output of the random generator *)
  clock : Feed;                     (* successive readings of the wall clock *)
  git : Feed;                       (* exit statuses of the spawned commands *)
  git_leaves : nat -> FileSystem -> FileSystem;
                                    (* what the spawned commands do to the filesystem *)
  stdout : list string;             (* one entry per call of print *)
  spawned : list Process            (* every process started, oldest first *)
}.

Definition set_fs (x : FileSystem) (w : World) : World :=
  {| fs := x; getcwd := getcwd w; environ := environ w; rng := rng w;
     clock := clock w; git := git w; git_leaves := git_leaves w;
     stdout := stdout w; spawned := spawned w |}.
Definition set_rng (x : Feed) (w : World) : World :=
  {| fs := fs w; getcwd := getcwd w; environ := environ w; rng := x;
     clock := clock w; git := git w; git_leaves := git_leaves w;
     stdout := stdout w; spawned := spawned w |}.
Definition set_clock (x : Feed) (w : World) : World :=
  {| fs := fs w; getcwd := getcwd w; environ := environ w; rng := rng w;
     clock := x; git := git w; git_leaves := git_leaves w;
     stdout := stdout w; spawned := spawned w |}.
Definition set_git (x : Feed) (w : World) : World :=
  {| fs := fs w; getcwd := getcwd w; environ := environ w; rng := rng w;
     clock := clock w; git := x; git_leaves := git_leaves w;
     stdout := stdout w; spawned := spawned w |}.
Definition set_stdout (x : list string) (w : World) : World :=
  {| fs := fs w; getcwd := getcwd w; environ := environ w; rng := rng w;
     clock := clock w; git := git w; git_leaves := git_leaves w;
     stdout := x; spawned := spawned w |}.
Definition set_spawned (x : list Process) (w : World) : World :=
  {| fs := fs w; getcwd := getcwd w; environ := environ w; rng := rng w;
     clock := clock w; git := git w; git_leaves := git_leaves w;
     stdout := stdout w; spawned := x |}.

Definition set_files (m : gmap path string) (w : World) : World :=
  set_fs {| dirs := dirs (fs w); files := m;
            outer_dirs := outer_dirs (fs w); outer_files := outer_files (fs w) |} w.

(** ** Exceptions and the computation monad *)

Inductive exn :=
| FileNotFoundError (filename : string)
| CalledProcessError (returncode : Z) (cmd : list string)
| IndexError (msg : string)
| IsADirectoryError (filename : string)
| NotADirectoryError (filename : string)
| OSError (errno : Z) (strerror filename : string)
| ValueError (msg : string)
| KeyboardInterrupt.

(** [isinstance(e, Exception)]: [KeyboardInterrupt] derives from
    [BaseException] only. *)
Definition is_Exception (e : exn) : bool :=
  match e with
  | KeyboardInterrupt => false
  | _ => true
  end.

Inductive Result (A : Type) :=
| Ok (a : A)
| Raise (e : exn).
Arguments Ok {A} a.
Arguments Raise {A} e.

Definition M (A : Type) : Type := World -> Result A * World.

Definition ret {A} (a : A) : M A := fun w => (Ok a, w).
Definition raise {A} (e : exn) : M A := fun w => (Raise e, w).
Definition bind {A B} (c : M A) (k : A -> M B) : M B :=
  fun w => match c w with
           | (Ok a, w') => k a w'
           | (Raise e, w') => (Raise e, w')
           end.

Notation "x <- c ;; k" := (bind c (fun x => k))
  (at level 100, c at next level, right associativity).
Notation "c ;; k" := (bind c (fun _ => k))
  (at level 100, right associativity).

(** [try: body except Exception as e: handler(e)]. *)
Definition try_except_Exception {A} (body : M A) (handler : exn -> M A) : M A :=
  fun w => match body w with
           | (Ok a, w') => (Ok a, w')
           | (Raise e, w') =>
               if is_Exception e then handler e w' else (Raise e, w')
           end.

(** [for x in l: body(x)]. *)
Fixpoint for_each {A} (l : list A) (body : A -> M unit) : M unit :=
  match l with
  | [] => ret tt
  | x :: l' => body x ;; for_each l' body
  end.

(** [[f() for _ in range(n)]]. *)
Fixpoint replicateM {A} (n : nat) (c : M A) : M (list A) :=
  match n with
  | O => ret []
  | S n' => x <- c ;; xs <- replicateM n' c ;; ret (x :: xs)
  end.

(** ** The library calls the script makes *)

(** [print(s)]. *)
Definition print (s : string) : M unit :=
  fun w => (Ok tt, set_stdout (stdout w ++ [s]) w).

(** [datetime.now()]: the next reading of the clock. *)
Definition datetime_now : M Datetime.datetime :=
  fun w => (Ok (peek (clock w)), set_clock (advance (clock w)) w).

(** The [random] module.  The generator is an arbitrary stream of integers;
    each call reduces the next one into the range the library documents:
    [randint(a, b)] into [a..b] with both ends included, [random()] into the
    multiples of 2^-53 in [0, 1), [choice(seq)] into the indices of [seq]. *)
Module Random.

Definition next_raw : M Z :=
  fun w => (Ok (peek (rng w)), set_rng (advance (rng w)) w).

Definition randint (a b : Z) : M Z :=
  raw <- next_raw ;; ret (a + raw mod (b - a + 1)).

Definition RESOLUTION : positive := 9007199254740992.

Definition random : M Q :=
  raw <- next_raw ;; ret (Qmake (raw mod Zpos RESOLUTION) RESOLUTION).

Definition choice {A} (seq : list A) : M A :=
  match seq with
  | [] => raise (IndexError "Cannot choose from an empty sequence")
  | x :: _ =>
      raw <- next_raw ;;
      ret (nth (Z.to_nat (raw mod Z.of_nat (length seq))) seq x)
  end.

End Random.

(** Floats.  The only floats of the script are the values of [random()]
    and the literals [0.4] and [0.8]; each is a rational and is kept as
    such.  A literal denotes the double nearest to it. *)
Definition float_0_4 : Q := 3602879701896397 # 9007199254740992.
Definition float_0_8 : Q := 3602879701896397 # 4503599627370496.

Definition float_lt (x y : Q) : bool := negb (Qle_bool y x).

(** The [os] module and [open], as Linux carries them out.

    A path name is followed component by component, from the working
    directory or, for a name that begins with the separator, from the root.
    Every component but the last must lead to a directory; [.] stays where
    it is and [..] goes to the directory above.  Names are limited in
    length, as a whole and per component, and hold no NUL character. *)
Module Os.

Definition SEP : ascii := "/"%char.
Definition NUL : ascii := Ascii.zero.

(** Longest component and (one more than the) longest path name. *)
Definition NAME_MAX : nat := 255.
Definition PATH_MAX : nat := 4096.

Inductive Kind := Missing | Regular | Directory.

(** The components of a path name: what stands between the separators,
    the empty pieces left out. *)
Definition pieces (name : string) : list string := Text.split SEP name.

Definition components (name : string) : list string :=
  List.filter (fun c => negb (String.eqb c "")) (pieces name).

(** The name ends with a separator. *)
Definition final_slash (name : string) : bool :=
  String.eqb (List.last (pieces name) ".") "".

Definition is_absolute (name : string) : bool := Text.starts_with "/" name.

(** The path of the working directory, from the root. *)
Definition cwd_path (w : World) : path := components (getcwd w).

(** [strip pre a]: what is left of [a] below [pre], when [a] lies at or
    below [pre]. *)
Fixpoint strip (pre a : path) : option path :=
  match pre, a with
  | [], _ => Some a
  | x :: pre', y :: a' => if String.eqb x y then strip pre' a' else None
  | _ :: _, [] => None
  end.

(** What lies at a path of the working tree. *)
Definition kind_in_tree (t : FileSystem) (p : path) : Kind :=
  if bool_decide (p = [] \/ p ∈ dirs t) then Directory
  else if bool_decide (p ∈ dom (files t)) then Regular
  else Missing.

(** What lies at a path from the root: inside the working tree the tree
    tells; the directories above the working directory exist; the rest is
    as [outer_dirs] and [outer_files] say. *)
Definition kind_of (t : FileSystem) (cwd a : path) : Kind :=
  match strip cwd a with
  | Some p => kind_in_tree t p
  | None =>
      if bool_decide (is_Some (strip a cwd) \/ a ∈ outer_dirs t) then Directory
      else if bool_decide (a ∈ outer_files t) then Regular
      else Missing
  end.

Definition kind_at (w : World) (a : path) : Kind := kind_of (fs w) (cwd_path w) a.

(** The regular file at [a] is given the text [text], made if need be. *)
Definition put (t : FileSystem) (cwd a : path) (text : string) : FileSystem :=
  match strip cwd a with
  | Some p => {| dirs := dirs t; files := <[p := text]> (files t);
                 outer_dirs := outer_dirs t; outer_files := outer_files t |}
  | None => {| dirs := dirs t; files := files t;
               outer_dirs := outer_dirs t; outer_files := {[a]} ∪ outer_files t |}
  end.

(** [s] goes to the end of the regular file at [a]. *)
Definition extend (t : FileSystem) (cwd a : path) (s : string) : FileSystem :=
  match strip cwd a with
  | Some p => {| dirs := dirs t; files := alter (fun old => old +:+ s) p (files t);
                 outer_dirs := outer_dirs t; outer_files := outer_files t |}
  | None => t
  end.

(** The regular file at [a] is taken away. *)
Definition unlink (t : FileSystem) (cwd a : path) : FileSystem :=
  match strip cwd a with
  | Some p => {| dirs := dirs t; files := delete p (files t);
                 outer_dirs := outer_dirs t; outer_files := outer_files t |}
  | None => {| dirs := dirs t; files := files t;
               outer_dirs := outer_dirs t; outer_files := outer_files t ∖ {[a]} |}
  end.

Definition name_too_long (name : string) : exn :=
  OSError 36 "File name too long" name.

(** Where a path name leads: nowhere (the error is the one the OS
    reports), to a directory named by [.], [..] or the root, or to the
    entry [a] of a directory that exists; [slash] tells that the name was
    written with a final separator.  What the entry is, if anything, is
    [kind_of] at [a]. *)
Inductive Place :=
| Fails (e : exn)
| Dir_itself (a : path)
| Entry (a : path) (slash : bool).

(** Following the components [cs] of [name] from the directory [a]. *)
Fixpoint follow (kind : path -> Kind) (name : string) (a : path)
         (cs : list string) (slash : bool) : Place :=
  match cs with
  | [] => Dir_itself a
  | c :: rest =>
      if String.eqb c "." then follow kind name a rest slash
      else if String.eqb c ".." then follow kind name (removelast a) rest slash
      else
        match rest with
        | [] => Entry (a ++ [c]) slash
        | _ :: _ =>
            if (NAME_MAX <? String.length c)%nat then Fails (name_too_long name)
            else
              match kind (a ++ [c]) with
              | Directory => follow kind name (a ++ [c]) rest slash
              | Regular => Fails (NotADirectoryError name)
              | Missing => Fails (FileNotFoundError name)
              end
        end
  end.

Definition lookup (w : World) (name : string) : Place :=
  if negb (Text.no_char NUL name) then Fails (ValueError "embedded null byte")
  else if Text.is_empty name then Fails (FileNotFoundError name)
  else if (PATH_MAX <=? String.length name)%nat then Fails (name_too_long name)
  else follow (kind_at w) name (if is_absolute name then [] else cwd_path w)
              (components name) (final_slash name).

(** The last name of the entry is longer than a directory can hold. *)
Definition too_long (a : path) : bool :=
  (NAME_MAX <? String.length (List.last a EmptyString))%nat.

(** The entry of the working tree a name leads to, if it leads to one. *)
Definition target (w : World) (name : string) : option path :=
  match lookup w name with
  | Entry a _ => strip (cwd_path w) a
  | _ => None
  end.

(** The text of the regular file of the working tree a name leads to. *)
Definition read (w : World) (name : string) : option string :=
  match lookup w name with
  | Entry a false =>
      if too_long a then None
      else match kind_at w a, strip (cwd_path w) a with
           | Regular, Some p => files (fs w) !! p
           | _, _ => None
           end
  | _ => None
  end.

(** The name [os.walk('.')] reports for the directory [d]. *)
Definition root_name (d : path) : string := Text.join "/" ("." :: d).

(** [os.path.join(root, name)] for a [root] without a final separator and
    a relative [name]. *)
Definition path_join (root name : string) : string := root +:+ "/" +:+ name.

(** Names of the entries among [ps] that lie directly in [d]. *)
Definition children (ps : list path) (d : path) : list string :=
  List.map (fun p => List.last p EmptyString)
    (List.filter (fun p => bool_decide (p <> [] /\ removelast p = d)) ps).

(** The directory [d] can be listed under the name [os.walk] has for it. *)
Definition listable (d : path) : bool :=
  (String.length (root_name d) <? PATH_MAX)%nat.

(** [os.walk('.')]: one triple (root, dirnames, filenames) per directory
    of the tree.  A directory whose name has grown too long for the OS is
    passed over, silently.  The order among directories and among names is
    the enumeration order of the tree, as it is the OS's in Python. *)
Definition walk (t : FileSystem) : list (string * list string * list string) :=
  List.map (fun d => (root_name d,
                      children (elements (dirs t)) d,
                      children (elements (dom (files t))) d))
           ([] :: List.filter listable (elements (dirs t))).

Inductive Mode := mode_w | mode_a.

(** [open(name, mode)] for writing.  An existing regular file is emptied
    by mode ['w'] and left as it is by mode ['a']; a missing one is
    created, empty, by both.  A directory cannot be opened for writing,
    and a name written with a final separator is taken for one.  The
    result stands for the file object. *)
Definition open (name : string) (mode : Mode) : M path :=
  fun w =>
    match lookup w name with
    | Fails e => (Raise e, w)
    | Dir_itself _ => (Raise (IsADirectoryError name), w)
    | Entry a slash =>
        if slash then (Raise (IsADirectoryError name), w)
        else if too_long a then (Raise (name_too_long name), w)
        else
          match kind_at w a, mode with
          | Directory, _ => (Raise (IsADirectoryError name), w)
          | Regular, mode_a => (Ok a, w)
          | _, _ => (Ok a, set_fs (put (fs w) (cwd_path w) a EmptyString) w)
          end
    end.

(** [f.write(s)] on a file opened by [open]: the text goes to the end. *)
Definition write (f : path) (s : string) : M unit :=
  fun w => (Ok tt, set_fs (extend (fs w) (cwd_path w) f s) w).

(** [os.remove(name)]: takes away a regular file, and nothing else. *)
Definition remove (name : string) : M unit :=
  fun w =>
    match lookup w name with
    | Fails e => (Raise e, w)
    | Dir_itself _ => (Raise (IsADirectoryError name), w)
    | Entry a slash =>
        if too_long a then (Raise (name_too_long name), w)
        else
          match kind_at w a with
          | Missing => (Raise (FileNotFoundError name), w)
          | Directory => (Raise (IsADirectoryError name), w)
          | Regular =>
              if slash then (Raise (NotADirectoryError name), w)
              else (Ok tt, set_fs (unlink (fs w) (cwd_path w) a) w)
          end
    end.

(** [os.path.abspath('.')]. *)
Definition abspath_dot : M string := fun w => (Ok (getcwd w), w).

(** [os.environ.copy()]. *)
Definition environ_copy : M (gmap string string) :=
  fun w => (Ok (environ w), w).

End Os.

(** [subprocess.run(args, env=env, check=True, ...)]: the child is started
    and its exit status read; a non-zero status raises.  [env = None] hands
    the child the environment of the script.  The child works on the
    filesystem as it pleases: what it leaves is what [git_leaves] makes of
    what it finds. *)
Definition subprocess_run (args : list string) (env : option (gmap string string))
  : M unit :=
  fun w =>
    let child := {| argv := args; env := default (environ w) env |} in
    let left := git_leaves w (pos (git w)) (fs w) in
    let w' := set_fs left
                (set_spawned (spawned w ++ [child]) (set_git (advance (git w)) w)) in
    let returncode := peek (git w) in
    if returncode =? 0 then (Ok tt, w')
    else (Raise (CalledProcessError returncode args), w').

(** ** The script *)

Definition NUM_COMMITS : nat := 5.

Definition COMMIT_MESSAGES : list string := [
  "Fix bug in {component}";
  "Add {feature} functionality";
  "Update {component}";
  "Refactor {component} code";
  "Improve {feature} performance";
  "Remove deprecated {component}";
  "Add tests for {feature}";
  "Update documentation for {component}";
  "Fix typo in {component}";
  "Optimize {feature}";
  "Clean up {component}";
  "Enhance {feature}";
  "Fix issue with {component}";
  "Implement {feature}";
  "Resolve merge conflicts";
  "Update dependencies";
  "Add error handling";
  "Improve logging";
  "Fix security issue";
  "Add configuration options"
].

Definition COMPONENTS : list string := [
  "auth module"; "database"; "API"; "UI components"; "user service";
  "payment processing"; "notification system"; "cache layer"; "middleware";
  "routing"; "validation"; "error handling"; "configuration"; "models"
].

Definition FEATURES : list string := [
  "user authentication"; "data validation"; "caching"; "API endpoints";
  "search functionality"; "filtering"; "pagination"; "export feature";
  "notifications"; "analytics"; "reporting"; "integration"
].

Definition generate_random_date : M Datetime.datetime :=
  end_date <- datetime_now ;;
  let start_date := end_date - Datetime.timedelta 365 0 in
  random_days <- Random.randint 0 365 ;;
  random_seconds <- Random.randint 0 86400 ;;
  ret (start_date + Datetime.timedelta random_days random_seconds).

(** [template.format(name=value)] for a template with at most one
    placeholder [{name}]. *)
Definition format (template name value : string) : string :=
  Text.replace_first ("{" +:+ name +:+ "}") value template.

Definition generate_commit_message : M string :=
  template <- Random.choice COMMIT_MESSAGES ;;
  if Text.contains "{component}" template then
    component <- Random.choice COMPONENTS ;;
    ret (format template "component" component)
  else if Text.contains "{feature}" template then
    feature <- Random.choice FEATURES ;;
    ret (format template "feature" feature)
  else ret template.

(** The list [get_existing_files] builds, for a given tree. *)
Definition existing_files_of (t : FileSystem) : list string :=
  flat_map (fun '(root, _, filenames) =>
    flat_map (fun filename =>
      if negb (Text.contains ".git" root)
      then [Os.path_join root filename] else []) filenames)
    (Os.walk t).

Definition get_existing_files : M (list string) :=
  fun w => (Ok (existing_files_of (fs w)), w).

Definition create_file : M string :=
  n <- Random.randint 1000 9999 ;;
  let filename := "file_" +:+ Text.str_int n +:+ ".txt" in
  now <- datetime_now ;;
  let content := "Content generated at " +:+ Datetime.str now +:+ Text.NL in
  data <- Random.randint 1 1000000 ;;
  let content := content +:+ "Random data: " +:+ Text.str_int data +:+ Text.NL in
  f <- Os.open filename Os.mode_w ;;
  Os.write f content ;;
  ret filename.

Definition modify_file (filename : string) : M string :=
  f <- Os.open filename Os.mode_a ;;
  now <- datetime_now ;;
  Os.write f (Text.NL +:+ "Modified at " +:+ Datetime.str now +:+ Text.NL) ;;
  data <- Random.randint 1 1000000 ;;
  Os.write f ("Additional data: " +:+ Text.str_int data +:+ Text.NL) ;;
  ret filename.

Definition delete_file (filename : string) : M string :=
  Os.remove filename ;;
  ret filename.

Definition perform_random_operation : M (string * string) :=
  existing_files <- get_existing_files ;;
  match existing_files with
  | [] =>
      filename <- create_file ;;
      ret (filename, "create")
  | _ =>
      rand <- Random.random ;;
      if float_lt rand float_0_4 then
        filename <- create_file ;;
        ret (filename, "create")
      else if float_lt rand float_0_8 then
        filename <- Random.choice existing_files ;;
        modify_file filename ;;
        ret (filename, "modify")
      else
        if (5 <? length existing_files)%nat then
          filename <- Random.choice existing_files ;;
          delete_file filename ;;
          ret (filename, "delete")
        else
          filename <- Random.choice existing_files ;;
          modify_file filename ;;
          ret (filename, "modify")
  end.

Definition create_commit (commit_date : Datetime.datetime)
  : M (string * string * string) :=
  performed <- perform_random_operation ;;
  let '(filename, operation) := performed in
  message <- generate_commit_message ;;
  (if String.eqb operation "delete"
   then subprocess_run ["git"; "rm"; filename] None
   else subprocess_run ["git"; "add"; filename] None) ;;
  let date_str := Datetime.strftime_ymd_hms commit_date in
  env <- Os.environ_copy ;;
  let env := <["GIT_AUTHOR_DATE" := date_str]> env in
  let env := <["GIT_COMMITTER_DATE" := date_str]> env in
  subprocess_run ["git"; "commit"; "-m"; message] (Some env) ;;
  ret (message, operation, filename).

(** [repr(s)] of a string: in single quotes, or in double quotes when the
    string holds a single quote and no double quote; the backslash and the
    quote in use are escaped with a backslash, line feed, carriage return
    and tab are written [\n], [\r], [\t], the other control characters
    [\x<hh>].  Bytes above 127 are taken to belong to printable characters,
    which [repr] leaves as they are. *)
Definition QUOTE : ascii := Ascii.ascii_of_nat 39.
Definition DQUOTE : ascii := Ascii.ascii_of_nat 34.
Definition BACKSLASH : ascii := Ascii.ascii_of_nat 92.

Definition hex_digit (n : nat) : ascii :=
  nth n (list_ascii_of_string "0123456789abcdef") "0"%char.

Definition repr_char (quote c : ascii) : string :=
  let n := Ascii.nat_of_ascii c in
  if Ascii.eqb c BACKSLASH then String BACKSLASH (String BACKSLASH EmptyString)
  else if Ascii.eqb c quote then String BACKSLASH (String quote EmptyString)
  else if (n =? 10)%nat then String BACKSLASH "n"
  else if (n =? 13)%nat then String BACKSLASH "r"
  else if (n =? 9)%nat then String BACKSLASH "t"
  else if (n <? 32)%nat || (n =? 127)%nat then
    String BACKSLASH
      (String "x" (String (hex_digit (n / 16)) (String (hex_digit (n mod 16)) EmptyString)))
  else String c EmptyString.

Fixpoint escaped (quote : ascii) (s : string) : string :=
  match s with
  | EmptyString => EmptyString
  | String c s' => repr_char quote c +:+ escaped quote s'
  end.

Definition repr_str (s : string) : string :=
  let quote :=
    if negb (Text.no_char QUOTE s) && Text.no_char DQUOTE s then DQUOTE else QUOTE in
  String quote (escaped quote s +:+ String quote EmptyString).

(** [repr] of a list of strings. *)
Definition repr_list (l : list string) : string :=
  "[" +:+ Text.join ", " (List.map repr_str l) +:+ "]".

(** The signals Python knows by name on Linux (the members of
    [signal.Signals]). *)
Definition SIGNALS : list (Z * string) :=
  [(1, "SIGHUP"); (2, "SIGINT"); (3, "SIGQUIT"); (4, "SIGILL"); (5, "SIGTRAP");
   (6, "SIGABRT"); (7, "SIGBUS"); (8, "SIGFPE"); (9, "SIGKILL"); (10, "SIGUSR1");
   (11, "SIGSEGV"); (12, "SIGUSR2"); (13, "SIGPIPE"); (14, "SIGALRM"); (15, "SIGTERM");
   (16, "SIGSTKFLT"); (17, "SIGCHLD"); (18, "SIGCONT"); (19, "SIGSTOP"); (20, "SIGTSTP");
   (21, "SIGTTIN"); (22, "SIGTTOU"); (23, "SIGURG"); (24, "SIGXCPU"); (25, "SIGXFSZ");
   (26, "SIGVTALRM"); (27, "SIGPROF"); (28, "SIGWINCH"); (29, "SIGIO"); (30, "SIGPWR");
   (31, "SIGSYS"); (34, "SIGRTMIN"); (64, "SIGRTMAX")].

Fixpoint signal_name (table : list (Z * string)) (n : Z) : option string :=
  match table with
  | [] => None
  | (k, name) :: rest => if n =? k then Some name else signal_name rest n
  end.

(** [str(e)] for the exceptions of the model.  A negative return code is
    that of a child killed by a signal. *)
Definition str_exn (e : exn) : string :=
  match e with
  | FileNotFoundError filename =>
      "[Errno 2] No such file or directory: " +:+ repr_str filename
  | IsADirectoryError filename =>
      "[Errno 21] Is a directory: " +:+ repr_str filename
  | NotADirectoryError filename =>
      "[Errno 20] Not a directory: " +:+ repr_str filename
  | OSError errno strerror filename =>
      "[Errno " +:+ Text.str_int errno +:+ "] " +:+ strerror +:+ ": "
        +:+ repr_str filename
  | ValueError msg => msg
  | CalledProcessError returncode cmd =>
      if returncode <? 0 then
        match signal_name SIGNALS (- returncode) with
        | Some name =>
            "Command '" +:+ repr_list cmd +:+ "' died with <Signals." +:+ name +:+ ": "
              +:+ Text.str_int (- returncode) +:+ ">."
        | None =>
            "Command '" +:+ repr_list cmd +:+ "' died with unknown signal "
              +:+ Text.str_int (- returncode) +:+ "."
        end
      else
        "Command '" +:+ repr_list cmd +:+ "' returned non-zero exit status "
          +:+ Text.str_int returncode +:+ "."
  | IndexError msg => msg
  | KeyboardInterrupt => EmptyString
  end.

(** [enumerate(l, start)]. *)
Fixpoint enumerate {A} (l : list A) (start : Z) : list (Z * A) :=
  match l with
  | [] => []
  | x :: l' => (start, x) :: enumerate l' (start + 1)
  end.

(** [l.sort()] on datetimes. *)
Definition sort (l : list Datetime.datetime) : list Datetime.datetime :=
  merge_sort Z.le l.

(** The two statements of [main] that build the timestamps, for a
    configured number [count] of commits:
    [dates = [generate_random_date() for _ in range(count)]; dates.sort()]. *)
Definition generate_dates (count : nat) : M (list Datetime.datetime) :=
  dates <- replicateM count generate_random_date ;;
  ret (sort dates).

(** The body of the [for] loop of [main]. *)
Definition iteration (num_commits : nat) (i : Z) (date : Datetime.datetime) : M unit :=
  try_except_Exception
    (_ <- create_commit date ;;
     if i mod 50 =? 0 then
       print ("Progress: " +:+ Text.str_int i +:+ "/"
                +:+ Text.str_int (Z.of_nat num_commits) +:+ " commits created")
     else ret tt)
    (fun e => print ("Error creating commit " +:+ Text.str_int i +:+ ": " +:+ str_exn e)).

Definition summary_line (num_commits : nat) : string :=
  Text.NL +:+ "✓ Successfully generated "
    +:+ Text.str_int (Z.of_nat num_commits) +:+ " commits!".

(** [main], with the configured count as a parameter. *)
Definition main_with (num_commits : nat) : M unit :=
  print "Git Commit Generator" ;;
  print (Text.repeat_char "="%char 50) ;;
  dates <- generate_dates num_commits ;;
  print (Text.NL +:+ "Generating " +:+ Text.str_int (Z.of_nat num_commits)
           +:+ " commits...") ;;
  for_each (enumerate dates 1) (fun '(i, date) => iteration num_commits i date) ;;
  print (summary_line num_commits) ;;
  here <- Os.abspath_dot ;;
  print ("Repository location: " +:+ here) ;;
  print (Text.NL +:+ "You can view the commits with: git log --oneline").

Definition main : M unit := main_with NUM_COMMITS.

(** ** The selection policy, in the words of the specification

    [chooseOperation] is the policy as the specification words it, with the
    thresholds 0.4 and 0.8 as the exact rationals 2/5 and 4/5; it is compared
    with [perform_random_operation] below.  [carry_out] names the three
    branch bodies of [perform_random_operation]. *)

Inductive Kind := Create | Modify | Delete.

Definition chooseOperation (existingFiles : list string) (r : Q) : Kind :=
  match existingFiles with
  | [] => Create
  | _ =>
      if Qlt_le_dec r (2 # 5) then Create
      else if Qlt_le_dec r (4 # 5) then Modify
      else if (5 <? length existingFiles)%nat then Delete
      else Modify
  end.

Definition kind_name (k : Kind) : string :=
  match k with
  | Create => "create"
  | Modify => "modify"
  | Delete => "delete"
  end.

Definition carry_out (k : Kind) (existing_files : list string) : M (string * string) :=
  match k with
  | Create =>
      filename <- create_file ;;
      ret (filename, "create")
  | Modify =>
      filename <- Random.choice existing_files ;;
      modify_file filename ;;
      ret (filename, "modify")
  | Delete =>
      filename <- Random.choice existing_files ;;
      delete_file filename ;;
      ret (filename, "delete")
  end.

(** The exceptions a file operation can raise: the errors of the OS, and
    the refusal of a name with a NUL in it. *)
Definition from_file_operation (e : exn) : bool :=
  match e with
  | FileNotFoundError _ | IsADirectoryError _ | NotADirectoryError _
  | OSError _ _ _ | ValueError _ => true
  | _ => false
  end.

(** [w'] differs from [w] at most in the tree, the random generator and the
    clock: nothing was printed, no process was started. *)
Definition quiet_step (w w' : World) : Prop :=
  spawned w' = spawned w /\ environ w' = environ w /\ git w' = git w
  /\ stdout w' = stdout w /\ getcwd w' = getcwd w
  /\ git_leaves w' = git_leaves w.

(** The two processes of a commit: staging and committing. *)
Definition staging_process (operation filename : string) (environment : gmap string string)
  : Process :=
  {| argv := ["git"; if String.eqb operation "delete" then "rm" else "add"; filename];
     env := environment |}.

Definition commit_process (message date_str : string) (environment : gmap string string)
  : Process :=
  {| argv := ["git"; "commit"; "-m"; message];
     env := <["GIT_COMMITTER_DATE" := date_str]>
              (<["GIT_AUTHOR_DATE" := date_str]> environment) |}.

(** The world after the loop of [main] has run over the enumerated dates
    [l], one [iteration] after the other. *)
Definition run_iterations (num_commits : nat) (l : list (Z * Datetime.datetime))
           (w : World) : World :=
  fold_left (fun w0 '(i, date) => snd (iteration num_commits i date w0)) l w.

(** The completion summary is the third line from the end of the output. *)
Definition printed_summary (w : World) : option string := rev (stdout w) !! 2%nat.

(** Number of iterations reported as failed on the standard output. *)
Definition error_lines (out : list string) : nat :=
  length (List.filter (Text.starts_with "Error creating commit ") out).

(** ** Concrete worlds

    Feeds read from a list (and 0 once the list is used up), to write
    down particular runs. *)

Definition feed_of (l : list Z) : Feed :=
  {| src := fun n => nth n l 0; pos := 0 |}.

Definition world_of (t : FileSystem) (draws readings statuses : list Z) : World :=
  {| fs := t; getcwd := "/home/dev/repo"; environ := {["HOME" := "/home/dev"]};
     rng := feed_of draws; clock := feed_of readings; git := feed_of statuses;
     git_leaves := fun _ t => t; stdout := []; spawned := [] |}.

(** 2025-09-30 17:02:14.456141, the instant of the examples. *)
Definition an_instant : Datetime.datetime := Datetime.make 2025 9 30 17 2 14 456141.

(** A working tree with nothing known outside of it. *)
Definition tree_of (d : gset path) (f : gmap path string) : FileSystem :=
  {| dirs := d; files := f; outer_dirs := ∅; outer_files := ∅ |}.

(** A tree with one file of one line, and an empty tree. *)
Definition tree_notes : FileSystem :=
  tree_of ∅ {[ ["notes.txt"] := "first line" +:+ Text.NL ]}.
Definition tree_empty : FileSystem := tree_of ∅ ∅.

(** A tree where the name [create_file] draws from a raw 5 is taken. *)
Definition tree_clash : FileSystem :=
  tree_of ∅ {[ ["file_1005.txt"] := "kept since last year" +:+ Text.NL ]}.

(** A tree where that name is the name of a directory. *)
Definition tree_dir_clash : FileSystem :=
  tree_of {[ ["file_1005.txt"] ]} ∅.

(** Trees with five and with six files in the working directory. *)
Definition tree_five : FileSystem :=
  tree_of ∅
    {[ ["a.txt"] := "a" +:+ Text.NL; ["b.txt"] := "b" +:+ Text.NL;
       ["c.txt"] := "c" +:+ Text.NL; ["d.txt"] := "d" +:+ Text.NL;
       ["e.txt"] := "e" +:+ Text.NL ]}.
Definition tree_six : FileSystem :=
  tree_of ∅ (<[ ["f.txt"] := "f" +:+ Text.NL ]> (files tree_five)).

(** A raw draw that [random()] turns into 0.9 or so: above both thresholds. *)
Definition raw_high : Z := 8106479329266893.

(** Runs of [main] over five files: one where [git] always succeeds, one
    where every staging command fails. *)
Definition world_git_ok : World :=
  world_of tree_five [raw_high; 3; 41] (repeat an_instant 12) [].
Definition world_git_down : World :=
  world_of tree_five [raw_high; 3; 41] (repeat an_instant 12) [1; 1; 1; 1; 1].

(** Single operations: on the empty tree, and on the tree with a
    directory in the way. *)
Definition world_empty : World := world_of tree_empty [41] [an_instant] [].
Definition world_dir_clash : World := world_of tree_dir_clash [5; 7] [an_instant] [].

Definition world_five : World := world_of tree_five [raw_high; 3; 41] [an_instant] [].
Definition world_six : World := world_of tree_six [raw_high; 3; 41] [an_instant] [].

(** ** Further notions, for the properties beyond the claims *)

(** The message [generate_commit_message] makes of a template and of the
    words drawn for it: the component fills [{component}], else the
    feature fills [{feature}], else the template stands as it is. *)
Definition fill_template (template component feature : string) : string :=
  if Text.contains "{component}" template then format template "component" component
  else if Text.contains "{feature}" template then format template "feature" feature
  else template.

(** [cut_at pat s]: what stands before and what stands after the first
    occurrence of [pat] in [s]. *)
Fixpoint cut_at (pat s : string) : option (string * string) :=
  if Text.starts_with pat s then Some (EmptyString, Text.drop (String.length pat) s)
  else match s with
       | EmptyString => None
       | String c s' =>
           match cut_at pat s' with
           | Some (before, after) => Some (String c before, after)
           | None => None
           end
       end.

(** A text fit for a commit message: not empty, and without braces left. *)
Definition plain_message (s : string) : bool :=
  negb (Text.is_empty s) && Text.no_char "{"%char s && Text.no_char "}"%char s.

(** A name a directory entry can have: not empty, not [.], no separator. *)
Definition sane_name (c : string) : bool :=
  negb (String.eqb c "") && negb (String.eqb c ".") && Text.no_char Os.SEP c.

(** A tree as a filesystem holds it: every file and every sub-directory has
    a path of one or more entry names. *)
Definition wf_tree (t : FileSystem) : Prop :=
  (forall p, p ∈ dom (files t) -> p <> [] /\ Forall (fun c => sane_name c = true) p)
  /\ (forall d, d ∈ dirs t -> d <> [] /\ Forall (fun c => sane_name c = true) d).

(** [wf_tree], as a check that runs. *)
Definition sane_path (p : path) : bool :=
  match p with [] => false | _ => forallb sane_name p end.

Definition wf_tree_b (t : FileSystem) : bool :=
  forallb sane_path (elements (dom (files t))) && forallb sane_path (elements (dirs t)).

(** A name a directory entry has on disk: moreover not [..], no NUL in it,
    and not longer than a directory can hold. *)
Definition entry_name (c : string) : bool :=
  negb (String.eqb c "") && negb (String.eqb c ".") && negb (String.eqb c "..")
  && Text.no_char Os.SEP c && Text.no_char Os.NUL c
  && (String.length c <=? Os.NAME_MAX)%nat.

(** The directory that holds the entry [p] is there. *)
Definition placed (t : FileSystem) (p : path) : Prop :=
  removelast p = [] \/ removelast p ∈ dirs t.

(** A tree as it is on disk: the names are those of directory entries,
    every file and every sub-directory lies in a directory of the tree (or
    in the working directory), and nothing is both a file and a
    directory. *)
Definition on_disk (t : FileSystem) : Prop :=
  (forall p, p ∈ dom (files t) -> p <> [] /\ Forall (fun c => entry_name c = true) p)
  /\ (forall d, d ∈ dirs t -> d <> [] /\ Forall (fun c => entry_name c = true) d)
  /\ (forall p, p ∈ dom (files t) -> placed t p /\ p ∉ dirs t)
  /\ (forall d, d ∈ dirs t -> placed t d).

(** [on_disk], as a check that runs. *)
Definition entry_path (p : path) : bool :=
  match p with [] => false | _ => forallb entry_name p end.

Definition placed_b (t : FileSystem) (p : path) : bool :=
  bool_decide (removelast p = [] \/ removelast p ∈ dirs t).

Definition on_disk_b (t : FileSystem) : bool :=
  forallb entry_path (elements (dom (files t)))
  && forallb entry_path (elements (dirs t))
  && forallb (fun p => placed_b t p && negb (bool_decide (p ∈ dirs t)))
             (elements (dom (files t)))
  && forallb (placed_b t) (elements (dirs t)).

(** Every listed name is short enough for the OS to take it. *)
Definition short_listing (t : FileSystem) : Prop :=
  forall p : string, In p (existing_files_of t) -> (String.length p < Os.PATH_MAX)%nat.

Definition short_listing_b (t : FileSystem) : bool :=
  forallb (fun p => (String.length p <? Os.PATH_MAX)%nat) (existing_files_of t).

(** No directory of the working directory bears a name [create_file] can
    draw. *)
Definition no_directory_in_the_way (t : FileSystem) : Prop :=
  forall n : Z, 1000 <= n <= 9999 ->
    ["file_" +:+ Text.str_int n +:+ ".txt"] ∉ dirs t.

(** A tree on which no file operation of the script can fail. *)
Definition workable (t : FileSystem) : Prop :=
  on_disk t /\ short_listing t /\ no_directory_in_the_way t.

(** A small repository: metadata under [.git], a sub-directory with sources,
    a directory whose name merely contains [.git], and two files in the
    working directory, one of them [.gitignore]. *)
Definition tree_repo : FileSystem :=
  tree_of {[ [".git"]; ["src"]; ["docs.github"] ]}
    {[ [".gitignore"] := "*.pyc" +:+ Text.NL;
       ["generator.py"] := "import os" +:+ Text.NL;
       [".git"; "HEAD"] := "ref: refs/heads/main" +:+ Text.NL;
       ["src"; "a.py"] := "pass" +:+ Text.NL;
       ["docs.github"; "notes.md"] := "notes" +:+ Text.NL ]}.

Definition world_repo : World := world_of tree_repo [raw_high; 3; 41] [an_instant] [].


(** The date a process commits with, if it is a commit command. *)
Definition commit_date_of (p : Process) : option string :=
  if bool_decide (take 2 (argv p) = ["git"; "commit"])
  then env p !! "GIT_AUTHOR_DATE" else None.

(** The dates of the commit commands among [ps], in the order started. *)
Definition committed_dates (ps : list Process) : list string :=
  omap commit_date_of ps.

(** The lines of [main] that do not depend on the run. *)
Definition opening_lines (num_commits : nat) : list string :=
  ["Git Commit Generator"; Text.repeat_char "="%char 50;
   Text.NL +:+ "Generating " +:+ Text.str_int (Z.of_nat num_commits) +:+ " commits..."].

Definition closing_lines (num_commits : nat) (cwd : string) : list string :=
  [summary_line num_commits; "Repository location: " +:+ cwd;
   Text.NL +:+ "You can view the commits with: git log --oneline"].

Definition is_error_line (s : string) : bool :=
  Text.starts_with "Error creating commit " s.

(** [git] exits with 0 on every call, now and later. *)
Definition git_always_succeeds (w : World) : Prop := forall k : nat, src (git w) k = 0.

(** Whatever [git] does to the working tree, it leaves a workable tree
    workable. *)
Definition git_keeps_workable (w : World) : Prop :=
  forall (k : nat) (t : FileSystem), workable t -> workable (git_leaves w k t).

(** The world in which [main] generates its timestamps, and the one in
    which its loop starts, [w1] being the world the timestamps left. *)
Definition after_banner (w : World) : World :=
  set_stdout (stdout w ++ ["Git Commit Generator"; Text.repeat_char "="%char 50]) w.

Definition at_loop_start (num_commits : nat) (w1 : World) : World :=
  set_stdout (stdout w1 ++ [Text.NL +:+ "Generating "
                              +:+ Text.str_int (Z.of_nat num_commits) +:+ " commits..."])
             w1.

(** The log of the loop of [main] over the enumerated dates [l]: for every
    turn its index, its date and the outcome of its [create_commit]. *)
Definition Outcome : Type := Result (string * string * string).

Fixpoint outcomes (num_commits : nat) (l : list (Z * Datetime.datetime)) (w : World)
  : list (Z * Datetime.datetime * Outcome) :=
  match l with
  | [] => []
  | (i, date) :: rest =>
      (i, date, fst (create_commit date w))
        :: outcomes num_commits rest (snd (iteration num_commits i date w))
  end.

(** The line [main] prints for the turn [i] that failed with [e]. *)
Definition error_line (i : Z) (e : exn) : string :=
  "Error creating commit " +:+ Text.str_int i +:+ ": " +:+ str_exn e.

(** The lines of the failed turns of a log, in order. *)
Definition reported (log : list (Z * Datetime.datetime * Outcome)) : list string :=
  omap (fun '(i, _, r) => match r with Raise e => Some (error_line i e) | Ok _ => None end)
       log.

(** Whether a turn got as far as starting its commit command: it returned,
    or it failed with the exit status of that command. *)
Definition commit_started (r : Outcome) : bool :=
  match r with
  | Ok _ => true
  | Raise (CalledProcessError _ cmd) => bool_decide (take 2 cmd = ["git"; "commit"])
  | Raise _ => false
  end.

(** The dates of the turns of a log that started their commit command. *)
Definition committed (log : list (Z * Datetime.datetime * Outcome))
  : list Datetime.datetime :=
  omap (fun '(_, date, r) => if commit_started r then Some date else None) log.


(** * Properties *)

(** ** Formatting, on examples *)

Example str_datetime_example :
  Datetime.str (Datetime.make 2025 9 30 17 2 14 456141) = "2025-09-30 17:02:14.456141".
Proof. vm_compute. reflexivity. Qed.

Example strftime_example :
  Datetime.strftime_ymd_hms (Datetime.make 2024 2 29 0 0 5 0) = "2024-02-29 00:00:05".
Proof. vm_compute. reflexivity. Qed.

Example strftime_example_2 :
  Datetime.strftime_ymd_hms (Datetime.make 9999 12 31 23 59 59 999999) = "9999-12-31 23:59:59"
  /\ Datetime.str (Datetime.make 1 1 1 0 0 0 0) = "0001-01-01 00:00:00"
  /\ Datetime.str (Datetime.make 2000 12 31 1 1 1 1) = "2000-12-31 01:01:01.000001".
Proof. vm_compute. repeat split; reflexivity. Qed.


(** ** Sequencing *)

Lemma bind_Ok {A B} (c : M A) (k : A -> M B) (w : World) (a : A) (w' : World) :
  c w = (Ok a, w') -> bind c k w = k a w'.
Proof. intros E. unfold bind. rewrite E. reflexivity. Qed.

Lemma bind_Raise {A B} (c : M A) (k : A -> M B) (w : World) (e : exn) (w' : World) :
  c w = (Raise e, w') -> bind c k w = (Raise e, w').
Proof. intros E. unfold bind. rewrite E. reflexivity. Qed.

(** ** The random library stays in its ranges *)

Lemma randint_spec (a b : Z) (w : World) :
  a <= b ->
  exists n, Random.randint a b w = (Ok n, set_rng (advance (rng w)) w)
            /\ n = a + peek (rng w) mod (b - a + 1) /\ a <= n <= b.
Proof.
  intros Hab. eexists. split; [reflexivity|]. split; [reflexivity|].
  pose proof (Z.mod_pos_bound (peek (rng w)) (b - a + 1)). lia.
Qed.

Lemma random_spec (w : World) :
  exists r, Random.random w = (Ok r, set_rng (advance (rng w)) w)
            /\ (0 <= r)%Q /\ (r < 1)%Q.
Proof.
  eexists. split; [reflexivity|].
  pose proof (Z.mod_pos_bound (peek (rng w)) (Zpos Random.RESOLUTION) eq_refl).
  unfold Qle, Qlt; simpl. lia.
Qed.

Lemma choice_spec {A} (seq : list A) (w : World) :
  seq <> [] ->
  exists x i, Random.choice seq w = (Ok x, set_rng (advance (rng w)) w)
              /\ i = Z.to_nat (peek (rng w) mod Z.of_nat (length seq))
              /\ seq !! i = Some x.
Proof.
  destruct seq as [|a seq]; [congruence|]. intros _.
  set (l := a :: seq).
  pose proof (Z.mod_pos_bound (peek (rng w)) (Z.of_nat (length l))) as Hb.
  assert (Hi : (Z.to_nat (peek (rng w) mod Z.of_nat (length l)) < length l)%nat).
  { subst l. simpl length in *. lia. }
  eexists _, _. split; [reflexivity|]. split; [reflexivity|].
  destruct (nth_lookup_or_length l (Z.to_nat (peek (rng w) mod Z.of_nat (length l))) a)
    as [Hn|Hn]; [exact Hn | lia].
Qed.

(** ** Timestamps (C1) *)

(** Every timestamp lies between one year before the clock reading and one
    day after it. *)
Lemma generate_random_date_window (w : World) :
  exists t w',
    generate_random_date w = (Ok t, w')
    /\ peek (clock w) - Datetime.timedelta 365 0 <= t
    /\ t <= peek (clock w) + Datetime.timedelta 0 86400.
Proof.
  unfold generate_random_date.
  rewrite (bind_Ok datetime_now _ w _ _ eq_refl).
  set (w1 := set_clock _ w).
  destruct (randint_spec 0 365 w1) as (d & Ed & _ & Hd); [lia|].
  rewrite (bind_Ok _ _ _ _ _ Ed).
  set (w2 := set_rng _ w1).
  destruct (randint_spec 0 86400 w2) as (s & Es & _ & Hs); [lia|].
  rewrite (bind_Ok _ _ _ _ _ Es).
  eexists _, _. split; [reflexivity|].
  unfold Datetime.timedelta, Datetime.US_PER_DAY, Datetime.SECONDS_PER_DAY,
    Datetime.US_PER_SECOND. lia.
Qed.

(** C1, at the input that breaks it: when the day draw is 365 and the second
    draw is 1, the timestamp returned is one second after the reading of
    the clock, outside the window that ends at that reading. *)
Theorem C1_generate_random_date_after_now (w : World) :
  let now := peek (clock w) in
  let w' := set_rng (feed_of [365; 1]) w in
  fst (generate_random_date w') = Ok (now + Datetime.timedelta 0 1)
  /\ now < now + Datetime.timedelta 0 1.
Proof.
  intros now w'. split.
  - unfold generate_random_date, bind, datetime_now, Random.randint,
      Random.next_raw, ret. cbn. f_equal.
    change (peek (clock w)) with now. rewrite !Z.mod_small by lia.
    unfold Datetime.timedelta, Datetime.US_PER_DAY, Datetime.SECONDS_PER_DAY,
      Datetime.US_PER_SECOND. lia.
  - unfold Datetime.timedelta, Datetime.US_PER_SECOND. lia.
Qed.

(** ** Text *)

#[local] Arguments String.append !s1 s2 /.

Section TextFacts.

Import Text.

Lemma app_assoc_s (a b c : string) : (a +:+ b) +:+ c = a +:+ (b +:+ c).
Proof. induction a as [|x a IH]; simpl; [reflexivity | now rewrite IH]. Qed.

Lemma length_app_s (a b : string) :
  String.length (a +:+ b) = (String.length a + String.length b)%nat.
Proof. induction a as [|x a IH]; simpl; [reflexivity | now rewrite IH]. Qed.

Lemma all_chars_app (p : ascii -> bool) (a b : string) :
  all_chars p (a +:+ b) = all_chars p a && all_chars p b.
Proof.
  induction a as [|x a IH]; simpl; [reflexivity|].
  rewrite IH. now rewrite andb_assoc.
Qed.

Lemma all_chars_weaken (p q : ascii -> bool) (s : string) :
  (forall c, p c = true -> q c = true) ->
  all_chars p s = true -> all_chars q s = true.
Proof.
  intros Hpq. induction s as [|x s IH]; simpl; [reflexivity|].
  intros [Hx Hs]%andb_true_iff. rewrite (Hpq _ Hx). simpl. auto.
Qed.

Lemma all_chars_repeat (p : ascii -> bool) (c : ascii) (n : nat) :
  p c = true -> all_chars p (repeat_char c n) = true.
Proof. intros Hc. induction n; simpl; [reflexivity | now rewrite Hc]. Qed.

Lemma length_repeat_char (c : ascii) (n : nat) :
  String.length (repeat_char c n) = n.
Proof. induction n; simpl; congruence. Qed.

Lemma no_char_app (c : ascii) (a b : string) :
  no_char c (a +:+ b) = no_char c a && no_char c b.
Proof. apply all_chars_app. Qed.

(** A digit is neither a line feed nor a path separator. *)
Lemma digit_not (c x : ascii) :
  is_digit c = false -> is_digit x = true -> negb (Ascii.eqb x c) = true.
Proof.
  intros Hc Hx. destruct (Ascii.eqb_spec x c) as [->|]; [congruence | reflexivity].
Qed.

Lemma digits_no_char (c : ascii) (s : string) :
  is_digit c = false -> all_chars is_digit s = true -> no_char c s = true.
Proof. intros Hc. apply all_chars_weaken. intros x. now apply digit_not. Qed.

(** *** Splitting *)

Lemma split_go_no_sep (sep : ascii) (s cur : string) :
  no_char sep s = true -> split_go sep cur s = [String.rev_app cur s].
Proof.
  revert cur. induction s as [|x s IH]; intros cur; simpl; [reflexivity|].
  intros [Hx Hs]%andb_true_iff.
  apply negb_true_iff in Hx. rewrite Hx. now rewrite IH.
Qed.

Lemma split_no_sep (sep : ascii) (s : string) :
  no_char sep s = true -> split sep s = [s].
Proof. apply split_go_no_sep. Qed.

(** *** Lines *)

(** A text without line feed is one line, or none if it is empty. *)
Lemma lines_go_no_newline (s cur : string) :
  no_char LF s = true ->
  lines_go cur s =
    if is_empty cur && is_empty s then [] else [String.rev_app cur s].
Proof.
  revert cur. induction s as [|x s IH]; intros cur; simpl.
  - intros _. destruct cur; reflexivity.
  - intros [Hx Hs]%andb_true_iff. apply negb_true_iff in Hx. rewrite Hx.
    rewrite IH by assumption. simpl. now rewrite andb_false_r.
Qed.

(** Reading a line and its terminator. *)
Lemma lines_go_line (a rest cur : string) :
  no_char LF a = true ->
  lines_go cur (a +:+ String LF rest) = String.rev_app cur a :: lines_go EmptyString rest.
Proof.
  revert cur. induction a as [|x a IH]; intros cur; simpl.
  - intros _. rewrite ?Ascii.eqb_refl; reflexivity.
  - intros [Hx Hs]%andb_true_iff. apply negb_true_iff in Hx. rewrite Hx.
    now rewrite IH.
Qed.

Lemma lines_line (a rest : string) :
  no_char LF a = true -> lines (a +:+ NL +:+ rest) = a :: lines rest.
Proof. intros Ha. unfold lines, NL. simpl. now rewrite lines_go_line. Qed.

(** What follows a line feed is read on its own. *)
Lemma lines_go_cut (old rest cur : string) :
  lines_go cur (old +:+ String LF rest)
  = lines_go cur (old +:+ NL) ++ lines_go EmptyString rest.
Proof.
  revert cur. induction old as [|x old IH]; intros cur; simpl.
  - rewrite ?Ascii.eqb_refl; reflexivity.
  - destruct (Ascii.eqb x LF); [|apply IH].
    rewrite IH. reflexivity.
Qed.

(** A line feed after a text ends its last line if that line is open, and
    makes an empty line otherwise. *)
Lemma length_lines_go_newline (old cur : string) :
  length (lines_go cur (old +:+ NL))
  = (length (lines_go cur old)
     + (if (is_empty cur && is_empty old) || ends_with_newline old then 1 else 0))%nat.
Proof.
  revert cur. induction old as [|x old IH]; intros cur.
  - simpl. rewrite ?Ascii.eqb_refl. destruct cur; reflexivity.
  - cbn [append lines_go]. destruct (Ascii.eqb x LF) eqn:Ex.
    + cbn [length]. rewrite IH. rewrite andb_false_r. cbn [orb is_empty andb].
      destruct old; simpl; rewrite ?Ex; reflexivity.
    + rewrite IH. rewrite andb_false_r. cbn [orb is_empty andb].
      destruct old; simpl; rewrite ?Ex; reflexivity.
Qed.

(** The line count after a blank-line separator and two lines are appended. *)
Lemma line_count_append_block (old l1 l2 : string) :
  no_char LF l1 = true -> no_char LF l2 = true ->
  line_count (old +:+ (NL +:+ l1 +:+ NL) +:+ (l2 +:+ NL))
  = (line_count old
     + (if is_empty old || ends_with_newline old then 3 else 2))%nat.
Proof.
  intros H1 H2. unfold line_count, lines.
  replace (old +:+ (NL +:+ l1 +:+ NL) +:+ l2 +:+ NL)
    with (old +:+ String LF (l1 +:+ NL +:+ (l2 +:+ NL))).
  2:{ unfold NL. rewrite !app_assoc_s. reflexivity. }
  rewrite lines_go_cut, length_app, length_lines_go_newline.
  change (lines_go EmptyString (l1 +:+ NL +:+ l2 +:+ NL))
    with (lines (l1 +:+ NL +:+ (l2 +:+ NL))).
  rewrite lines_line by assumption.
  replace (l2 +:+ NL) with (l2 +:+ NL +:+ EmptyString).
  2:{ unfold NL. simpl. reflexivity. }
  rewrite lines_line by assumption.
  simpl. destruct (is_empty old || ends_with_newline old); lia.
Qed.

End TextFacts.

(** ** Decimal numerals *)

Section Decimal.

Import Text.

Lemma pretty_N_char_digit (x : N) : is_digit (pretty_N_char x) = true.
Proof. unfold pretty_N_char. repeat case_match; reflexivity. Qed.

Lemma pretty_N_go_digits (x : N) (s : string) :
  all_chars is_digit s = true -> all_chars is_digit (pretty_N_go x s) = true.
Proof.
  revert s. induction (N.lt_wf_0 x) as [x _ IH]. intros s Hs.
  destruct (decide (x = 0)%N) as [->|Hx]; [now rewrite pretty_N_go_0|].
  rewrite pretty_N_go_step by lia.
  apply IH; [apply N.div_lt; lia|].
  simpl. now rewrite pretty_N_char_digit.
Qed.

(** The numeral of [x] has exactly [k] digits when [10^(k-1) <= x < 10^k]. *)
Lemma pretty_N_go_length (k : nat) (x : N) (s : string) :
  (10 ^ N.of_nat k <= x < 10 ^ N.of_nat (S k))%N ->
  String.length (pretty_N_go x s) = (S k + String.length s)%nat.
Proof.
  revert x s. induction k as [|k IH]; intros x s Hx.
  - change (10 ^ N.of_nat 0)%N with 1%N in Hx.
    change (10 ^ N.of_nat 1)%N with 10%N in Hx.
    rewrite pretty_N_go_step by lia.
    rewrite N.div_small by lia. now rewrite pretty_N_go_0.
  - assert (E : forall n, (10 ^ N.of_nat (S n) = 10 * 10 ^ N.of_nat n)%N).
    { intros n. rewrite Nat2N.inj_succ. apply N.pow_succ_r'. }
    rewrite (E (S k)) in Hx. rewrite (E k) in Hx.
    assert (0 < 10 ^ N.of_nat k)%N by (apply N.neq_0_lt_0, N.pow_nonzero; lia).
    rewrite pretty_N_go_step by lia.
    rewrite IH.
    + simpl. lia.
    + rewrite (E k). split.
      * apply N.div_le_lower_bound; lia.
      * apply N.Div0.div_lt_upper_bound; lia.
Qed.

(** The numeral of [x < 10^k] has at most [k] digits ([x = 0] apart). *)
Lemma pretty_N_go_length_le (k : nat) (x : N) (s : string) :
  (x < 10 ^ N.of_nat k)%N ->
  (String.length (pretty_N_go x s) <= k + String.length s)%nat.
Proof.
  revert x s. induction k as [|k IH]; intros x s Hx.
  - change (10 ^ N.of_nat 0)%N with 1%N in Hx.
    assert (x = 0%N) as -> by lia. now rewrite pretty_N_go_0.
  - destruct (decide (x = 0)%N) as [->|Hx0]; [rewrite pretty_N_go_0; lia|].
    rewrite pretty_N_go_step by lia.
    etransitivity; [apply IH|simpl; lia].
    rewrite Nat2N.inj_succ, N.pow_succ_r' in Hx.
    apply N.Div0.div_lt_upper_bound; lia.
Qed.

Lemma str_int_N (n : Z) :
  0 <= n -> str_int n = pretty (Z.to_N n).
Proof. intros Hn. unfold str_int. destruct n; [reflexivity..|lia]. Qed.

Lemma str_int_digits (n : Z) :
  0 <= n -> all_chars is_digit (str_int n) = true.
Proof.
  intros Hn. rewrite str_int_N by assumption.
  unfold pretty, pretty_N. case_decide; [reflexivity|].
  now apply pretty_N_go_digits.
Qed.

Lemma str_int_length (k : nat) (n : Z) :
  10 ^ Z.of_nat k <= n < 10 ^ Z.of_nat (S k) ->
  String.length (str_int n) = S k.
Proof.
  intros Hn.
  assert (0 < 10 ^ Z.of_nat k) by (apply Z.pow_pos_nonneg; lia).
  rewrite str_int_N by lia.
  unfold pretty, pretty_N. case_decide; [lia|].
  rewrite (pretty_N_go_length k); [simpl; lia|].
  rewrite <- !nat_N_Z in Hn.
  change 10 with (Z.of_N 10) in Hn.
  rewrite <- !N2Z.inj_pow in Hn. lia.
Qed.

Lemma str_int_length_le (k : nat) (n : Z) :
  0 <= n < 10 ^ Z.of_nat k -> (1 <= k)%nat ->
  (String.length (str_int n) <= k)%nat.
Proof.
  intros Hn Hk. rewrite str_int_N by lia.
  unfold pretty, pretty_N. case_decide; [simpl; lia|].
  etransitivity; [apply (pretty_N_go_length_le k)|simpl; lia].
  rewrite <- nat_N_Z in Hn.
  change 10 with (Z.of_N 10) in Hn.
  rewrite <- N2Z.inj_pow in Hn. lia.
Qed.

(** [%0<w>d] of a number below [10^w]: exactly [w] digits. *)
Lemma zero_pad_shape (w : nat) (n : Z) :
  0 <= n < 10 ^ Z.of_nat w -> (1 <= w)%nat ->
  String.length (zero_pad w n) = w /\ all_chars is_digit (zero_pad w n) = true.
Proof.
  intros Hn Hw. unfold zero_pad.
  pose proof (str_int_length_le w n Hn Hw).
  split.
  - rewrite length_app_s, length_repeat_char. lia.
  - rewrite all_chars_app, all_chars_repeat by reflexivity.
    apply str_int_digits. lia.
Qed.

End Decimal.


(** ** Path names *)

Section PathNames.

Import Text.

Lemma strip_app (c p : path) : Os.strip c (c ++ p) = Some p.
Proof.
  induction c as [|x c IH]; [reflexivity|].
  simpl. now rewrite String.eqb_refl.
Qed.

Lemma strip_Some (c a p : path) : Os.strip c a = Some p -> a = c ++ p.
Proof.
  revert a. induction c as [|x c IH]; intros a; simpl.
  - now intros [= ->].
  - destruct a as [|y a]; [discriminate|].
    destruct (String.eqb_spec x y) as [->|]; [|discriminate].
    intros H. now rewrite (IH _ H).
Qed.

Lemma kind_of_inside (t : FileSystem) (cwd p : path) :
  Os.kind_of t cwd (cwd ++ p) = Os.kind_in_tree t p.
Proof. unfold Os.kind_of. now rewrite strip_app. Qed.

Lemma kind_in_tree_Directory (t : FileSystem) (p : path) :
  Os.kind_in_tree t p = Os.Directory <-> (p = [] \/ p ∈ dirs t).
Proof.
  unfold Os.kind_in_tree.
  repeat case_bool_decide; split; intros; try discriminate; tauto.
Qed.

Lemma kind_in_tree_Regular (t : FileSystem) (p : path) :
  Os.kind_in_tree t p = Os.Regular
  <-> (p <> [] /\ (p ∉ dirs t) /\ p ∈ dom (files t)).
Proof.
  unfold Os.kind_in_tree.
  repeat case_bool_decide; split; intros; try discriminate; tauto.
Qed.

Lemma kind_in_tree_Missing (t : FileSystem) (p : path) :
  Os.kind_in_tree t p = Os.Missing
  <-> (p <> [] /\ (p ∉ dirs t) /\ p ∉ dom (files t)).
Proof.
  unfold Os.kind_in_tree.
  repeat case_bool_decide; split; intros; try discriminate; tauto.
Qed.

(** Whether a directory lies at a path depends on the directories only. *)
Lemma kind_of_Directory (t t' : FileSystem) (cwd a : path) :
  dirs t' = dirs t -> outer_dirs t' = outer_dirs t ->
  Os.kind_of t cwd a = Os.Directory -> Os.kind_of t' cwd a = Os.Directory.
Proof.
  intros Hd Ho. unfold Os.kind_of.
  destruct (Os.strip cwd a) as [p|].
  - rewrite !kind_in_tree_Directory. now rewrite Hd.
  - rewrite Ho. case_bool_decide; [reflexivity|].
    case_bool_decide; discriminate.
Qed.

(** Where a name leads stays where it led when no directory goes away. *)
Lemma follow_mono (kind kind' : path -> Os.Kind) (name : string)
      (cs : list string) (a : path) (slash : bool) (x : path) (s : bool) :
  (forall b, kind b = Os.Directory -> kind' b = Os.Directory) ->
  Os.follow kind name a cs slash = Os.Entry x s ->
  Os.follow kind' name a cs slash = Os.Entry x s.
Proof.
  intros Hk. revert a. induction cs as [|c rest IH]; intros a; [discriminate|].
  cbn [Os.follow].
  destruct (String.eqb c "."); [apply IH|].
  destruct (String.eqb c ".."); [apply IH|].
  destruct rest as [|c' rest]; [trivial|].
  destruct (Os.NAME_MAX <? String.length c)%nat; [discriminate|].
  destruct (kind (a ++ [c])) eqn:E; try discriminate.
  rewrite (Hk _ E). apply IH.
Qed.

Lemma lookup_mono (w w' : World) (name : string) (x : path) (s : bool) :
  getcwd w' = getcwd w ->
  dirs (fs w') = dirs (fs w) -> outer_dirs (fs w') = outer_dirs (fs w) ->
  Os.lookup w name = Os.Entry x s -> Os.lookup w' name = Os.Entry x s.
Proof.
  intros Hcwd Hd Ho. unfold Os.lookup.
  destruct (negb (no_char Os.NUL name)); [discriminate|].
  destruct (is_empty name); [discriminate|].
  destruct (Os.PATH_MAX <=? String.length name)%nat; [discriminate|].
  unfold Os.cwd_path. rewrite Hcwd. apply follow_mono.
  intros b. unfold Os.kind_at, Os.cwd_path. rewrite Hcwd.
  now apply kind_of_Directory.
Qed.

Lemma entry_name_spec (c : string) :
  entry_name c = true
  <-> c <> "" /\ c <> "." /\ c <> ".."
      /\ no_char Os.SEP c = true /\ no_char Os.NUL c = true
      /\ (String.length c <= Os.NAME_MAX)%nat.
Proof.
  unfold entry_name. rewrite !andb_true_iff, !negb_true_iff, !String.eqb_neq.
  rewrite Nat.leb_le. tauto.
Qed.

Lemma starts_with_sep_plain (name : string) :
  no_char Os.SEP name = true -> name <> "" -> starts_with "/" name = false.
Proof.
  destruct name as [|c s]; [congruence|]. intros H _.
  cbn [no_char all_chars] in H. apply andb_true_iff in H as [H _].
  apply negb_true_iff in H. cbn [starts_with].
  rewrite Ascii.eqb_sym. unfold Os.SEP in H. now rewrite H.
Qed.

Lemma is_empty_false (s : string) : s <> "" -> is_empty s = false.
Proof. destruct s; [congruence | reflexivity]. Qed.

(** A plain name leads to the entry of that name in the working
    directory. *)
Lemma lookup_plain (w : World) (name : string) :
  entry_name name = true ->
  Os.lookup w name = Os.Entry (Os.cwd_path w ++ [name]) false.
Proof.
  intros (Hne & Hdot & Hdots & Hsep & Hnul & Hlen)%entry_name_spec.
  unfold Os.lookup. rewrite Hnul. cbn [negb].
  rewrite is_empty_false by assumption.
  replace (Os.PATH_MAX <=? String.length name)%nat with false
    by (symmetry; apply Nat.leb_gt; unfold Os.NAME_MAX, Os.PATH_MAX in *; lia).
  unfold Os.is_absolute. rewrite starts_with_sep_plain by assumption.
  unfold Os.components, Os.final_slash, Os.pieces.
  rewrite split_no_sep by assumption.
  apply String.eqb_neq in Hne, Hdot, Hdots.
  cbn [List.filter List.last]. rewrite Hne. cbn [negb Os.follow].
  now rewrite Hdot, Hdots.
Qed.

Lemma too_long_snoc (a : path) (name : string) :
  (String.length name <= Os.NAME_MAX)%nat -> Os.too_long (a ++ [name]) = false.
Proof.
  intros H. unfold Os.too_long. rewrite last_last. now apply Nat.ltb_ge.
Qed.

(** The names [create_file] makes are plain names. *)
Lemma created_name_length (n : Z) :
  1000 <= n <= 9999 -> String.length ("file_" +:+ str_int n +:+ ".txt") = 13%nat.
Proof.
  intros Hn. rewrite !length_app_s, (str_int_length 3) by (simpl; lia). reflexivity.
Qed.

Lemma entry_created_name (n : Z) :
  1000 <= n <= 9999 -> entry_name ("file_" +:+ str_int n +:+ ".txt") = true.
Proof.
  intros Hn. apply entry_name_spec.
  split; [discriminate|]. split; [discriminate|]. split; [discriminate|].
  split; [|split].
  - rewrite !no_char_app.
    rewrite (digits_no_char Os.SEP (str_int n)) by
      (reflexivity || apply str_int_digits; lia). reflexivity.
  - rewrite !no_char_app.
    rewrite (digits_no_char Os.NUL (str_int n)) by
      (reflexivity || apply str_int_digits; lia). reflexivity.
  - rewrite created_name_length by assumption. unfold Os.NAME_MAX. lia.
Qed.

(** Opening a plain name: only a directory of that name stands in the
    way. *)
Lemma open_plain (name : string) (mode : Os.Mode) (w : World) :
  entry_name name = true ->
  Os.open name mode w
  = match Os.kind_in_tree (fs w) [name], mode with
    | Os.Directory, _ => (Raise (IsADirectoryError name), w)
    | Os.Regular, Os.mode_a => (Ok (Os.cwd_path w ++ [name]), w)
    | _, _ => (Ok (Os.cwd_path w ++ [name]),
               set_files (<[[name] := EmptyString]> (files (fs w))) w)
    end.
Proof.
  intros Hsane. unfold Os.open. rewrite lookup_plain by assumption.
  apply entry_name_spec in Hsane as (_ & _ & _ & _ & _ & Hlen).
  rewrite too_long_snoc by assumption.
  unfold Os.kind_at. rewrite kind_of_inside.
  unfold Os.put. rewrite strip_app.
  destruct (Os.kind_in_tree (fs w) [name]), mode; reflexivity.
Qed.

Lemma kind_in_cwd (t : FileSystem) (name : string) :
  Os.kind_in_tree t [name] = Os.Directory <-> [name] ∈ dirs t.
Proof.
  rewrite kind_in_tree_Directory. split; [intros [?|?]; [discriminate|assumption]|tauto].
Qed.

(** [create_file], step by step: the three values it reads from outside
    determine the name and the text.  If a directory has that name, the
    file cannot be opened; otherwise the file of that name holds that text
    afterwards, whatever was there before. *)
Lemma create_file_run (w : World) :
  let n := 1000 + peek (rng w) mod 9000 in
  let now := peek (clock w) in
  let data := 1 + peek (advance (rng w)) mod 1000000 in
  let filename := "file_" +:+ str_int n +:+ ".txt" in
  let content :=
    ("Content generated at " +:+ Datetime.str now +:+ NL)
      +:+ "Random data: " +:+ str_int data +:+ NL in
  let w2 := set_rng (advance (advance (rng w))) (set_clock (advance (clock w)) w) in
  create_file w
  = if bool_decide ([filename] ∈ dirs (fs w))
    then (Raise (IsADirectoryError filename), w2)
    else (Ok filename, set_files (<[[filename] := content]> (files (fs w))) w2).
Proof.
  intros n now data filename content w2. unfold create_file.
  rewrite (bind_Ok (Random.randint 1000 9999) _ w n _ eq_refl); cbv beta zeta.
  erewrite (bind_Ok datetime_now _ _ _ _ eq_refl); cbv beta zeta.
  erewrite (bind_Ok (Random.randint 1 1000000) _ _ _ _ eq_refl); cbv beta zeta.
  pose proof (Z.mod_pos_bound (peek (rng w)) 9000 eq_refl).
  assert (Hsane : entry_name filename = true)
    by (apply entry_created_name; subst n; lia).
  match goal with
  | |- bind (Os.open ?f _) _ ?x = _ =>
      change f with filename; change x with w2
  end.
  pose proof (open_plain filename Os.mode_w w2 Hsane) as Eopen.
  change (fs w2) with (fs w) in Eopen.
  case_bool_decide as Hdir.
  - apply kind_in_cwd in Hdir. rewrite Hdir in Eopen.
    now rewrite (bind_Raise _ _ _ _ _ Eopen).
  - assert (Eopen' : Os.open filename Os.mode_w w2
                     = (Ok (Os.cwd_path w2 ++ [filename]),
                        set_files (<[[filename] := EmptyString]> (files (fs w))) w2)).
    { rewrite Eopen.
      destruct (Os.kind_in_tree (fs w) [filename]) eqn:Ek; try reflexivity.
      now apply kind_in_cwd in Ek. }
    rewrite (bind_Ok _ _ _ _ _ Eopen').
    unfold bind, Os.write, ret, Os.extend.
    change (Os.cwd_path (set_files _ w2)) with (Os.cwd_path w2).
    rewrite strip_app.
    cbn [fs files dirs outer_dirs outer_files set_files set_fs set_rng set_clock].
    rewrite alter_insert_eq.
    reflexivity.
Qed.

(** Numerals and dates hold no line feed, whatever the number. *)
Lemma str_int_no_newline (n : Z) : no_char LF (str_int n) = true.
Proof.
  destruct (Z_lt_le_dec n 0) as [Hn|Hn].
  - destruct n as [|p|p]; try lia.
    change (str_int (Z.neg p)) with ("-" +:+ str_int (Z.pos p)).
    rewrite no_char_app.
    rewrite (digits_no_char LF (str_int (Z.pos p)))
      by (reflexivity || now apply str_int_digits).
    reflexivity.
  - apply digits_no_char; [reflexivity | now apply str_int_digits].
Qed.

Lemma zero_pad_no_newline (k : nat) (n : Z) : no_char LF (zero_pad k n) = true.
Proof.
  unfold zero_pad. rewrite no_char_app, str_int_no_newline, andb_true_r.
  now apply all_chars_repeat.
Qed.

Lemma datetime_str_no_newline (d : Datetime.datetime) :
  no_char LF (Datetime.str d) = true.
Proof.
  unfold Datetime.str, Datetime.fmt_date, Datetime.fmt_time.
  destruct (Datetime.microsecond d =? 0);
    rewrite ?no_char_app, ?zero_pad_no_newline; reflexivity.
Qed.

End PathNames.


Lemma lines_one (a : string) :
  Text.no_char Text.LF a = true -> Text.lines (a +:+ Text.NL) = [a].
Proof.
  intros Ha. unfold Text.lines, Text.NL.
  rewrite lines_go_line by assumption. reflexivity.
Qed.

Lemma lines_two (a b : string) :
  Text.no_char Text.LF a = true -> Text.no_char Text.LF b = true ->
  Text.lines ((a +:+ Text.NL) +:+ b +:+ Text.NL) = [a; b].
Proof.
  intros Ha Hb. rewrite app_assoc_s, lines_line by assumption.
  now rewrite lines_one.
Qed.

(** Reading under a plain name: the regular file of that name in the
    working directory, if there is one. *)
Lemma read_plain (w : World) (name : string) :
  entry_name name = true ->
  Os.read w name
  = if bool_decide ([name] ∈ dirs (fs w)) then None else files (fs w) !! [name].
Proof.
  intros Hsane. unfold Os.read. rewrite lookup_plain by assumption.
  apply entry_name_spec in Hsane as (_ & _ & _ & _ & _ & Hlen).
  rewrite too_long_snoc by assumption.
  unfold Os.kind_at. rewrite kind_of_inside, strip_app.
  destruct (Os.kind_in_tree (fs w) [name]) eqn:Ek.
  - apply kind_in_tree_Missing in Ek as (_ & Hd & Hf).
    rewrite bool_decide_false by assumption.
    symmetry. now apply not_elem_of_dom.
  - apply kind_in_tree_Regular in Ek as (_ & Hd & _).
    now rewrite bool_decide_false by assumption.
  - apply kind_in_cwd in Ek. now rewrite bool_decide_true by assumption.
Qed.

(** C7, as stated, fails: [create_file] does not always write.  When the
    name it draws is the name of a directory, the file cannot be opened
    and [create_file] raises [IsADirectoryError]. *)
Lemma C7_counterexample_directory_clash :
  ~ (forall w : World,
       exists (n data : Z) (w' : World),
         let filename := "file_" +:+ Text.str_int n +:+ ".txt" in
         let line1 := "Content generated at " +:+ Datetime.str (peek (clock w)) in
         let line2 := "Random data: " +:+ Text.str_int data in
         let content := (line1 +:+ Text.NL) +:+ line2 +:+ Text.NL in
         create_file w = (Ok filename, w')
         /\ 1000 <= n <= 9999
         /\ Os.read w' filename = Some content
         /\ Text.lines content = [line1; line2]
         /\ line1 <> EmptyString /\ line2 <> EmptyString).
Proof.
  intros claim.
  destruct (claim world_dir_clash) as (n & data & w' & Erun & _).
  apply (f_equal fst) in Erun. vm_compute in Erun. discriminate.
Qed.

(** C7, amended: [create_file] draws a name [file_<n>.txt] where [n] is a
    four-digit number, and a text of exactly two lines, both non-empty:
    the generation timestamp and the random integer.  If a directory of
    the working directory has that name, it raises [IsADirectoryError] and
    the tree stays as it is.  Otherwise it succeeds and returns the name,
    and the file of that name then holds that text.  No check is made for
    an existing file of that name: the new text replaces whatever the tree
    held under it, and nothing else in the tree changes. *)
Theorem C7_create_file_writes_two_lines (w : World) :
  exists (n data : Z),
    let filename := "file_" +:+ Text.str_int n +:+ ".txt" in
    let line1 := "Content generated at " +:+ Datetime.str (peek (clock w)) in
    let line2 := "Random data: " +:+ Text.str_int data in
    let content := (line1 +:+ Text.NL) +:+ line2 +:+ Text.NL in
    let w2 := set_rng (advance (advance (rng w))) (set_clock (advance (clock w)) w) in
    1000 <= n <= 9999
    /\ String.length (Text.str_int n) = 4%nat
    /\ Text.all_chars Text.is_digit (Text.str_int n) = true
    /\ 1 <= data <= 1000000
    /\ Text.lines content = [line1; line2]
    /\ line1 <> EmptyString /\ line2 <> EmptyString
    /\ if bool_decide ([filename] ∈ dirs (fs w))
       then create_file w = (Raise (IsADirectoryError filename), w2)
       else exists w' : World,
              create_file w = (Ok filename, w')
              /\ Os.read w' filename = Some content
              /\ files (fs w') = <[[filename] := content]> (files (fs w))
              /\ dirs (fs w') = dirs (fs w).
Proof.
  pose proof (Z.mod_pos_bound (peek (rng w)) 9000 eq_refl) as Hn.
  pose proof (Z.mod_pos_bound (peek (advance (rng w))) 1000000 eq_refl) as Hd.
  exists (1000 + peek (rng w) mod 9000), (1 + peek (advance (rng w)) mod 1000000).
  cbv zeta.
  split; [lia|].
  split; [apply (str_int_length 3); simpl; lia|].
  split; [apply str_int_digits; lia|].
  split; [lia|].
  split.
  { apply lines_two.
    - rewrite no_char_app, datetime_str_no_newline. reflexivity.
    - rewrite no_char_app, str_int_no_newline. reflexivity. }
  split; [discriminate|]. split; [discriminate|].
  pose proof (create_file_run w) as Erun. cbv zeta in Erun.
  case_bool_decide as Hdir; [exact Erun|].
  eexists. split; [exact Erun|].
  split.
  { rewrite read_plain by (apply entry_created_name; lia).
    cbn [fs files dirs set_files set_fs set_rng set_clock].
    rewrite bool_decide_false by assumption. apply lookup_insert_eq. }
  split; reflexivity.
Qed.

(** ** [modify_file] and [delete_file] *)

Section ModifyDelete.

Import Text.

Lemma alter_twice_found (m : gmap path string) (p : path) (old : string)
      (g h : string -> string) :
  m !! p = Some old -> alter g p (alter h p m) = <[p := g (h old)]> m.
Proof.
  intros E. apply map_eq. intros q.
  destruct (decide (p = q)) as [<-|Hne].
  - rewrite !lookup_alter_eq, lookup_insert_eq, E. reflexivity.
  - rewrite !lookup_alter_ne, lookup_insert_ne by assumption. reflexivity.
Qed.

(** What [Os.read] finds is a regular file of the working tree. *)
Lemma read_Some (w : World) (name old : string) :
  Os.read w name = Some old ->
  exists (a p : path),
    Os.lookup w name = Os.Entry a false
    /\ Os.too_long a = false
    /\ Os.kind_at w a = Os.Regular
    /\ Os.strip (Os.cwd_path w) a = Some p
    /\ files (fs w) !! p = Some old.
Proof.
  unfold Os.read.
  destruct (Os.lookup w name) as [e|d|a [|]] eqn:El; try discriminate.
  destruct (Os.too_long a) eqn:Hl; [discriminate|].
  destruct (Os.kind_at w a) eqn:Ek; try discriminate.
  destruct (Os.strip (Os.cwd_path w) a) as [p|] eqn:Es; [|discriminate].
  intros E. exists a, p. repeat split; assumption || reflexivity.
Qed.

Lemma read_found (w : World) (name : string) (a p : path) :
  Os.lookup w name = Os.Entry a false -> Os.too_long a = false ->
  Os.kind_at w a = Os.Regular -> Os.strip (Os.cwd_path w) a = Some p ->
  Os.read w name = files (fs w) !! p.
Proof. unfold Os.read. now intros -> -> -> ->. Qed.

Lemma target_found (w : World) (name : string) (a p : path) (s : bool) :
  Os.lookup w name = Os.Entry a s -> Os.strip (Os.cwd_path w) a = Some p ->
  Os.target w name = Some p.
Proof. unfold Os.target. now intros -> ->. Qed.

(** Kinds after a change of one regular file. *)
Lemma kind_of_put (t : FileSystem) (cwd a : path) (text : string) :
  Os.kind_of t cwd a <> Os.Directory ->
  Os.kind_of (Os.put t cwd a text) cwd a = Os.Regular.
Proof.
  unfold Os.kind_of, Os.put. destruct (Os.strip cwd a) as [p|] eqn:Es.
  - intros Hk. apply kind_in_tree_Regular. cbn [dirs files].
    rewrite kind_in_tree_Directory in Hk.
    split; [tauto|]. split; [tauto|].
    apply elem_of_dom. rewrite lookup_insert_eq. eauto.
  - cbn [outer_dirs outer_files].
    case_bool_decide; [congruence|]. intros _.
    rewrite bool_decide_true by set_solver. reflexivity.
Qed.

Lemma kind_of_extend (t : FileSystem) (cwd a b : path) (s : string) :
  Os.kind_of (Os.extend t cwd a s) cwd b = Os.kind_of t cwd b.
Proof.
  unfold Os.extend. destruct (Os.strip cwd a) as [p|]; [|reflexivity].
  unfold Os.kind_of. destruct (Os.strip cwd b) as [q|]; [|reflexivity].
  unfold Os.kind_in_tree. cbn [dirs files]. now rewrite dom_alter_L.
Qed.

(** Writing to a file of the working tree, and to one outside of it. *)
Lemma write_inside (a p : path) (s : string) (w : World) :
  Os.strip (Os.cwd_path w) a = Some p ->
  Os.write a s w
  = (Ok tt, set_files (alter (fun old => old +:+ s) p (files (fs w))) w).
Proof. intros E. unfold Os.write, Os.extend. now rewrite E. Qed.

Lemma write_outside (a : path) (s : string) (w : World) :
  Os.strip (Os.cwd_path w) a = None -> Os.write a s w = (Ok tt, set_fs (fs w) w).
Proof. intros E. unfold Os.write, Os.extend. now rewrite E. Qed.

Lemma set_fs_same (w : World) : set_fs (fs w) w = w.
Proof. now destruct w. Qed.

(** Opening for appending: the three ways it can go. *)
Lemma open_a_found (name : string) (a : path) (w : World) :
  Os.lookup w name = Os.Entry a false -> Os.too_long a = false ->
  Os.kind_at w a = Os.Regular ->
  Os.open name Os.mode_a w = (Ok a, w).
Proof. unfold Os.open. now intros -> -> ->. Qed.

Lemma open_missing (name : string) (mode : Os.Mode) (a : path) (w : World) :
  Os.lookup w name = Os.Entry a false -> Os.too_long a = false ->
  Os.kind_at w a = Os.Missing ->
  Os.open name mode w
  = (Ok a, set_fs (Os.put (fs w) (Os.cwd_path w) a EmptyString) w).
Proof. unfold Os.open. intros -> -> ->. now destruct mode. Qed.

(** Whatever [open] raises, it leaves the world as it was. *)
Lemma open_raises (name : string) (mode : Os.Mode) (w w' : World) (e : exn) :
  Os.open name mode w = (Raise e, w') -> w' = w.
Proof.
  unfold Os.open.
  destruct (Os.lookup w name) as [e0|d|a [|]]; try (now intros [= _ <-]).
  destruct (Os.too_long a); [now intros [= _ <-]|].
  destruct (Os.kind_at w a), mode; (now intros [= _ <-]) || discriminate.
Qed.

Lemma remove_raises (name : string) (w w' : World) (e : exn) :
  Os.remove name w = (Raise e, w') -> w' = w.
Proof.
  unfold Os.remove.
  destruct (Os.lookup w name) as [e0|d|a s]; try (now intros [= _ <-]).
  destruct (Os.too_long a); [now intros [= _ <-]|].
  destruct (Os.kind_at w a); try (now intros [= _ <-]).
  destruct s; (now intros [= _ <-]) || discriminate.
Qed.

(** When [open] succeeds, the name leads to an entry that is no
    directory, and the tree is as it was or has that entry as an empty
    regular file. *)
Lemma open_returns (name : string) (mode : Os.Mode) (w w' : World) (a : path) :
  Os.open name mode w = (Ok a, w') ->
  Os.lookup w name = Os.Entry a false
  /\ Os.too_long a = false
  /\ Os.kind_at w a <> Os.Directory
  /\ (w' = w \/ w' = set_fs (Os.put (fs w) (Os.cwd_path w) a EmptyString) w).
Proof.
  unfold Os.open.
  destruct (Os.lookup w name) as [e0|d|b [|]] eqn:El; try discriminate.
  destruct (Os.too_long b) eqn:Hl; [discriminate|].
  destruct (Os.kind_at w b) eqn:Ek, mode; try discriminate;
    intros [= <- <-];
    (split; [reflexivity|]; split; [assumption|]; split; [congruence|]);
    [right|right|right|left]; reflexivity.
Qed.

(** The text [modify_file] writes: a line feed, the timestamp line and
    the data line. *)
Lemma modify_file_run (filename : string) (a : path) (w w1 : World) :
  Os.open filename Os.mode_a w = (Ok a, w1) ->
  let now := peek (clock w) in
  let data := 1 + peek (rng w) mod 1000000 in
  let block1 := NL +:+ "Modified at " +:+ Datetime.str now +:+ NL in
  let block2 := "Additional data: " +:+ str_int data +:+ NL in
  modify_file filename w
  = (Ok filename,
     set_fs (Os.extend (Os.extend (fs w1) (Os.cwd_path w) a block1)
                       (Os.cwd_path w) a block2)
       (set_rng (advance (rng w)) (set_clock (advance (clock w)) w))).
Proof.
  intros Eopen now data block1 block2. unfold modify_file.
  rewrite (bind_Ok _ _ _ _ _ Eopen); cbv beta zeta.
  apply open_returns in Eopen as (_ & _ & _ & [->| ->]);
    unfold bind, datetime_now, Os.write, Random.randint, Random.next_raw, ret;
    reflexivity.
Qed.

Lemma modify_file_raises (filename : string) (w w' : World) (e : exn) :
  Os.open filename Os.mode_a w = (Raise e, w') ->
  modify_file filename w = (Raise e, w).
Proof.
  intros Eopen. pose proof (open_raises _ _ _ _ _ Eopen) as ->.
  unfold modify_file. now rewrite (bind_Raise _ _ _ _ _ Eopen).
Qed.

Lemma modify_file_existing (filename old : string) (w : World) :
  Os.read w filename = Some old ->
  exists p : path,
    Os.target w filename = Some p
    /\ files (fs w) !! p = Some old
    /\ let now := peek (clock w) in
       let data := 1 + peek (rng w) mod 1000000 in
       let block1 := NL +:+ "Modified at " +:+ Datetime.str now +:+ NL in
       let block2 := "Additional data: " +:+ str_int data +:+ NL in
       let w' := set_files (<[p := (old +:+ block1) +:+ block2]> (files (fs w)))
                   (set_rng (advance (rng w)) (set_clock (advance (clock w)) w)) in
       modify_file filename w = (Ok filename, w')
       /\ Os.read w' filename = Some ((old +:+ block1) +:+ block2).
Proof.
  intros (a & p & El & Hlong & Ek & Es & Ep)%read_Some.
  exists p. split; [exact (target_found _ _ _ _ _ El Es)|]. split; [exact Ep|].
  intros now data block1 block2 w'.
  assert (Erun : modify_file filename w = (Ok filename, w')).
  { rewrite (modify_file_run _ _ _ _ (open_a_found _ _ _ El Hlong Ek)).
    cbv zeta. unfold Os.extend. rewrite Es.
    cbn [fs files dirs outer_dirs outer_files].
    erewrite alter_twice_found by exact Ep. reflexivity. }
  split; [exact Erun|].
  assert (El' : Os.lookup w' filename = Os.Entry a false)
    by (now apply (lookup_mono w w')).
  rewrite (read_found w' filename a p El' Hlong); [| |exact Es].
  - subst w'. cbn [fs files set_files set_fs set_rng set_clock].
    apply lookup_insert_eq.
  - unfold Os.kind_at in *. change (Os.cwd_path w') with (Os.cwd_path w).
    unfold Os.kind_of in *. rewrite Es in *.
    apply kind_in_tree_Regular in Ek as (H1 & H2 & H3).
    apply kind_in_tree_Regular. subst w'.
    cbn [fs files dirs set_files set_fs set_rng set_clock].
    split; [exact H1|]. split; [exact H2|].
    rewrite dom_insert. now apply elem_of_union_r.
Qed.

(** Removing: the ways it can go. *)
Lemma remove_found (name : string) (a : path) (w : World) :
  Os.lookup w name = Os.Entry a false -> Os.too_long a = false ->
  Os.kind_at w a = Os.Regular ->
  Os.remove name w = (Ok tt, set_fs (Os.unlink (fs w) (Os.cwd_path w) a) w).
Proof. unfold Os.remove. now intros -> -> ->. Qed.

Lemma remove_returns (name : string) (w w' : World) :
  Os.remove name w = (Ok tt, w') ->
  exists a : path,
    Os.lookup w name = Os.Entry a false
    /\ Os.too_long a = false
    /\ Os.kind_at w a = Os.Regular
    /\ w' = set_fs (Os.unlink (fs w) (Os.cwd_path w) a) w.
Proof.
  unfold Os.remove.
  destruct (Os.lookup w name) as [e0|d|b s] eqn:El; try discriminate.
  destruct (Os.too_long b) eqn:Hl; [discriminate|].
  destruct (Os.kind_at w b) eqn:Ek; try discriminate.
  destruct s; [discriminate|]. intros [= <-]. exists b. auto.
Qed.

Lemma delete_file_existing (filename old : string) (w : World) :
  Os.read w filename = Some old ->
  exists p : path,
    Os.target w filename = Some p
    /\ files (fs w) !! p = Some old
    /\ delete_file filename w
       = (Ok filename, set_files (delete p (files (fs w))) w).
Proof.
  intros (a & p & El & Hlong & Ek & Es & Ep)%read_Some.
  exists p. split; [exact (target_found _ _ _ _ _ El Es)|]. split; [exact Ep|].
  unfold delete_file.
  rewrite (bind_Ok _ _ _ _ _ (remove_found _ _ _ El Hlong Ek)).
  unfold ret, Os.unlink. now rewrite Es.
Qed.

Lemma delete_file_raises (filename : string) (w w' : World) (e : exn) :
  Os.remove filename w = (Raise e, w') ->
  delete_file filename w = (Raise e, w).
Proof.
  intros E. pose proof (remove_raises _ _ _ _ E) as ->.
  unfold delete_file. now rewrite (bind_Raise _ _ _ _ _ E).
Qed.

Lemma prefix_app (a b : string) : String.prefix a (a +:+ b) = true.
Proof.
  induction a as [|x a IH]; simpl; [now destruct b|].
  destruct (ascii_dec x x); [exact IH | congruence].
Qed.

End ModifyDelete.

Lemma lines_blank_then_two (a b : string) :
  Text.no_char Text.LF a = true -> Text.no_char Text.LF b = true ->
  Text.lines ((Text.NL +:+ a +:+ Text.NL) +:+ (b +:+ Text.NL)) = [EmptyString; a; b].
Proof.
  intros Ha Hb.
  change ((Text.NL +:+ a +:+ Text.NL) +:+ (b +:+ Text.NL))
    with (EmptyString +:+ Text.NL +:+ ((a +:+ Text.NL) +:+ (b +:+ Text.NL))).
  rewrite lines_line by reflexivity.
  now rewrite lines_two.
Qed.

Example read_notes :
  Os.read (world_of tree_notes [41] [an_instant] []) "notes.txt"
  = Some ("first line" +:+ Text.NL).
Proof. vm_compute. reflexivity. Qed.

(** C4, as stated, fails: a file that ends with a line feed (every file
    written by [create_file] does) gains three lines, the first of them
    empty.  Here a file of one line has four lines after [modify_file]. *)
Lemma C4_counterexample_three_lines :
  ~ (forall (w : World) (f old : string),
       Os.read w f = Some old ->
       exists (w' : World) (new : string),
         modify_file f w = (Ok f, w')
         /\ Os.read w' f = Some new
         /\ Text.line_count new = (Text.line_count old + 2)%nat
         /\ String.prefix old new = true).
Proof.
  intros claim.
  destruct (claim (world_of tree_notes [41] [an_instant] []) "notes.txt"
              ("first line" +:+ Text.NL) read_notes)
    as (w' & new & Erun & Eread & Ecount & _).
  destruct (modify_file_existing "notes.txt" ("first line" +:+ Text.NL)
              (world_of tree_notes [41] [an_instant] []) read_notes)
    as (p & _ & _ & Erun' & Eread').
  rewrite Erun in Erun'. apply (f_equal snd) in Erun'. cbn [snd] in Erun'.
  rewrite <- Erun' in Eread'. rewrite Eread in Eread'.
  apply (inj Some) in Eread'. subst new. clear -Ecount.
  vm_compute in Ecount. discriminate.
Qed.

(** C4, amended: [modify_file] on an existing file succeeds and appends a
    line feed, the modification timestamp line and the random integer line.
    The prior content is a prefix of the new content.  The line count grows
    by 3 when the prior content is empty or ends with a line feed (the
    first new line is then empty), and by 2 otherwise. *)
Theorem C4_modify_file_appends (w : World) (f old : string) :
  Os.read w f = Some old ->
  exists (data : Z) (w' : World),
    let stamp := "Modified at " +:+ Datetime.str (peek (clock w)) in
    let payload := "Additional data: " +:+ Text.str_int data in
    let new := (old +:+ (Text.NL +:+ stamp +:+ Text.NL)) +:+ (payload +:+ Text.NL) in
    1 <= data <= 1000000
    /\ modify_file f w = (Ok f, w')
    /\ Os.read w' f = Some new
    /\ String.prefix old new = true
    /\ Text.lines ((Text.NL +:+ stamp +:+ Text.NL) +:+ (payload +:+ Text.NL))
       = [EmptyString; stamp; payload]
    /\ Text.line_count new
       = (Text.line_count old
          + (if Text.is_empty old || Text.ends_with_newline old then 3 else 2))%nat.
Proof.
  intros E.
  pose proof (Z.mod_pos_bound (peek (rng w)) 1000000 eq_refl) as Hd.
  destruct (modify_file_existing f old w E) as (p & _ & _ & Erun & Eread).
  exists (1 + peek (rng w) mod 1000000). eexists. cbv zeta.
  assert (Hs : Text.no_char Text.LF ("Modified at " +:+ Datetime.str (peek (clock w))) = true).
  { rewrite no_char_app, datetime_str_no_newline. reflexivity. }
  assert (Hp : Text.no_char Text.LF
                 ("Additional data: " +:+ Text.str_int (1 + peek (rng w) mod 1000000)) = true).
  { rewrite no_char_app, str_int_no_newline. reflexivity. }
  split; [lia|].
  split; [exact Erun|].
  split; [rewrite Eread; now rewrite !app_assoc_s|].
  split; [rewrite app_assoc_s; apply prefix_app|].
  split; [now apply lines_blank_then_two|].
  rewrite (app_assoc_s old). now apply line_count_append_block.
Qed.

Lemma C4_modify_file_appends_witness :
  Os.read (world_of tree_notes [41] [an_instant] []) "notes.txt"
  = Some ("first line" +:+ Text.NL)
  /\ exists (data : Z) (w' : World),
      modify_file "notes.txt" (world_of tree_notes [41] [an_instant] [])
      = (Ok "notes.txt", w')
      /\ Text.line_count <$> Os.read w' "notes.txt" = Some 4%nat.
Proof.
  assert (Hread : Os.read (world_of tree_notes [41] [an_instant] []) "notes.txt"
                  = Some ("first line" +:+ Text.NL)) by (vm_compute; reflexivity).
  split; [exact Hread|].
  destruct (C4_modify_file_appends (world_of tree_notes [41] [an_instant] [])
              "notes.txt" ("first line" +:+ Text.NL) Hread)
    as (data & w' & _ & Erun & Eread & _ & _ & Ecount).
  exists data, w'. split; [exact Erun|].
  rewrite Eread. cbn [fmap option_fmap option_map]. f_equal.
  rewrite Ecount. reflexivity.
Defined.

(** The directories stay as they are when a regular file is written. *)
Lemma dirs_put (t : FileSystem) (cwd a : path) (text : string) :
  dirs (Os.put t cwd a text) = dirs t
  /\ outer_dirs (Os.put t cwd a text) = outer_dirs t.
Proof. unfold Os.put. now destruct (Os.strip cwd a). Qed.

Lemma dirs_extend (t : FileSystem) (cwd a : path) (s : string) :
  dirs (Os.extend t cwd a s) = dirs t
  /\ outer_dirs (Os.extend t cwd a s) = outer_dirs t.
Proof. unfold Os.extend. now destruct (Os.strip cwd a). Qed.

Lemma dirs_unlink (t : FileSystem) (cwd a : path) :
  dirs (Os.unlink t cwd a) = dirs t
  /\ outer_dirs (Os.unlink t cwd a) = outer_dirs t.
Proof. unfold Os.unlink. now destruct (Os.strip cwd a). Qed.

(** [modify_file] on a name that leads to no entry, in a directory that
    exists: the file is made and holds the two blocks. *)
Lemma modify_file_missing (filename : string) (a : path) (w : World) :
  Os.lookup w filename = Os.Entry a false -> Os.too_long a = false ->
  Os.kind_at w a = Os.Missing ->
  let now := peek (clock w) in
  let data := 1 + peek (rng w) mod 1000000 in
  let block1 := Text.NL +:+ "Modified at " +:+ Datetime.str now +:+ Text.NL in
  let block2 := "Additional data: " +:+ Text.str_int data +:+ Text.NL in
  exists w' : World,
    modify_file filename w = (Ok filename, w')
    /\ Os.lookup w' filename = Os.Entry a false
    /\ Os.kind_at w' a = Os.Regular
    /\ dirs (fs w') = dirs (fs w)
    /\ (forall p : path,
          Os.strip (Os.cwd_path w) a = Some p ->
          files (fs w') = <[p := block1 +:+ block2]> (files (fs w))
          /\ Os.read w' filename = Some (block1 +:+ block2))
    /\ (Os.strip (Os.cwd_path w) a = None -> files (fs w') = files (fs w)).
Proof.
  intros El Hlong Ek now data block1 block2.
  pose proof (modify_file_run _ _ _ _ (open_missing _ Os.mode_a _ _ El Hlong Ek)) as Erun.
  cbv zeta in Erun. fold now data block1 block2 in Erun.
  match type of Erun with _ = (_, ?x) => set (w' := x) in * end.
  assert (Hd : dirs (fs w') = dirs (fs w) /\ outer_dirs (fs w') = outer_dirs (fs w)).
  { subst w'. cbn [fs set_fs set_rng set_clock].
    destruct (dirs_extend (Os.extend (Os.put (fs w) (Os.cwd_path w) a EmptyString)
                                      (Os.cwd_path w) a block1)
                           (Os.cwd_path w) a block2) as [-> ->].
    destruct (dirs_extend (Os.put (fs w) (Os.cwd_path w) a EmptyString)
                           (Os.cwd_path w) a block1) as [-> ->].
    apply dirs_put. }
  assert (El' : Os.lookup w' filename = Os.Entry a false)
    by (apply (lookup_mono w w'); [reflexivity|apply Hd|apply Hd|exact El]).
  assert (Ek' : Os.kind_at w' a = Os.Regular).
  { unfold Os.kind_at. change (Os.cwd_path w') with (Os.cwd_path w).
    subst w'. cbn [fs set_fs set_rng set_clock].
    rewrite !kind_of_extend. apply kind_of_put.
    unfold Os.kind_at in Ek. rewrite Ek. discriminate. }
  exists w'. split; [exact Erun|]. split; [exact El'|]. split; [exact Ek'|].
  split; [apply Hd|]. split.
  - intros p Es.
    assert (Hfiles : files (fs w') = <[p := block1 +:+ block2]> (files (fs w))).
    { subst w'. cbn [fs set_fs set_rng set_clock].
      unfold Os.extend, Os.put. rewrite Es. cbn [files].
      rewrite !alter_insert_eq. reflexivity. }
    split; [exact Hfiles|].
    rewrite (read_found w' filename a p El' Hlong Ek' Es), Hfiles.
    apply lookup_insert_eq.
  - intros Es. subst w'. cbn [fs set_fs set_rng set_clock].
    unfold Os.extend, Os.put. now rewrite Es.
Qed.

(** An exception of the file operation leaves [perform_random_operation],
    and then [create_commit], as it is: neither recovers from it. *)
Lemma create_commit_propagates (d : Datetime.datetime) (w w' : World) (e : exn) :
  perform_random_operation w = (Raise e, w') ->
  create_commit d w = (Raise e, w').
Proof. intros E. unfold create_commit. now rewrite (bind_Raise _ _ _ _ _ E). Qed.

(** ** Operation selection (C2, C3) *)

Section Selection.

(** The double nearest to 0.4 separates the values of [random()] exactly
    as the rational 2/5 does, and likewise for 0.8 and 4/5: no multiple of
    2^-53 lies between a threshold and its double. *)
Lemma float_lt_0_4 (k : Z) :
  float_lt (k # Random.RESOLUTION) float_0_4 = true
  <-> (k # Random.RESOLUTION < 2 # 5)%Q.
Proof.
  unfold float_lt, float_0_4, Qle_bool, Qlt, Random.RESOLUTION.
  cbn [Qnum Qden]. rewrite negb_true_iff, Z.leb_gt. lia.
Qed.

Lemma float_lt_0_8 (k : Z) :
  float_lt (k # Random.RESOLUTION) float_0_8 = true
  <-> (k # Random.RESOLUTION < 4 # 5)%Q.
Proof.
  unfold float_lt, float_0_8, Qle_bool, Qlt, Random.RESOLUTION.
  cbn [Qnum Qden]. rewrite negb_true_iff, Z.leb_gt. lia.
Qed.

Lemma random_run (w : World) :
  Random.random w
  = (Ok ((peek (rng w) mod Zpos Random.RESOLUTION) # Random.RESOLUTION),
     set_rng (advance (rng w)) w).
Proof. reflexivity. Qed.

(** [perform_random_operation] carries out the operation the policy
    selects for the draw. *)
Lemma perform_random_operation_policy (w : World) :
  perform_random_operation w
  = match existing_files_of (fs w) with
    | [] => carry_out Create [] w
    | _ =>
        (r <- Random.random ;;
         carry_out (chooseOperation (existing_files_of (fs w)) r)
                   (existing_files_of (fs w))) w
    end.
Proof.
  unfold perform_random_operation.
  rewrite (bind_Ok get_existing_files _ w _ _ eq_refl).
  destruct (existing_files_of (fs w)) as [|f0 rest] eqn:Efiles; [reflexivity|].
  rewrite !(bind_Ok _ _ _ _ _ (random_run w)).
  set (k := peek (rng w) mod Zpos Random.RESOLUTION). clearbody k.
  unfold chooseOperation.
  destruct (float_lt (k # Random.RESOLUTION) float_0_4) eqn:E4.
  { apply (proj1 (float_lt_0_4 k)) in E4.
    destruct (Qlt_le_dec (k # Random.RESOLUTION) (2 # 5)) as [_|Hge]; [reflexivity|].
    exfalso. exact (Qlt_not_le _ _ E4 Hge). }
  destruct (Qlt_le_dec (k # Random.RESOLUTION) (2 # 5)) as [Hlt|_].
  { apply (proj2 (float_lt_0_4 k)) in Hlt.
    rewrite Hlt in *. discriminate. }
  destruct (float_lt (k # Random.RESOLUTION) float_0_8) eqn:E8.
  { apply (proj1 (float_lt_0_8 k)) in E8.
    destruct (Qlt_le_dec (k # Random.RESOLUTION) (4 # 5)) as [_|Hge]; [reflexivity|].
    exfalso. exact (Qlt_not_le _ _ E8 Hge). }
  destruct (Qlt_le_dec (k # Random.RESOLUTION) (4 # 5)) as [Hlt|_].
  { apply (proj2 (float_lt_0_8 k)) in Hlt.
    rewrite Hlt in *. discriminate. }
  destruct (5 <? length (f0 :: rest))%nat; reflexivity.
Qed.

Lemma chooseOperation_Delete (l : list string) (r : Q) :
  chooseOperation l r = Delete -> (5 < length l)%nat.
Proof.
  unfold chooseOperation. destruct l as [|f0 rest]; [discriminate|].
  destruct (Qlt_le_dec r (2 # 5)); [discriminate|].
  destruct (Qlt_le_dec r (4 # 5)); [discriminate|].
  destruct (5 <? length (f0 :: rest))%nat eqn:E; [|discriminate].
  intros _. now apply Nat.ltb_lt.
Qed.

(** The label returned is that of the operation carried out. *)
Lemma carry_out_label (k : Kind) (l : list string) (w w' : World)
      (filename operation : string) :
  carry_out k l w = (Ok (filename, operation), w') -> operation = kind_name k.
Proof.
  destruct k; unfold carry_out, bind, ret.
  - destruct (create_file w) as [[x|e] w1]; intros [=]; now subst.
  - destruct (Random.choice l w) as [[x|e] w1]; [|intros [=]].
    destruct (modify_file x w1) as [[y|e] w2]; intros [=]; now subst.
  - destruct (Random.choice l w) as [[x|e] w1]; [|intros [=]].
    destruct (delete_file x w1) as [[y|e] w2]; intros [=]; now subst.
Qed.

(** Neither drawing nor creating nor modifying removes a file. *)
Lemma choice_fs {A} (l : list A) (w : World) : fs (snd (Random.choice l w)) = fs w.
Proof. destruct l; reflexivity. Qed.

Lemma dom_files_extend (t : FileSystem) (cwd a : path) (s : string) :
  dom (files (Os.extend t cwd a s)) = dom (files t).
Proof.
  unfold Os.extend. destruct (Os.strip cwd a); [|reflexivity].
  cbn [files]. apply dom_alter_L.
Qed.

Lemma dom_files_put (t : FileSystem) (cwd a : path) (text : string) :
  dom (files t) ⊆ dom (files (Os.put t cwd a text)).
Proof.
  unfold Os.put. destruct (Os.strip cwd a); [|reflexivity].
  cbn [files]. rewrite dom_insert_L. apply union_subseteq_r.
Qed.

Lemma create_file_keeps (w : World) :
  dom (files (fs w)) ⊆ dom (files (fs (snd (create_file w)))).
Proof.
  rewrite create_file_run. case_bool_decide; [reflexivity|].
  cbn [snd fs files set_files set_fs set_rng set_clock].
  rewrite dom_insert_L. apply union_subseteq_r.
Qed.

Lemma modify_file_keeps (filename : string) (w : World) :
  dom (files (fs w)) ⊆ dom (files (fs (snd (modify_file filename w)))).
Proof.
  destruct (Os.open filename Os.mode_a w) as [[a|e] w1] eqn:Eopen.
  - rewrite (modify_file_run _ _ _ _ Eopen).
    cbn [snd fs set_fs set_rng set_clock]. rewrite !dom_files_extend.
    apply open_returns in Eopen as (_ & _ & _ & [->| ->]); [reflexivity|].
    cbn [fs set_fs]. apply dom_files_put.
  - now rewrite (modify_file_raises _ _ _ _ Eopen).
Qed.

Lemma carry_out_keeps (k : Kind) (l : list string) (w : World) :
  k <> Delete ->
  dom (files (fs w)) ⊆ dom (files (fs (snd (carry_out k l w)))).
Proof.
  destruct k; [| |congruence]; intros _; unfold carry_out, bind.
  - pose proof (create_file_keeps w) as H.
    destruct (create_file w) as [[x|e] w1]; exact H.
  - pose proof (choice_fs l w) as Hc.
    destruct (Random.choice l w) as [[x|e] w1]; cbn [snd] in Hc |- *.
    + pose proof (modify_file_keeps x w1) as H. rewrite Hc in H.
      destruct (modify_file x w1) as [[y|e] w2]; exact H.
    + now rewrite Hc.
Qed.

End Selection.

(** C2: [perform_random_operation] follows the policy in order.  With no
    existing file it creates, without drawing.  Otherwise it draws [r] in
    [0, 1) and carries out the operation of [chooseOperation]: create for
    [r < 0.4], modify for [0.4 <= r < 0.8], and for [r >= 0.8] delete when
    more than 5 files exist, else modify.  The target of modify and delete
    is the element of the list at a drawn index. *)
Theorem C2_perform_random_operation_policy (w : World) :
  let existing := existing_files_of (fs w) in
  get_existing_files w = (Ok existing, w)
  /\ perform_random_operation w
     = match existing with
       | [] => carry_out Create [] w
       | _ => (r <- Random.random ;;
               carry_out (chooseOperation existing r) existing) w
       end
  /\ (exists r, Random.random w = (Ok r, set_rng (advance (rng w)) w)
                /\ (0 <= r)%Q /\ (r < 1)%Q)
  /\ (forall (f0 : string) (rest : list string) (w1 : World),
        exists (target : string) (i : nat),
          Random.choice (f0 :: rest) w1 = (Ok target, set_rng (advance (rng w1)) w1)
          /\ i = Z.to_nat (peek (rng w1) mod Z.of_nat (length (f0 :: rest)))
          /\ (f0 :: rest) !! i = Some target).
Proof.
  intros existing. split; [reflexivity|].
  split; [apply perform_random_operation_policy|].
  split; [apply random_spec|].
  intros f0 rest w1. apply choice_spec. discriminate.
Qed.

(** C3: with at most 5 existing files, [perform_random_operation] never
    returns the label delete, whatever the draws, and removes no file from
    the tree; and whenever it returns delete, more than 5 files existed. *)
Theorem C3_delete_only_above_five (w : World) :
  ((length (existing_files_of (fs w)) <= 5)%nat ->
   (forall (filename operation : string) (w' : World),
      perform_random_operation w = (Ok (filename, operation), w') ->
      operation <> "delete")
   /\ dom (files (fs w)) ⊆ dom (files (fs (snd (perform_random_operation w)))))
  /\ (forall (filename : string) (w' : World),
        perform_random_operation w = (Ok (filename, "delete"), w') ->
        (5 < length (existing_files_of (fs w)))%nat).
Proof.
  assert (Hsel : exists (k : Kind) (w1 : World),
             perform_random_operation w = carry_out k (existing_files_of (fs w)) w1
             /\ fs w1 = fs w
             /\ (k = Delete -> (5 < length (existing_files_of (fs w)))%nat)).
  { rewrite perform_random_operation_policy.
    destruct (existing_files_of (fs w)) as [|f0 rest] eqn:E.
    - exists Create, w. repeat split. discriminate.
    - rewrite (bind_Ok _ _ _ _ _ (random_run w)).
      eexists _, _. split; [reflexivity|]. split; [reflexivity|].
      apply chooseOperation_Delete. }
  destruct Hsel as (k & w1 & Erun & Efs & Hk).
  assert (Hdel : forall filename w',
             perform_random_operation w = (Ok (filename, "delete"), w') ->
             (5 < length (existing_files_of (fs w)))%nat).
  { intros filename w' E. rewrite Erun in E.
    apply carry_out_label in E. apply Hk.
    destruct k; [discriminate|discriminate|reflexivity]. }
  split; [|exact Hdel].
  intros Hfew. split.
  - intros filename operation w' E ->.
    specialize (Hdel _ _ E). lia.
  - rewrite Erun, <- Efs. apply carry_out_keeps.
    intros ->. specialize (Hk eq_refl). lia.
Qed.

Lemma C3_delete_only_above_five_witness :
  (length (existing_files_of (fs world_five))
   <= 5)%nat
  /\ (forall (filename operation : string) (w' : World),
        perform_random_operation world_five
        = (Ok (filename, operation), w') ->
        operation <> "delete")
  /\ dom (files tree_five)
     ⊆ dom (files (fs (snd (perform_random_operation
                               world_five)))).
Proof.
  assert (H : (length (existing_files_of
                         (fs world_five)) <= 5)%nat).
  { vm_compute. lia. }
  split; [exact H|].
  exact (proj1 (C3_delete_only_above_five
                  world_five) H).
Defined.

(** The runs behind the scenario of the specification: with the same high
    draw, five files give a modify and six files give a delete. *)
Example high_draw_with_five_files :
  fst (perform_random_operation world_five)
  = Ok ("./b.txt", "modify").
Proof. vm_compute. reflexivity. Qed.

Example high_draw_with_six_files :
  fst (perform_random_operation world_six)
  = Ok ("./c.txt", "delete").
Proof. vm_compute. reflexivity. Qed.


(** ** The timestamp sequence (C6) *)

Lemma replicateM_generate_random_date (n : nat) (w : World) :
  exists (drawn : list Datetime.datetime) (w' : World),
    replicateM n generate_random_date w = (Ok drawn, w') /\ length drawn = n.
Proof.
  revert w. induction n as [|n IH]; intros w.
  - exists [], w. split; reflexivity.
  - destruct (generate_random_date_window w) as (t & w1 & Et & _).
    destruct (IH w1) as (ts & w2 & Ets & Hlen).
    exists (t :: ts), w2. split; [|simpl; congruence].
    cbn [replicateM].
    rewrite (bind_Ok _ _ _ _ _ Et), (bind_Ok _ _ _ _ _ Ets). reflexivity.
Qed.

(** C6: for every count, the sequence built by the two statements of
    [main] is produced (the computation returns), has exactly [count]
    elements and is non-decreasing: each element is at most every later
    one.  It is a rearrangement of the timestamps drawn.  Equal timestamps
    can occur, so the order is not strict: two draws at the same clock
    reading with the same offsets give the same timestamp twice. *)
Theorem C6_generate_dates_sorted (count : nat) (w : World) :
  (exists (drawn dates : list Datetime.datetime) (w' : World),
     replicateM count generate_random_date w = (Ok drawn, w')
     /\ generate_dates count w = (Ok dates, w')
     /\ length dates = count
     /\ StronglySorted Z.le dates
     /\ dates ≡ₚ drawn)
  /\ (exists (t : Datetime.datetime),
        fst (generate_dates 2 (world_of tree_empty [7; 7; 7; 7] [an_instant; an_instant] []))
        = Ok [t; t]).
Proof.
  split.
  - destruct (replicateM_generate_random_date count w) as (drawn & w' & E & Hlen).
    exists drawn, (sort drawn), w'.
    split; [exact E|].
    split; [unfold generate_dates; now rewrite (bind_Ok _ _ _ _ _ E)|].
    split; [unfold sort; now rewrite merge_sort_Permutation|].
    split; [apply StronglySorted_merge_sort; apply _|].
    apply merge_sort_Permutation.
  - eexists. vm_compute. reflexivity.
Qed.


(** ** Commits (C8) *)

Section Commits.

Lemma quiet_step_refl (w : World) : quiet_step w w.
Proof. repeat split. Qed.

Lemma quiet_step_trans (w1 w2 w3 : World) :
  quiet_step w1 w2 -> quiet_step w2 w3 -> quiet_step w1 w3.
Proof.
  unfold quiet_step. intros (?&?&?&?&?&?) (?&?&?&?&?&?).
  repeat split; congruence.
Qed.

Lemma choice_quiet {A} (l : list A) (w : World) :
  quiet_step w (snd (Random.choice l w)).
Proof. destruct l; repeat split. Qed.

Lemma create_file_quiet (w : World) : quiet_step w (snd (create_file w)).
Proof. rewrite create_file_run. case_bool_decide; repeat split. Qed.

Lemma modify_file_quiet (filename : string) (w : World) :
  quiet_step w (snd (modify_file filename w)).
Proof.
  destruct (Os.open filename Os.mode_a w) as [[a|e] w1] eqn:Eopen.
  - rewrite (modify_file_run _ _ _ _ Eopen). repeat split.
  - rewrite (modify_file_raises _ _ _ _ Eopen). repeat split.
Qed.

Lemma delete_file_quiet (filename : string) (w : World) :
  quiet_step w (snd (delete_file filename w)).
Proof.
  destruct (Os.remove filename w) as [[[]|e] w1] eqn:Erm.
  - apply remove_returns in Erm as (a & _ & _ & _ & ->).
    unfold delete_file, bind, Os.remove.
    destruct (Os.lookup w filename) as [e0|d|b s]; try apply quiet_step_refl.
    destruct (Os.too_long b); [apply quiet_step_refl|].
    destruct (Os.kind_at w b); try apply quiet_step_refl.
    destruct s; repeat split.
  - rewrite (delete_file_raises _ _ _ _ Erm). repeat split.
Qed.

Lemma carry_out_quiet (k : Kind) (l : list string) (w : World) :
  quiet_step w (snd (carry_out k l w)).
Proof.
  destruct k; unfold carry_out, bind.
  - pose proof (create_file_quiet w) as H.
    destruct (create_file w) as [[x|e] w1]; exact H.
  - pose proof (choice_quiet l w) as Hc.
    destruct (Random.choice l w) as [[x|e] w1]; cbn [snd] in Hc |- *; [|exact Hc].
    pose proof (modify_file_quiet x w1) as H.
    destruct (modify_file x w1) as [[y|e] w2]; cbn [snd] in H |- *;
      exact (quiet_step_trans _ _ _ Hc H).
  - pose proof (choice_quiet l w) as Hc.
    destruct (Random.choice l w) as [[x|e] w1]; cbn [snd] in Hc |- *; [|exact Hc].
    pose proof (delete_file_quiet x w1) as H.
    destruct (delete_file x w1) as [[y|e] w2]; cbn [snd] in H |- *;
      exact (quiet_step_trans _ _ _ Hc H).
Qed.

Lemma perform_random_operation_quiet (w : World) :
  quiet_step w (snd (perform_random_operation w)).
Proof.
  rewrite perform_random_operation_policy.
  destruct (existing_files_of (fs w)) as [|f0 rest]; [apply carry_out_quiet|].
  rewrite (bind_Ok _ _ _ _ _ (random_run w)).
  eapply quiet_step_trans; [|apply carry_out_quiet]. repeat split.
Qed.

(** [generate_commit_message] always returns, and only draws. *)
Lemma generate_commit_message_run (w : World) :
  exists (message : string) (r : Feed),
    generate_commit_message w = (Ok message, set_rng r w).
Proof.
  unfold generate_commit_message.
  destruct (choice_spec COMMIT_MESSAGES w) as (template & i & E & _); [discriminate|].
  rewrite (bind_Ok _ _ _ _ _ E).
  set (w1 := set_rng (advance (rng w)) w).
  destruct (Text.contains "{component}" template).
  { destruct (choice_spec COMPONENTS w1) as (c & j & Ec & _); [discriminate|].
    rewrite (bind_Ok _ _ _ _ _ Ec). eexists _, _. reflexivity. }
  destruct (Text.contains "{feature}" template).
  { destruct (choice_spec FEATURES w1) as (c & j & Ec & _); [discriminate|].
    rewrite (bind_Ok _ _ _ _ _ Ec). eexists _, _. reflexivity. }
  eexists _, _. reflexivity.
Qed.

(** [create_commit] after a successful file operation: the message is
    drawn, the staging command is started, and the commit command is
    started if staging exits with 0. *)
Lemma create_commit_run (commit_date : Datetime.datetime) (w w1 : World)
      (filename operation : string) :
  perform_random_operation w = (Ok (filename, operation), w1) ->
  exists (message : string) (r : Feed),
    let w2 := set_rng r w1 in
    let date_str := Datetime.strftime_ymd_hms commit_date in
    let stage := staging_process operation filename (environ w) in
    let commit := commit_process message date_str (environ w) in
    let t3 := git_leaves w (pos (git w)) (fs w1) in
    let w3 := set_fs t3 (set_spawned (spawned w ++ [stage])
                           (set_git (advance (git w)) w2)) in
    let t4 := git_leaves w (S (pos (git w))) t3 in
    let w4 := set_fs t4 (set_spawned (spawned w ++ [stage; commit])
                           (set_git (advance (advance (git w))) w2)) in
    generate_commit_message w1 = (Ok message, w2)
    /\ create_commit commit_date w
       = if peek (git w) =? 0 then
           if peek (advance (git w)) =? 0 then (Ok (message, operation, filename), w4)
           else (Raise (CalledProcessError (peek (advance (git w))) (argv commit)), w4)
         else (Raise (CalledProcessError (peek (git w)) (argv stage)), w3).
Proof.
  intros Eop.
  pose proof (perform_random_operation_quiet w) as Hq.
  rewrite Eop in Hq. cbn [snd] in Hq.
  destruct Hq as (Hsp & Henv & Hgit & _ & _ & Hleaves).
  destruct (generate_commit_message_run w1) as (message & r & Emsg).
  exists message, r. cbv zeta. split; [exact Emsg|].
  unfold create_commit.
  rewrite (bind_Ok _ _ _ _ _ Eop); cbv beta iota zeta.
  rewrite (bind_Ok _ _ _ _ _ Emsg); cbv beta iota zeta.
  unfold bind at 1.
  assert (Hstage :
    (if String.eqb operation "delete"
     then subprocess_run ["git"; "rm"; filename] None
     else subprocess_run ["git"; "add"; filename] None)
    = subprocess_run (argv (staging_process operation filename (environ w))) None).
  { unfold staging_process. cbn [argv]. now destruct (String.eqb operation "delete"). }
  rewrite Hstage. unfold subprocess_run at 1.
  cbn [git git_leaves fs set_rng environ spawned default].
  rewrite Hgit, Henv, Hsp, Hleaves.
  destruct (peek (git w) =? 0) eqn:E1.
  2:{ unfold staging_process. reflexivity. }
  rewrite (bind_Ok Os.environ_copy _ _ _ _ eq_refl); cbv beta iota zeta.
  unfold bind, subprocess_run, ret.
  cbn [git git_leaves fs set_rng set_fs set_spawned set_git environ spawned default].
  rewrite Henv, Hleaves.
  change (peek (advance (git w))) with (src (git w) (S (pos (git w)))).
  cbn [peek advance src pos].
  destruct (src (git w) (S (pos (git w))) =? 0) eqn:E2.
  - rewrite <- app_assoc. reflexivity.
  - rewrite <- app_assoc. reflexivity.
Qed.

End Commits.

(** ** The shape of formatted dates *)

Section DateShape.

Import Text.

Lemma like_pattern_app (p1 p2 s1 s2 : string) :
  like_pattern p1 s1 = true -> like_pattern p2 s2 = true ->
  like_pattern (p1 +:+ p2) (s1 +:+ s2) = true.
Proof.
  revert s1. induction p1 as [|p p1 IH]; intros [|c s1]; simpl; try discriminate.
  - auto.
  - intros [Hc Hs]%andb_true_iff H2. rewrite Hc. simpl. now apply IH.
Qed.

Lemma like_pattern_digits (n : nat) (s : string) :
  String.length s = n -> all_chars is_digit s = true ->
  like_pattern (repeat_char "9"%char n) s = true.
Proof.
  revert s. induction n as [|n IH]; intros [|c s]; simpl; try discriminate.
  - reflexivity.
  - intros [= Hlen] [Hc Hs]%andb_true_iff. rewrite Hc. simpl. now apply IH.
Qed.

Lemma like_pattern_zero_pad (k : nat) (n : Z) :
  0 <= n < 10 ^ Z.of_nat k -> (1 <= k)%nat ->
  like_pattern (repeat_char "9"%char k) (zero_pad k n) = true.
Proof.
  intros Hn Hk. destruct (zero_pad_shape k n Hn Hk).
  now apply like_pattern_digits.
Qed.

(** Month and day are in range for every day of a year. *)
Lemma month_day_range_all :
  forallb (fun i => Datetime.month_day_in_range true (Z.of_nat i)
                    && Datetime.month_day_in_range false (Z.of_nat i)) (seq 0 365) = true.
Proof. vm_compute. reflexivity. Qed.

Lemma month_day_range (leapyear : bool) (n : Z) :
  0 <= n < 365 ->
  let '(m, d) := Datetime.month_day leapyear n in 1 <= m <= 12 /\ 1 <= d <= 31.
Proof.
  intros Hn.
  pose proof month_day_range_all as H.
  rewrite forallb_forall in H.
  specialize (H (Z.to_nat n)).
  rewrite Z2Nat.id in H by lia.
  assert (Hin : In (Z.to_nat n) (seq 0 365)) by (apply in_seq; lia).
  apply H in Hin. apply andb_true_iff in Hin as [Ht Hf].
  assert (Hb : Datetime.month_day_in_range leapyear n = true) by (now destruct leapyear).
  unfold Datetime.month_day_in_range in Hb.
  destruct (Datetime.month_day leapyear n) as [m d].
  rewrite !andb_true_iff, !Z.leb_le in Hb. lia.
Qed.

Lemma ord2ymd_range (ordinal : Z) :
  1 <= ordinal <= Datetime.MAX_ORDINAL ->
  let '(y, m, d) := Datetime.ord2ymd ordinal in
  1 <= y <= 9999 /\ 1 <= m <= 12 /\ 1 <= d <= 31.
Proof.
  unfold Datetime.MAX_ORDINAL. intros Ho. unfold Datetime.ord2ymd.
  unfold Datetime.DI400Y, Datetime.DI100Y, Datetime.DI4Y.
  set (N := ordinal - 1).
  set (n400 := N / 146097). set (r1 := N mod 146097).
  set (n100 := r1 / 36524). set (r2 := r1 mod 36524).
  set (n4 := r2 / 1461). set (r3 := r2 mod 1461).
  set (n1 := r3 / 365). set (r4 := r3 mod 365).
  assert (Hy : 1 <= n400 * 400 + 1 + n100 * 100 + n4 * 4 + n1 <= 9999
               /\ ((n1 = 4 \/ n100 = 4) ->
                   2 <= n400 * 400 + 1 + n100 * 100 + n4 * 4 + n1 <= 10000)
               /\ 0 <= r4 < 365).
  { subst n400 r1 n100 r2 n4 r3 n1 r4 N.
    Z.to_euclidean_division_equations. lia. }
  destruct Hy as (Hy & Hy4 & Hr4).
  destruct ((n1 =? 4) || (n100 =? 4)) eqn:E.
  - apply orb_true_iff in E. rewrite !Z.eqb_eq in E. specialize (Hy4 E). lia.
  - pose proof (month_day_range
                  ((n1 =? 3) && (negb (n4 =? 24) || (n100 =? 3))) r4 Hr4) as Hmd.
    destruct (Datetime.month_day _ r4) as [m d]. lia.
Qed.

Lemma like_pattern_year (y : Z) :
  1000 <= y <= 9999 -> like_pattern (repeat_char "9"%char 4) (str_int y) = true.
Proof.
  intros Hy. apply like_pattern_digits.
  - apply (str_int_length 3). simpl. lia.
  - apply str_int_digits. lia.
Qed.

(** From the year 1000 on, the formatted date has the shape
    [YYYY-MM-DD HH:MM:SS]. *)
Lemma strftime_shape (d : Datetime.datetime) :
  Datetime.valid d -> 1000 <= Datetime.year d ->
  like_pattern "9999-99-99 99:99:99" (Datetime.strftime_ymd_hms d) = true.
Proof.
  unfold Datetime.valid, Datetime.MAX_ORDINAL, Datetime.US_PER_DAY,
    Datetime.SECONDS_PER_DAY, Datetime.US_PER_SECOND. intros Hd Hyear.
  assert (Ho : 1 <= Datetime.toordinal d <= Datetime.MAX_ORDINAL).
  { unfold Datetime.toordinal, Datetime.MAX_ORDINAL, Datetime.US_PER_DAY,
      Datetime.SECONDS_PER_DAY, Datetime.US_PER_SECOND.
    Z.to_euclidean_division_equations. lia. }
  pose proof (ord2ymd_range _ Ho) as Hymd.
  assert (Hh : 0 <= Datetime.hour d < 24).
  { unfold Datetime.hour, Datetime.US_PER_DAY, Datetime.SECONDS_PER_DAY,
      Datetime.US_PER_SECOND. Z.to_euclidean_division_equations. lia. }
  assert (Hm : 0 <= Datetime.minute d < 60).
  { unfold Datetime.minute. apply Z.mod_pos_bound. lia. }
  assert (Hs : 0 <= Datetime.second d < 60).
  { unfold Datetime.second. apply Z.mod_pos_bound. lia. }
  unfold Datetime.strftime_ymd_hms, Datetime.fmt_time.
  unfold Datetime.year, Datetime.month, Datetime.day in *.
  destruct (Datetime.ord2ymd (Datetime.toordinal d)) as [[y m] dd].
  cbn [fst snd] in *.
  change "9999-99-99 99:99:99"
    with ((repeat_char "9"%char 4 +:+ "-" +:+ repeat_char "9"%char 2
             +:+ "-" +:+ repeat_char "9"%char 2)
            +:+ " " +:+ repeat_char "9"%char 2 +:+ ":" +:+ repeat_char "9"%char 2
            +:+ ":" +:+ repeat_char "9"%char 2).
  apply like_pattern_app.
  - apply like_pattern_app; [apply like_pattern_year; lia|].
    repeat (apply like_pattern_app;
            [first [reflexivity | apply like_pattern_zero_pad; simpl; lia]|]).
    apply like_pattern_zero_pad; simpl; lia.
  - repeat (apply like_pattern_app;
            [first [reflexivity | apply like_pattern_zero_pad; simpl; lia]|]).
    apply like_pattern_zero_pad; simpl; lia.
Qed.

End DateShape.

(** C8: when [create_commit] completes, it has started exactly two
    processes, in this order: the staging command, which is [git rm] on the
    file exactly when the operation is delete and [git add] on it otherwise,
    and [git commit -m message], whose environment is that of the script
    with [GIT_AUTHOR_DATE] and [GIT_COMMITTER_DATE] both set to the same
    string, the commit date formatted as [YYYY-MM-DD HH:MM:SS] (for a date
    Python can represent, from the year 1000 on). *)
Theorem C8_create_commit_staging_and_dates
        (commit_date : Datetime.datetime) (w w' : World)
        (message operation filename : string) :
  Datetime.valid commit_date -> 1000 <= Datetime.year commit_date ->
  create_commit commit_date w = (Ok (message, operation, filename), w') ->
  let date_str := Datetime.strftime_ymd_hms commit_date in
  exists (staging commit : Process),
    spawned w' = spawned w ++ [staging; commit]
    /\ argv staging
       = (if String.eqb operation "delete"
          then ["git"; "rm"; filename] else ["git"; "add"; filename])
    /\ (argv staging = ["git"; "rm"; filename] <-> operation = "delete")
    /\ env staging = environ w
    /\ argv commit = ["git"; "commit"; "-m"; message]
    /\ env commit !! "GIT_AUTHOR_DATE" = Some date_str
    /\ env commit !! "GIT_COMMITTER_DATE" = Some date_str
    /\ (forall var : string,
          var <> "GIT_AUTHOR_DATE" -> var <> "GIT_COMMITTER_DATE" ->
          env commit !! var = environ w !! var)
    /\ Text.like_pattern "9999-99-99 99:99:99" date_str = true.
Proof.
  intros Hvalid Hyear Erun date_str.
  destruct (perform_random_operation w) as [[[f op]|e] w1] eqn:Eop.
  2:{ rewrite (create_commit_propagates _ _ _ _ Eop) in Erun. discriminate. }
  destruct (create_commit_run commit_date _ _ _ _ Eop) as (msg & r & _ & E).
  cbv zeta in E. rewrite E in Erun. clear E.
  destruct (peek (git w) =? 0); [|discriminate].
  destruct (peek (advance (git w)) =? 0); [|discriminate].
  assert (Hres : (msg, op, f) = (message, operation, filename)) by congruence.
  apply (f_equal snd) in Erun. cbn [snd] in Erun. subst w'.
  injection Hres as -> -> ->.
  exists (staging_process operation filename (environ w)),
         (commit_process message date_str (environ w)).
  split; [reflexivity|].
  split; [unfold staging_process; cbn [argv];
          now destruct (String.eqb operation "delete")|].
  split.
  { unfold staging_process; cbn [argv].
    destruct (String.eqb_spec operation "delete") as [->|Hne].
    - split; reflexivity.
    - split; [discriminate|contradiction]. }
  split; [reflexivity|].
  split; [reflexivity|].
  unfold commit_process; cbn [env].
  split; [rewrite lookup_insert_ne by discriminate; apply lookup_insert_eq|].
  split; [apply lookup_insert_eq|].
  split; [intros var Ha Hc; now rewrite !lookup_insert_ne by congruence|].
  now apply strftime_shape.
Qed.

Lemma C8_create_commit_staging_and_dates_witness :
  Datetime.valid an_instant
  /\ 1000 <= Datetime.year an_instant
  /\ fst (create_commit an_instant world_six)
     = Ok ("Add user authentication functionality", "delete", "./c.txt")
  /\ exists (staging commit : Process),
       spawned (snd (create_commit an_instant world_six)) = [staging; commit]
       /\ argv staging = ["git"; "rm"; "./c.txt"]
       /\ env commit !! "GIT_AUTHOR_DATE" = Some "2025-09-30 17:02:14"
       /\ env commit !! "GIT_COMMITTER_DATE" = Some "2025-09-30 17:02:14".
Proof.
  assert (Hvalid : Datetime.valid an_instant) by (vm_compute; split; congruence).
  assert (Efst : fst (create_commit an_instant world_six)
                 = Ok ("Add user authentication functionality", "delete", "./c.txt"))
    by (vm_compute; reflexivity).
  assert (Hyear : 1000 <= Datetime.year an_instant) by (vm_compute; congruence).
  split; [exact Hvalid|]. split; [exact Hyear|]. split; [exact Efst|].
  assert (Erun : create_commit an_instant world_six
                 = (Ok ("Add user authentication functionality", "delete", "./c.txt"),
                    snd (create_commit an_instant world_six))).
  { rewrite <- Efst. apply surjective_pairing. }
  destruct (C8_create_commit_staging_and_dates _ _ _ _ _ _ Hvalid Hyear Erun)
    as (staging & commit & Hsp & Hst & _ & _ & _ & Ha & Hc & _ & _).
  exists staging, commit.
  split; [exact Hsp|]. split; [exact Hst|].
  split; [rewrite Ha|rewrite Hc]; vm_compute; reflexivity.
Defined.


(** ** The main loop (C9, C10) *)

Section MainLoop.

(** The file operations raise nothing but the errors of the OS. *)
Lemma follow_fails (kind : path -> Os.Kind) (name : string) (cs : list string)
      (a : path) (slash : bool) (e : exn) :
  Os.follow kind name a cs slash = Os.Fails e -> from_file_operation e = true.
Proof.
  revert a. induction cs as [|c rest IH]; intros a; [discriminate|].
  cbn [Os.follow].
  destruct (String.eqb c "."); [apply IH|].
  destruct (String.eqb c ".."); [apply IH|].
  destruct rest as [|c' rest]; [discriminate|].
  destruct (Os.NAME_MAX <? String.length c)%nat; [now intros [= <-]|].
  destruct (kind (a ++ [c])); try (now intros [= <-]). apply IH.
Qed.

Lemma lookup_fails (w : World) (name : string) (e : exn) :
  Os.lookup w name = Os.Fails e -> from_file_operation e = true.
Proof.
  unfold Os.lookup.
  destruct (negb (Text.no_char Os.NUL name)); [now intros [= <-]|].
  destruct (Text.is_empty name); [now intros [= <-]|].
  destruct (Os.PATH_MAX <=? String.length name)%nat; [now intros [= <-]|].
  apply follow_fails.
Qed.

Lemma open_raises_os (name : string) (mode : Os.Mode) (w w' : World) (e : exn) :
  Os.open name mode w = (Raise e, w') -> from_file_operation e = true.
Proof.
  unfold Os.open.
  destruct (Os.lookup w name) as [e0|d|a [|]] eqn:El; try (now intros [= <- _]).
  - intros [= <- _]. exact (lookup_fails _ _ _ El).
  - destruct (Os.too_long a); [now intros [= <- _]|].
    destruct (Os.kind_at w a), mode; (now intros [= <- _]) || discriminate.
Qed.

Lemma remove_raises_os (name : string) (w w' : World) (e : exn) :
  Os.remove name w = (Raise e, w') -> from_file_operation e = true.
Proof.
  unfold Os.remove.
  destruct (Os.lookup w name) as [e0|d|a s] eqn:El; try (now intros [= <- _]).
  - intros [= <- _]. exact (lookup_fails _ _ _ El).
  - destruct (Os.too_long a); [now intros [= <- _]|].
    destruct (Os.kind_at w a); try (now intros [= <- _]).
    destruct s; (now intros [= <- _]) || discriminate.
Qed.

Lemma create_file_raises_os (w w' : World) (e : exn) :
  create_file w = (Raise e, w') -> from_file_operation e = true.
Proof.
  rewrite create_file_run. case_bool_decide; [|discriminate].
  now intros [= <- _].
Qed.

Lemma modify_file_raises_os (filename : string) (w w' : World) (e : exn) :
  modify_file filename w = (Raise e, w') -> from_file_operation e = true.
Proof.
  destruct (Os.open filename Os.mode_a w) as [[a|e0] w1] eqn:Eopen.
  - rewrite (modify_file_run _ _ _ _ Eopen). discriminate.
  - rewrite (modify_file_raises _ _ _ _ Eopen). intros [= <- _].
    exact (open_raises_os _ _ _ _ _ Eopen).
Qed.

Lemma delete_file_raises_os (filename : string) (w w' : World) (e : exn) :
  delete_file filename w = (Raise e, w') -> from_file_operation e = true.
Proof.
  destruct (Os.remove filename w) as [[[]|e0] w1] eqn:Erm.
  - unfold delete_file. rewrite (bind_Ok _ _ _ _ _ Erm). discriminate.
  - rewrite (delete_file_raises _ _ _ _ Erm). intros [= <- _].
    exact (remove_raises_os _ _ _ _ Erm).
Qed.

Lemma carry_out_raises_os (k : Kind) (l : list string) (w w' : World) (e : exn) :
  k = Create \/ l <> [] ->
  carry_out k l w = (Raise e, w') -> from_file_operation e = true.
Proof.
  intros Hl. destruct k; unfold carry_out, bind, ret.
  - destruct (create_file w) as [[x|e0] w1] eqn:E; [discriminate|].
    intros [= <- _]. exact (create_file_raises_os _ _ _ E).
  - destruct Hl as [|Hl]; [discriminate|].
    destruct (choice_spec l w Hl) as (x & i & -> & _).
    destruct (modify_file x _) as [[y|e0] w1] eqn:E; [discriminate|].
    intros [= <- _]. exact (modify_file_raises_os _ _ _ _ E).
  - destruct Hl as [|Hl]; [discriminate|].
    destruct (choice_spec l w Hl) as (x & i & -> & _).
    destruct (delete_file x _) as [[y|e0] w1] eqn:E; [discriminate|].
    intros [= <- _]. exact (delete_file_raises_os _ _ _ _ E).
Qed.

Lemma perform_random_operation_raises_os (w w' : World) (e : exn) :
  perform_random_operation w = (Raise e, w') -> from_file_operation e = true.
Proof.
  rewrite perform_random_operation_policy.
  destruct (existing_files_of (fs w)) as [|f0 rest];
    [apply carry_out_raises_os; now left|].
  rewrite (bind_Ok _ _ _ _ _ (random_run w)).
  apply carry_out_raises_os. right. discriminate.
Qed.

Lemma from_file_operation_Exception (e : exn) :
  from_file_operation e = true -> is_Exception e = true.
Proof. now destruct e. Qed.

Lemma perform_random_operation_raises (w w' : World) (e : exn) :
  perform_random_operation w = (Raise e, w') -> is_Exception e = true.
Proof.
  intros E. apply from_file_operation_Exception.
  exact (perform_random_operation_raises_os _ _ _ E).
Qed.

Lemma create_commit_raises (d : Datetime.datetime) (w w' : World) (e : exn) :
  create_commit d w = (Raise e, w') -> is_Exception e = true.
Proof.
  destruct (perform_random_operation w) as [[[f op]|e0] w1] eqn:Eop.
  - destruct (create_commit_run d _ _ _ _ Eop) as (msg & r & _ & E).
    cbv zeta in E. rewrite E.
    destruct (peek (git w) =? 0); [|intros [= <- _]; reflexivity].
    destruct (peek (advance (git w)) =? 0); [discriminate|].
    intros [= <- _]. reflexivity.
  - rewrite (create_commit_propagates _ _ _ _ Eop).
    intros [= <- _]. exact (perform_random_operation_raises _ _ _ Eop).
Qed.

(** One turn of the loop: whatever [create_commit] raises is caught and
    reported with the index and the text of the error; the world the
    failure left behind is the one the loop goes on with. *)
Lemma iteration_run (num_commits : nat) (i : Z) (date : Datetime.datetime) (w : World) :
  iteration num_commits i date w
  = match create_commit date w with
    | (Ok _, w1) =>
        if i mod 50 =? 0
        then print ("Progress: " +:+ Text.str_int i +:+ "/"
                      +:+ Text.str_int (Z.of_nat num_commits) +:+ " commits created") w1
        else (Ok tt, w1)
    | (Raise e, w1) =>
        print ("Error creating commit " +:+ Text.str_int i +:+ ": " +:+ str_exn e) w1
    end.
Proof.
  unfold iteration, try_except_Exception, bind.
  destruct (create_commit date w) as [[r|e] w1] eqn:E.
  - destruct (i mod 50 =? 0); reflexivity.
  - now rewrite (create_commit_raises _ _ _ _ E).
Qed.

Lemma iteration_returns (num_commits : nat) (i : Z) (date : Datetime.datetime) (w : World) :
  fst (iteration num_commits i date w) = Ok tt.
Proof.
  rewrite iteration_run.
  destruct (create_commit date w) as [[r|e] w1]; [|reflexivity].
  destruct (i mod 50 =? 0); reflexivity.
Qed.

(** The loop runs every iteration. *)
Lemma for_each_iterations (num_commits : nat) (l : list (Z * Datetime.datetime))
      (w : World) :
  for_each l (fun '(i, date) => iteration num_commits i date) w
  = (Ok tt, run_iterations num_commits l w).
Proof.
  revert w. induction l as [|[i date] l IH]; intros w; [reflexivity|].
  cbn [for_each run_iterations fold_left].
  pose proof (iteration_returns num_commits i date w) as Hret.
  destruct (iteration num_commits i date w) as [r w1] eqn:E.
  cbn [fst snd] in *. subst r.
  rewrite (bind_Ok _ _ _ _ _ E). apply IH.
Qed.

Lemma enumerate_length {A} (l : list A) (start : Z) :
  length (enumerate l start) = length l.
Proof. revert start. induction l; intros; simpl; congruence. Qed.

(** [main] from start to end. *)
Lemma main_with_run (num_commits : nat) (w : World) :
  exists (dates : list Datetime.datetime) (w1 : World),
    let banner := ["Git Commit Generator"; Text.repeat_char "="%char 50] in
    let w0 := set_stdout (stdout w ++ banner) w in
    let announce := Text.NL +:+ "Generating "
                      +:+ Text.str_int (Z.of_nat num_commits) +:+ " commits..." in
    let w2 := set_stdout (stdout w1 ++ [announce]) w1 in
    let w3 := run_iterations num_commits (enumerate dates 1) w2 in
    generate_dates num_commits w0 = (Ok dates, w1)
    /\ length dates = num_commits
    /\ main_with num_commits w
       = (Ok tt,
          set_stdout (stdout w3 ++
                        [summary_line num_commits;
                         "Repository location: " +:+ getcwd w3;
                         Text.NL +:+ "You can view the commits with: git log --oneline"])
                     w3).
Proof.
  set (w0 := set_stdout (stdout w ++ ["Git Commit Generator"; Text.repeat_char "="%char 50]) w).
  destruct (replicateM_generate_random_date num_commits w0)
    as (drawn & w1 & Edrawn & Hlen).
  assert (Edates : generate_dates num_commits w0 = (Ok (sort drawn), w1)).
  { unfold generate_dates. now rewrite (bind_Ok _ _ _ _ _ Edrawn). }
  exists (sort drawn), w1. cbv zeta. split; [exact Edates|].
  split; [unfold sort; now rewrite merge_sort_Permutation|].
  unfold main_with.
  rewrite (bind_Ok (print _) _ w _ _ eq_refl).
  rewrite (bind_Ok (print _) _ _ _ _ eq_refl).
  cbn [set_stdout stdout]. rewrite <- app_assoc. cbn [app]. fold w0.
  rewrite (bind_Ok _ _ _ _ _ Edates).
  rewrite (bind_Ok (print _) _ _ _ _ eq_refl).
  rewrite (bind_Ok _ _ _ _ _ (for_each_iterations _ _ _)).
  rewrite (bind_Ok (print _) _ _ _ _ eq_refl).
  rewrite (bind_Ok Os.abspath_dot _ _ _ _ eq_refl).
  rewrite (bind_Ok (print _) _ _ _ _ eq_refl).
  unfold print. cbn [set_stdout stdout getcwd fs environ rng clock git spawned].
  rewrite <- !app_assoc. reflexivity.
Qed.

End MainLoop.

(** C9: an exception raised by the operation/commit sequence of an
    iteration is caught by that iteration, which prints a line with the
    iteration index and the text of the error and returns normally, leaving
    the world as the failure left it; the loop then runs the remaining
    iterations, one per date, and [main] always returns normally after
    printing the completion summary. *)
Theorem C9_iteration_failures_are_not_fatal (num_commits : nat) (w : World) :
  (forall (i : Z) (date : Datetime.datetime) (w0 : World),
     iteration num_commits i date w0
     = match create_commit date w0 with
       | (Ok _, w1) =>
           if i mod 50 =? 0
           then print ("Progress: " +:+ Text.str_int i +:+ "/"
                         +:+ Text.str_int (Z.of_nat num_commits) +:+ " commits created") w1
           else (Ok tt, w1)
       | (Raise e, w1) =>
           (Ok tt,
            set_stdout (stdout w1 ++
                          ["Error creating commit " +:+ Text.str_int i +:+ ": "
                             +:+ str_exn e]) w1)
       end)
  /\ (forall (l : list (Z * Datetime.datetime)) (w0 : World),
        for_each l (fun '(i, date) => iteration num_commits i date) w0
        = (Ok tt, run_iterations num_commits l w0))
  /\ exists (dates : list Datetime.datetime) (w2 : World),
       let w3 := run_iterations num_commits (enumerate dates 1) w2 in
       length (enumerate dates 1) = num_commits
       /\ main_with num_commits w
          = (Ok tt,
             set_stdout (stdout w3 ++
                           [summary_line num_commits;
                            "Repository location: " +:+ getcwd w3;
                            Text.NL +:+ "You can view the commits with: git log --oneline"])
                        w3).
Proof.
  split; [intros i date w0; apply iteration_run|].
  split; [intros l w0; apply for_each_iterations|].
  destruct (main_with_run num_commits w) as (dates & w1 & _ & Hlen & Emain).
  cbv zeta in Emain. eexists dates, _. cbv zeta.
  split; [now rewrite enumerate_length|]. exact Emain.
Qed.

(** C10: the completion summary of [main] always reports the configured
    count, 5, as generated: it is the same line in every run.  In
    particular it is the same in a run where no iteration fails and in a
    run where all five fail. *)
Theorem C10_summary_ignores_failures (w : World) :
  (exists w', main w = (Ok tt, w')
              /\ printed_summary w' = Some (summary_line NUM_COMMITS))
  /\ summary_line NUM_COMMITS = Text.NL +:+ "✓ Successfully generated 5 commits!"
  /\ error_lines (stdout (snd (main world_git_ok))) = 0%nat
  /\ error_lines (stdout (snd (main world_git_down))) = 5%nat
  /\ printed_summary (snd (main world_git_ok))
     = printed_summary (snd (main world_git_down)).
Proof.
  split.
  { destruct (main_with_run NUM_COMMITS w) as (dates & w1 & _ & _ & Emain).
    cbv zeta in Emain. eexists. split; [exact Emain|].
    unfold printed_summary. cbn [stdout set_stdout].
    rewrite rev_app_distr. reflexivity. }
  split; [vm_compute; reflexivity|].
  split; [vm_compute; reflexivity|].
  split; [vm_compute; reflexivity|].
  vm_compute; reflexivity.
Qed.

(** ** Runs of the file operations, on examples *)

(** A name clash: the file that was there is overwritten. *)
Example create_file_overwrites :
  let w := world_of tree_clash [5; 7] [an_instant] [] in
  Os.read w "file_1005.txt" = Some ("kept since last year" +:+ Text.NL)
  /\ fst (create_file w) = Ok "file_1005.txt"
  /\ Os.read (snd (create_file w)) "file_1005.txt"
     = Some (("Content generated at 2025-09-30 17:02:14.456141" +:+ Text.NL)
               +:+ "Random data: 8" +:+ Text.NL).
Proof. vm_compute. repeat split; reflexivity. Qed.

(** A file as [create_file] leaves it has two lines, and five once
    [modify_file] has run on it. *)
Example create_then_modify :
  let w := world_of tree_empty [5; 7; 41] [an_instant; an_instant] [] in
  let w1 := snd (create_file w) in
  let w2 := snd (modify_file "file_1005.txt" w1) in
  Text.lines <$> Os.read w1 "file_1005.txt"
  = Some ["Content generated at 2025-09-30 17:02:14.456141"; "Random data: 8"]
  /\ Text.lines <$> Os.read w2 "file_1005.txt"
     = Some ["Content generated at 2025-09-30 17:02:14.456141"; "Random data: 8";
             EmptyString;
             "Modified at 2025-09-30 17:02:14.456141"; "Additional data: 42"].
Proof. vm_compute. split; reflexivity. Qed.

(** Creating and then deleting leaves no file of that name. *)
Example create_then_delete :
  let w := world_of tree_empty [5; 7] [an_instant] [] in
  let w1 := snd (create_file w) in
  fst (delete_file "file_1005.txt" w1) = Ok "file_1005.txt"
  /\ Os.read (snd (delete_file "file_1005.txt" w1)) "file_1005.txt" = None.
Proof. vm_compute. split; reflexivity. Qed.


(** * Further properties of the script *)

(** ** [generate_random_date] *)

(** X1: [generate_random_date] reads the clock once and draws twice.  The
    timestamp it returns lies between 365 days before the clock reading and
    one day after it, at a whole number of seconds from the reading; both
    ends of that range are reached, the early one with the draws 0 and 0,
    the late one with the draws 365 and 86400. *)
Theorem X1_generate_random_date_range (w : World) :
  let now := peek (clock w) in
  (exists t,
     generate_random_date w
     = (Ok t, set_rng (advance (advance (rng w))) (set_clock (advance (clock w)) w))
     /\ now - Datetime.timedelta 365 0 <= t <= now + Datetime.timedelta 1 0
     /\ (t - now) mod Datetime.US_PER_SECOND = 0)
  /\ fst (generate_random_date (set_rng (feed_of [0; 0]) w))
     = Ok (now - Datetime.timedelta 365 0)
  /\ fst (generate_random_date (set_rng (feed_of [365; 86400]) w))
     = Ok (now + Datetime.timedelta 1 0).
Proof.
  intros now. split; [|split].
  - pose proof (Z.mod_pos_bound (peek (rng w)) 366 eq_refl) as Hd.
    pose proof (Z.mod_pos_bound (peek (advance (rng w))) 86401 eq_refl) as Hs.
    exists (now - Datetime.timedelta 365 0
            + Datetime.timedelta (0 + peek (rng w) mod 366)
                                 (0 + peek (advance (rng w)) mod 86401)).
    split; [reflexivity|].
    unfold Datetime.timedelta, Datetime.US_PER_DAY, Datetime.SECONDS_PER_DAY,
      Datetime.US_PER_SECOND.
    split; [lia|].
    set (a := peek (rng w) mod 366) in *.
    set (b := peek (advance (rng w)) mod 86401) in *.
    replace (now - (365 * (86400 * 1000000) + 0 * 1000000)
             + ((0 + a) * (86400 * 1000000) + (0 + b) * 1000000) - now)
      with (((a - 365) * 86400 + b) * 1000000) by lia.
    apply Z.mod_mul. lia.
  - unfold generate_random_date, bind, datetime_now, Random.randint,
      Random.next_raw, ret. cbn. f_equal. change (peek (clock w)) with now.
    rewrite !Z.mod_small by lia.
    unfold Datetime.timedelta, Datetime.US_PER_DAY, Datetime.SECONDS_PER_DAY,
      Datetime.US_PER_SECOND. lia.
  - unfold generate_random_date, bind, datetime_now, Random.randint,
      Random.next_raw, ret. cbn. f_equal. change (peek (clock w)) with now.
    rewrite !Z.mod_small by lia.
    unfold Datetime.timedelta, Datetime.US_PER_DAY, Datetime.SECONDS_PER_DAY,
      Datetime.US_PER_SECOND. lia.
Qed.

(** ** [generate_commit_message] *)

Lemma every_message_plain :
  forallb (fun t =>
    forallb (fun c =>
      forallb (fun f => plain_message (fill_template t c f)) FEATURES)
      COMPONENTS)
    COMMIT_MESSAGES = true.
Proof. vm_compute. reflexivity. Qed.

Lemma fill_template_plain (t c f : string) :
  In t COMMIT_MESSAGES -> In c COMPONENTS -> In f FEATURES ->
  plain_message (fill_template t c f) = true.
Proof.
  intros Ht Hc Hf. pose proof every_message_plain as H.
  rewrite forallb_forall in H. specialize (H t Ht).
  rewrite forallb_forall in H. specialize (H c Hc).
  rewrite forallb_forall in H. exact (H f Hf).
Qed.

Lemma lookup_In {A} (l : list A) (i : nat) (x : A) : l !! i = Some x -> In x l.
Proof. intros H. apply list_elem_of_In. eapply list_elem_of_lookup_2. exact H. Qed.

(** Every template, with every word of the tables: where the placeholder
    stands, and what filling it gives. *)
Lemma every_template_cut :
  forallb (fun t =>
    match cut_at "{component}" t, cut_at "{feature}" t with
    | Some (before, after), _ =>
        Text.contains "{component}" t
        && String.eqb t (before +:+ "{component}" +:+ after)
        && forallb (fun word =>
             String.eqb (format t "component" word) (before +:+ word +:+ after))
             COMPONENTS
    | None, Some (before, after) =>
        negb (Text.contains "{component}" t) && Text.contains "{feature}" t
        && String.eqb t (before +:+ "{feature}" +:+ after)
        && forallb (fun word =>
             String.eqb (format t "feature" word) (before +:+ word +:+ after))
             FEATURES
    | None, None =>
        negb (Text.contains "{component}" t) && negb (Text.contains "{feature}" t)
    end) COMMIT_MESSAGES = true.
Proof. vm_compute. reflexivity. Qed.

(** X2: [generate_commit_message] always returns.  It draws once for the
    template and once more when the template has a placeholder, and changes
    nothing else.  The template is the element of [COMMIT_MESSAGES] at the
    first drawn index.  If it holds [{component}], the message is the
    template with that placeholder replaced by the element of [COMPONENTS]
    at the second drawn index; else if it holds [{feature}], likewise with
    [FEATURES]; else the message is the template.  The message is never
    empty and no brace is left in it. *)
Theorem X2_generate_commit_message_filled (w : World) :
  exists (template message : string) (draws : nat),
    COMMIT_MESSAGES !! Z.to_nat (peek (rng w) mod 20) = Some template
    /\ generate_commit_message w
       = (Ok message, set_rng (Nat.iter draws advance (rng w)) w)
    /\ plain_message message = true
    /\ match cut_at "{component}" template, cut_at "{feature}" template with
       | Some (before, after), _ =>
           exists word : string,
             COMPONENTS !! Z.to_nat (peek (advance (rng w)) mod 14) = Some word
             /\ template = before +:+ "{component}" +:+ after
             /\ message = before +:+ word +:+ after
             /\ draws = 2%nat
       | None, Some (before, after) =>
           exists word : string,
             FEATURES !! Z.to_nat (peek (advance (rng w)) mod 12) = Some word
             /\ template = before +:+ "{feature}" +:+ after
             /\ message = before +:+ word +:+ after
             /\ draws = 2%nat
       | None, None => message = template /\ draws = 1%nat
       end.
Proof.
  destruct (choice_spec COMMIT_MESSAGES w) as (template & i & Et & Hi & Hlook);
    [discriminate|].
  set (w1 := set_rng (advance (rng w)) w) in *.
  destruct (choice_spec COMPONENTS w1) as (c & j & Ec & Hj & Hc); [discriminate|].
  destruct (choice_spec FEATURES w1) as (f & k & Ef & Hk & Hf); [discriminate|].
  subst i j k.
  change (Z.of_nat (length COMMIT_MESSAGES)) with 20 in Hlook.
  change (Z.of_nat (length COMPONENTS)) with 14 in Hc.
  change (Z.of_nat (length FEATURES)) with 12 in Hf.
  change (peek (rng w1)) with (peek (advance (rng w))) in Hc, Hf.
  pose proof (lookup_In _ _ _ Hlook) as Ht.
  pose proof (lookup_In _ _ _ Hc) as Hc'.
  pose proof (lookup_In _ _ _ Hf) as Hf'.
  pose proof (fill_template_plain template c f Ht Hc' Hf') as Hplain.
  pose proof every_template_cut as Hcut.
  rewrite forallb_forall in Hcut. specialize (Hcut template Ht).
  unfold fill_template in Hplain.
  unfold generate_commit_message. rewrite (bind_Ok _ _ _ _ _ Et).
  destruct (cut_at "{component}" template) as [[before after]|] eqn:Ecut.
  - apply andb_true_iff in Hcut as [[H1 H2]%andb_true_iff H3].
    apply String.eqb_eq in H2. rewrite forallb_forall in H3.
    specialize (H3 c Hc'). apply String.eqb_eq in H3.
    rewrite H1 in *. rewrite (bind_Ok _ _ _ _ _ Ec).
    exists template, (format template "component" c), 2%nat.
    split; [exact Hlook|]. split; [reflexivity|]. split; [exact Hplain|].
    rewrite Ecut. exists c. auto.
  - destruct (cut_at "{feature}" template) as [[before after]|] eqn:Ecut'.
    + apply andb_true_iff in Hcut as [[[H0 H1]%andb_true_iff H2]%andb_true_iff H3].
      apply negb_true_iff in H0.
      apply String.eqb_eq in H2. rewrite forallb_forall in H3.
      specialize (H3 f Hf'). apply String.eqb_eq in H3.
      rewrite H0, H1 in *. rewrite (bind_Ok _ _ _ _ _ Ef).
      exists template, (format template "feature" f), 2%nat.
      split; [exact Hlook|]. split; [reflexivity|]. split; [exact Hplain|].
      rewrite Ecut, Ecut'. exists f. auto.
    + apply andb_true_iff in Hcut as [H0 H1]. apply negb_true_iff in H0, H1.
      rewrite H0, H1 in *.
      exists template, template, 1%nat.
      split; [exact Hlook|]. split; [reflexivity|]. split; [exact Hplain|].
      rewrite Ecut, Ecut'. split; reflexivity.
Qed.

(** ** [get_existing_files] *)

Lemma children_spec (ps : list path) (d : path) (name : string) :
  In name (Os.children ps d) <-> In (d ++ [name]) ps.
Proof.
  unfold Os.children. rewrite in_map_iff. split.
  - intros (p & Hlast & Hin). apply filter_In in Hin as [Hin Hp].
    apply bool_decide_eq_true in Hp as [Hne Hrem].
    rewrite (app_removelast_last EmptyString Hne) in Hin.
    now rewrite Hrem, Hlast in Hin.
  - intros Hin. exists (d ++ [name]). split; [apply last_last|].
    apply filter_In. split; [exact Hin|].
    apply bool_decide_eq_true. split; [now destruct d|apply removelast_last].
Qed.

(** Which names are listed. *)
Lemma listed_iff (t : FileSystem) (p : string) :
  In p (existing_files_of t)
  <-> exists (d : path) (name : string),
        (d = [] \/ (d ∈ dirs t /\ Os.listable d = true))
        /\ d ++ [name] ∈ dom (files t)
        /\ Text.contains ".git" (Os.root_name d) = false
        /\ p = Os.path_join (Os.root_name d) name.
Proof.
  unfold existing_files_of, Os.walk. rewrite in_flat_map. split.
  - intros ([[root dn] fn] & Hw & Hp).
    apply in_map_iff in Hw as (d & [= <- _ <-] & Hd).
    apply in_flat_map in Hp as (name & Hname & Hp).
    apply children_spec in Hname.
    destruct (Text.contains ".git" (Os.root_name d)) eqn:Egit; [destruct Hp|].
    destruct Hp as [<-|[]].
    exists d, name. split.
    { destruct Hd as [<-|Hd]; [now left|right].
      apply filter_In in Hd as [Hd Hl]. split; [|exact Hl].
      now apply elem_of_elements, list_elem_of_In. }
    split; [now apply elem_of_elements, list_elem_of_In|].
    split; [exact Egit|reflexivity].
  - intros (d & name & Hd & Hfile & Egit & ->).
    eexists (_, _, _). split.
    + apply in_map_iff. exists d. split; [reflexivity|].
      destruct Hd as [->|[Hd Hl]]; [now left|right].
      apply filter_In. split; [|exact Hl].
      now apply list_elem_of_In, elem_of_elements.
    + apply in_flat_map. exists name. split.
      * apply children_spec. now apply list_elem_of_In, elem_of_elements.
      * rewrite Egit. now left.
Qed.

(** X3: [get_existing_files] returns its list without touching anything,
    and a name is in the list exactly when it is [root/name] for a file
    [name] that lies directly in a directory of the tree (the working
    directory, or a sub-directory whose reported path is short enough for
    the OS to list it) whose reported path [root] does not contain
    [.git]. *)
Theorem X3_get_existing_files_lists (w : World) (p : string) :
  get_existing_files w = (Ok (existing_files_of (fs w)), w)
  /\ (In p (existing_files_of (fs w))
      <-> exists (d : path) (name : string),
            (d = [] \/ (d ∈ dirs (fs w)
                        /\ (String.length (Os.root_name d) < Os.PATH_MAX)%nat))
            /\ d ++ [name] ∈ dom (files (fs w))
            /\ Text.contains ".git" (Os.root_name d) = false
            /\ p = Os.path_join (Os.root_name d) name).
Proof.
  split; [reflexivity |].
  rewrite listed_iff. unfold Os.listable.
  split; intros (d & name & Hd & H); exists d, name; (split; [|exact H]);
    (destruct Hd as [->|[Hd Hl]]; [now left|right; split; [exact Hd|]]).
  - now apply Nat.ltb_lt.
  - now apply Nat.ltb_lt.
Qed.

(** *** Names and paths *)

Lemma split_go_sep (sep : ascii) (a rest cur : string) :
  Text.no_char sep a = true ->
  Text.split_go sep cur (a +:+ String sep rest)
  = String.rev_app cur a :: Text.split_go sep EmptyString rest.
Proof.
  revert cur. induction a as [|x a IH]; intros cur; simpl.
  - intros _. now rewrite Ascii.eqb_refl.
  - intros [Hx Ha]%andb_true_iff. apply negb_true_iff in Hx. rewrite Hx.
    now rewrite IH.
Qed.

Lemma split_join (sep : ascii) (x : string) (l : list string) :
  Forall (fun c => Text.no_char sep c = true) (x :: l) ->
  Text.split sep (Text.join (String sep EmptyString) (x :: l)) = x :: l.
Proof.
  revert x. induction l as [|y l IH]; intros x Hall.
  - apply split_no_sep. now inversion Hall.
  - inversion Hall as [|? ? Hx Hl]; subst.
    change (Text.join (String sep EmptyString) (x :: y :: l))
      with (x +:+ String sep (Text.join (String sep EmptyString) (y :: l))).
    unfold Text.split. rewrite split_go_sep by assumption.
    f_equal. apply IH. exact Hl.
Qed.

Lemma join_snoc (sep : string) (l : list string) (x : string) :
  l <> [] -> Text.join sep l +:+ sep +:+ x = Text.join sep (l ++ [x]).
Proof.
  induction l as [|a l IH]; [congruence|]. intros _.
  destruct l as [|b l]; [reflexivity|].
  change (Text.join sep (a :: b :: l)) with (a +:+ sep +:+ Text.join sep (b :: l)).
  change (Text.join sep ((a :: b :: l) ++ [x]))
    with (a +:+ sep +:+ Text.join sep ((b :: l) ++ [x])).
  rewrite <- IH by discriminate. now rewrite !app_assoc_s.
Qed.

Lemma no_char_join (c : ascii) (sep : string) (l : list string) :
  Text.no_char c sep = true -> Forall (fun x => Text.no_char c x = true) l ->
  Text.no_char c (Text.join sep l) = true.
Proof.
  intros Hsep Hall. induction Hall as [|x l Hx Hl IH]; [reflexivity|].
  destruct l as [|y l]; [exact Hx|].
  change (Text.join sep (x :: y :: l)) with (x +:+ sep +:+ Text.join sep (y :: l)).
  now rewrite !no_char_app, Hx, Hsep, IH.
Qed.

(** The name listed for the entry [name] of the directory [d]. *)
Lemma listed_name_join (d : path) (name : string) :
  Os.path_join (Os.root_name d) name = Text.join "/" ("." :: d ++ [name]).
Proof.
  unfold Os.path_join, Os.root_name. now rewrite join_snoc by discriminate.
Qed.

Lemma sane_name_spec (c : string) :
  sane_name c = true
  <-> c <> EmptyString /\ c <> "." /\ Text.no_char Os.SEP c = true.
Proof.
  unfold sane_name. rewrite !andb_true_iff, !negb_true_iff, !String.eqb_neq. tauto.
Qed.

Lemma entry_sane (c : string) : entry_name c = true -> sane_name c = true.
Proof. rewrite entry_name_spec, sane_name_spec. tauto. Qed.

Lemma entries_sane (l : list string) :
  Forall (fun c => entry_name c = true) l -> Forall (fun c => sane_name c = true) l.
Proof. intros H. eapply Forall_impl; [exact H|]. exact entry_sane. Qed.

(** A tree on disk is a tree as a filesystem holds it. *)
Lemma on_disk_wf_tree (t : FileSystem) : on_disk t -> wf_tree t.
Proof.
  intros (Hf & Hd & _). split.
  - intros p Hp. destruct (Hf p Hp). auto using entries_sane.
  - intros d Hin. destruct (Hd d Hin). auto using entries_sane.
Qed.

Lemma pieces_listed_name (d : path) (name : string) :
  Forall (fun c => sane_name c = true) (d ++ [name]) ->
  Os.pieces (Os.path_join (Os.root_name d) name) = "." :: d ++ [name].
Proof.
  intros Hall. rewrite listed_name_join. unfold Os.pieces.
  change ("/") with (String Os.SEP EmptyString).
  apply split_join. constructor; [reflexivity|].
  eapply Forall_impl; [exact Hall|]. intros c Hc.
  now apply sane_name_spec in Hc.
Qed.

Lemma filter_entry (l : list string) :
  Forall (fun c => entry_name c = true) l ->
  List.filter (fun c => negb (String.eqb c "")) l = l.
Proof.
  intros Hall. induction Hall as [|c l Hc Hl IH]; [reflexivity|].
  apply entry_name_spec in Hc as (H1 & _). apply String.eqb_neq in H1.
  cbn [List.filter]. rewrite H1. cbn [negb]. now rewrite IH.
Qed.

Lemma components_listed_name (d : path) (name : string) :
  Forall (fun c => entry_name c = true) (d ++ [name]) ->
  Os.components (Os.path_join (Os.root_name d) name) = "." :: d ++ [name].
Proof.
  intros Hall. unfold Os.components.
  rewrite pieces_listed_name by (now apply entries_sane).
  cbn [List.filter String.eqb Ascii.eqb Bool.eqb negb].
  now rewrite filter_entry.
Qed.

(** Going down through directories that exist. *)
Lemma follow_step (kind : path -> Os.Kind) (nm c : string) (rest : list string)
      (a : path) (s : bool) :
  rest <> [] -> entry_name c = true -> kind (a ++ [c]) = Os.Directory ->
  Os.follow kind nm a (c :: rest) s = Os.follow kind nm (a ++ [c]) rest s.
Proof.
  intros Hrest (_ & H1 & H2 & _ & _ & Hlen)%entry_name_spec Hk.
  apply String.eqb_neq in H1, H2.
  destruct rest as [|c' rest]; [congruence|].
  cbn [Os.follow]. rewrite H1, H2, Hk.
  now replace (Os.NAME_MAX <? String.length c)%nat with false
    by (symmetry; now apply Nat.ltb_ge).
Qed.

Lemma follow_down (kind : path -> Os.Kind) (nm : string) (d : list string)
      (name : string) (a : path) (s : bool) :
  Forall (fun c => entry_name c = true) (d ++ [name]) ->
  (forall k, (0 < k <= length d)%nat -> kind (a ++ take k d) = Os.Directory) ->
  Os.follow kind nm a (d ++ [name]) s = Os.Entry (a ++ d ++ [name]) s.
Proof.
  revert a. induction d as [|c d IH]; intros a Hall Hk.
  - apply Forall_inv in Hall.
    apply entry_name_spec in Hall as (_ & H1 & H2 & _).
    apply String.eqb_neq in H1, H2.
    cbn [app Os.follow]. now rewrite H1, H2.
  - change ((c :: d) ++ [name]) with (c :: (d ++ [name])) in *.
    inversion Hall as [|? ? Hc Hrest]; subst.
    pose proof (Hk 1%nat) as H1k. change (take 1 (c :: d)) with [c] in H1k.
    rewrite follow_step; [|now destruct d|exact Hc|apply H1k; cbn [length]; lia].
    rewrite IH; [now rewrite <- app_assoc|exact Hrest|].
    intros k Hkd. rewrite <- app_assoc. apply (Hk (S k)).
    cbn [length]. lia.
Qed.

(** In a tree as it is on disk, the directories above a directory of
    the tree are directories of the tree. *)
Lemma on_disk_prefixes (t : FileSystem) (d : path) :
  on_disk t -> d ∈ dirs t ->
  forall k, (0 < k <= length d)%nat -> take k d ∈ dirs t.
Proof.
  intros (_ & _ & _ & Hplaced) Hd k Hk.
  remember (length d - k)%nat as n eqn:En. revert k Hk En.
  induction n as [|n IH]; intros k Hk En.
  - assert (k = length d) as -> by lia. now rewrite firstn_all.
  - assert (Hnext : take (S k) d ∈ dirs t) by (apply IH; lia).
    destruct (Hplaced _ Hnext) as [Hp|Hp];
      rewrite removelast_firstn in Hp by lia.
    + apply (f_equal (@length string)) in Hp.
      rewrite length_take in Hp. cbn [length] in Hp. lia.
    + exact Hp.
Qed.

Lemma starts_with_sep_listed (d : path) (name : string) :
  Text.starts_with "/" (Os.path_join (Os.root_name d) name) = false.
Proof.
  rewrite listed_name_join. now destruct (d ++ [name]) eqn:E; [destruct d|].
Qed.

Lemma is_empty_listed (d : path) (name : string) :
  Text.is_empty (Os.path_join (Os.root_name d) name) = false.
Proof.
  rewrite listed_name_join. now destruct (d ++ [name]) eqn:E; [destruct d|].
Qed.

Lemma no_NUL_listed (d : path) (name : string) :
  Forall (fun c => entry_name c = true) (d ++ [name]) ->
  Text.no_char Os.NUL (Os.path_join (Os.root_name d) name) = true.
Proof.
  intros Hall. rewrite listed_name_join. apply no_char_join; [reflexivity|].
  constructor; [reflexivity|].
  eapply Forall_impl; [exact Hall|]. intros c Hc.
  now apply entry_name_spec in Hc.
Qed.

(** Looking up a listed name is walking down its components from the
    working directory. *)
Lemma lookup_listed_follow (w : World) (d : path) (name : string) :
  Forall (fun c => entry_name c = true) (d ++ [name]) ->
  (String.length (Os.path_join (Os.root_name d) name) < Os.PATH_MAX)%nat ->
  Os.lookup w (Os.path_join (Os.root_name d) name)
  = Os.follow (Os.kind_at w) (Os.path_join (Os.root_name d) name)
              (Os.cwd_path w) (d ++ [name]) false.
Proof.
  intros Hall Hlen. unfold Os.lookup.
  rewrite no_NUL_listed by assumption. cbn [negb].
  rewrite is_empty_listed.
  replace (Os.PATH_MAX <=? _)%nat with false by (symmetry; now apply Nat.leb_gt).
  unfold Os.is_absolute. rewrite starts_with_sep_listed.
  rewrite components_listed_name by assumption.
  unfold Os.final_slash. rewrite pieces_listed_name by (now apply entries_sane).
  change ("." :: d ++ [name]) with (["."] ++ d ++ [name]) at 2.
  rewrite !app_assoc, last_last.
  pose proof Hall as Hname. apply Forall_app in Hname as [_ Hname].
  apply Forall_inv in Hname. apply entry_name_spec in Hname as (Hne & _).
  apply String.eqb_neq in Hne. rewrite Hne.
  cbn [Os.follow String.eqb Ascii.eqb Bool.eqb]. reflexivity.
Qed.

(** The name listed for a file leads to the file. *)
Lemma lookup_listed (w : World) (d : path) (name : string) :
  on_disk (fs w) -> d = [] \/ d ∈ dirs (fs w) ->
  Forall (fun c => entry_name c = true) (d ++ [name]) ->
  (String.length (Os.path_join (Os.root_name d) name) < Os.PATH_MAX)%nat ->
  Os.lookup w (Os.path_join (Os.root_name d) name)
  = Os.Entry (Os.cwd_path w ++ d ++ [name]) false.
Proof.
  intros Hwf Hd Hall Hlen. rewrite lookup_listed_follow by assumption.
  rewrite follow_down; [reflexivity|exact Hall|].
  intros k Hk. unfold Os.kind_at. rewrite kind_of_inside.
  apply kind_in_tree_Directory. right.
  destruct Hd as [->|Hd]; [cbn [length] in Hk; lia|].
  now apply on_disk_prefixes.
Qed.

Lemma entry_path_spec (p : path) :
  entry_path p = true -> p <> [] /\ Forall (fun c => entry_name c = true) p.
Proof.
  destruct p as [|c p]; [discriminate|]. unfold entry_path.
  intros H. split; [discriminate|].
  rewrite forallb_forall in H. apply List.Forall_forall. exact H.
Qed.

Lemma sane_path_spec (p : path) :
  sane_path p = true -> p <> [] /\ Forall (fun c => sane_name c = true) p.
Proof.
  destruct p as [|c p]; [discriminate|]. unfold sane_path.
  intros H. split; [discriminate|].
  rewrite forallb_forall in H. apply List.Forall_forall. exact H.
Qed.

Lemma wf_tree_b_sound (t : FileSystem) : wf_tree_b t = true -> wf_tree t.
Proof.
  unfold wf_tree_b. intros [Hf Hd]%andb_true_iff.
  rewrite forallb_forall in Hf, Hd. split.
  - intros p Hp. apply sane_path_spec, Hf.
    now apply list_elem_of_In, elem_of_elements.
  - intros d Hin. apply sane_path_spec, Hd.
    now apply list_elem_of_In, elem_of_elements.
Qed.

Lemma on_disk_b_sound (t : FileSystem) : on_disk_b t = true -> on_disk t.
Proof.
  unfold on_disk_b.
  intros [[[Hf Hd]%andb_true_iff Hpf]%andb_true_iff Hpd]%andb_true_iff.
  rewrite forallb_forall in Hf, Hd, Hpf, Hpd.
  split; [|split; [|split]].
  - intros p Hp. apply entry_path_spec, Hf.
    now apply list_elem_of_In, elem_of_elements.
  - intros d Hin. apply entry_path_spec, Hd.
    now apply list_elem_of_In, elem_of_elements.
  - intros p Hp.
    assert (Hin : In p (elements (dom (files t))))
      by (now apply list_elem_of_In, elem_of_elements).
    apply Hpf in Hin. apply andb_true_iff in Hin as [H1 H2].
    apply bool_decide_eq_true in H1. apply negb_true_iff in H2.
    apply bool_decide_eq_false in H2. now split.
  - intros d Hin.
    assert (Hin' : In d (elements (dirs t)))
      by (now apply list_elem_of_In, elem_of_elements).
    apply Hpd in Hin'. now apply bool_decide_eq_true in Hin'.
Qed.

(** A listed name that the OS takes leads to a regular file of the tree. *)
Lemma listed_found (w : World) (d : path) (name : string) :
  on_disk (fs w) -> d = [] \/ d ∈ dirs (fs w) ->
  d ++ [name] ∈ dom (files (fs w)) ->
  (String.length (Os.path_join (Os.root_name d) name) < Os.PATH_MAX)%nat ->
  Os.lookup w (Os.path_join (Os.root_name d) name)
  = Os.Entry (Os.cwd_path w ++ d ++ [name]) false
  /\ Os.too_long (Os.cwd_path w ++ d ++ [name]) = false
  /\ Os.kind_at w (Os.cwd_path w ++ d ++ [name]) = Os.Regular
  /\ Os.strip (Os.cwd_path w) (Os.cwd_path w ++ d ++ [name]) = Some (d ++ [name]).
Proof.
  intros Hwf Hd Hfile Hlen.
  pose proof Hwf as (Hsane & Hds & Hplaced & Hpd).
  destruct (Hsane _ Hfile) as [Hne Hall].
  split; [apply lookup_listed; assumption|].
  split.
  { rewrite !app_assoc. apply too_long_snoc.
    apply Forall_app in Hall as [_ Hname]. apply Forall_inv in Hname.
    now apply entry_name_spec in Hname. }
  split; [|apply strip_app].
  unfold Os.kind_at. rewrite kind_of_inside. apply kind_in_tree_Regular.
  split; [exact Hne|]. split; [|exact Hfile]. now apply Hplaced.
Qed.

(** X4: in a tree as it is on disk, every name in the list of
    [get_existing_files] that is short enough for the OS leads back to a
    file of the tree: opening or removing it finds the file.  A listed
    name of [PATH_MAX] characters or more leads nowhere: the OS refuses
    it. *)
Theorem X4_listed_files_exist (w : World) (p : string) :
  on_disk (fs w) ->
  In p (existing_files_of (fs w)) ->
  ((String.length p < Os.PATH_MAX)%nat ->
   exists (d : path) (name old : string),
     p = Os.path_join (Os.root_name d) name
     /\ Os.target w p = Some (d ++ [name])
     /\ files (fs w) !! (d ++ [name]) = Some old
     /\ Os.read w p = Some old)
  /\ ((Os.PATH_MAX <= String.length p)%nat ->
      Os.lookup w p = Os.Fails (Os.name_too_long p)).
Proof.
  intros Hwf Hin.
  apply listed_iff in Hin as (d & name & Hd & Hfile & _ & ->).
  assert (Hd' : d = [] \/ d ∈ dirs (fs w)) by (destruct Hd as [|[? _]]; auto).
  split.
  - intros Hlen.
    destruct (listed_found w d name Hwf Hd' Hfile Hlen) as (El & Hlong & Ek & Es).
    pose proof Hfile as Hold. apply elem_of_dom in Hold as [old Hold].
    exists d, name, old. split; [reflexivity|].
    split; [exact (target_found _ _ _ _ _ El Es)|]. split; [exact Hold|].
    now rewrite (read_found _ _ _ _ El Hlong Ek Es).
  - intros Hlen. unfold Os.lookup.
    destruct Hwf as (Hsane & _). destruct (Hsane _ Hfile) as [_ Hall].
    rewrite no_NUL_listed by assumption. cbn [negb].
    rewrite is_empty_listed.
    now replace (Os.PATH_MAX <=? _)%nat with true by (symmetry; now apply Nat.leb_le).
Qed.

Lemma X4_listed_files_exist_witness :
  on_disk (fs world_repo)
  /\ In "./src/a.py" (existing_files_of (fs world_repo))
  /\ (String.length "./src/a.py" < Os.PATH_MAX)%nat
  /\ exists (d : path) (name old : string),
       "./src/a.py" = Os.path_join (Os.root_name d) name
       /\ Os.target world_repo "./src/a.py" = Some (d ++ [name])
       /\ files (fs world_repo) !! (d ++ [name]) = Some old
       /\ Os.read world_repo "./src/a.py" = Some old.
Proof.
  assert (Hwf : on_disk (fs world_repo)) by (apply on_disk_b_sound; vm_compute; reflexivity).
  assert (Hin : In "./src/a.py" (existing_files_of (fs world_repo)))
    by (vm_compute; tauto).
  assert (Hlen : (String.length "./src/a.py" < Os.PATH_MAX)%nat)
    by (vm_compute; lia).
  split; [exact Hwf|]. split; [exact Hin|]. split; [exact Hlen|].
  exact (proj1 (X4_listed_files_exist world_repo "./src/a.py" Hwf Hin) Hlen).
Defined.

Lemma starts_with_app (needle a b : string) :
  Text.starts_with needle a = true -> Text.starts_with needle (a +:+ b) = true.
Proof.
  revert a. induction needle as [|x needle IH]; intros a; [reflexivity|].
  destruct a as [|y a]; simpl; [discriminate|].
  destruct (Ascii.eqb x y); [apply IH|discriminate].
Qed.

Lemma contains_app_l (needle a b : string) :
  Text.contains needle a = true -> Text.contains needle (a +:+ b) = true.
Proof.
  induction a as [|y a IH]; simpl.
  - rewrite orb_false_r. intros H. destruct needle; [|discriminate].
    destruct b; reflexivity.
  - intros [H|H]%orb_true_iff.
    + apply (starts_with_app _ (String y a) b) in H. simpl in H.
      rewrite H. reflexivity.
    + rewrite (IH H). apply orb_true_r.
Qed.

Lemma contains_app_r (needle a b : string) :
  Text.contains needle b = true -> Text.contains needle (a +:+ b) = true.
Proof.
  intros H. induction a as [|y a IH]; simpl; [exact H|].
  rewrite IH. apply orb_true_r.
Qed.

Lemma contains_join (needle sep c : string) (l : list string) :
  In c l -> Text.contains needle c = true ->
  Text.contains needle (Text.join sep l) = true.
Proof.
  intros Hin Hc. induction l as [|x l IH]; [destruct Hin|].
  destruct l as [|y l].
  - destruct Hin as [->|[]]. exact Hc.
  - change (Text.join sep (x :: y :: l)) with (x +:+ sep +:+ Text.join sep (y :: l)).
    destruct Hin as [->|Hin].
    + now apply contains_app_l.
    + apply contains_app_r, contains_app_r. now apply IH.
Qed.

(** Two listed names are the same only for the same file. *)
Lemma listed_name_inj (t : FileSystem) (d d' : path) (name name' : string) :
  wf_tree t -> d ++ [name] ∈ dom (files t) -> d' ++ [name'] ∈ dom (files t) ->
  Os.path_join (Os.root_name d) name = Os.path_join (Os.root_name d') name' ->
  d = d' /\ name = name'.
Proof.
  intros (Hsane & _) Hf Hf' Heq.
  destruct (Hsane _ Hf) as [_ Hall]. destruct (Hsane _ Hf') as [_ Hall'].
  apply (f_equal Os.pieces) in Heq.
  rewrite !pieces_listed_name in Heq by assumption.
  injection Heq as Heq. now apply app_inj_tail in Heq.
Qed.

(** X5: the filter of [get_existing_files] looks at the directory, not at
    the file.  Every file of the working directory itself is listed,
    whatever its name ([.gitignore] too).  No file is listed from a
    directory one of whose path components contains [.git] anywhere in its
    name: the metadata directory [.git], and also a directory such as
    [docs.github]. *)
Theorem X5_git_filter_is_on_directories (t : FileSystem) :
  (forall name : string,
     [name] ∈ dom (files t) -> In ("./" +:+ name) (existing_files_of t))
  /\ (wf_tree t ->
      forall (d : path) (c name : string),
        d ++ [name] ∈ dom (files t) ->
        In c d -> Text.contains ".git" c = true ->
        ~ In (Os.path_join (Os.root_name d) name) (existing_files_of t)).
Proof.
  split.
  - intros name Hname. apply listed_iff. exists [], name.
    split; [now left|]. split; [exact Hname|]. split; reflexivity.
  - intros Hwf d c name Hfile Hc Hgit Hin.
    apply listed_iff in Hin as (d' & name' & _ & Hfile' & Hroot & Heq).
    destruct (listed_name_inj t d d' name name' Hwf Hfile Hfile' Heq) as [<- _].
    assert (Hyes : Text.contains ".git" (Os.root_name d) = true).
    { unfold Os.root_name. apply (contains_join _ _ c); [now right|exact Hgit]. }
    congruence.
Qed.

Lemma X5_git_filter_is_on_directories_witness :
  wf_tree tree_repo
  /\ In "./.gitignore" (existing_files_of tree_repo)
  /\ ~ In "./docs.github/notes.md" (existing_files_of tree_repo)
  /\ ~ In "./.git/HEAD" (existing_files_of tree_repo).
Proof.
  assert (Hwf : wf_tree tree_repo) by (apply wf_tree_b_sound; vm_compute; reflexivity).
  destruct (X5_git_filter_is_on_directories tree_repo) as [Htop Hdir].
  split; [exact Hwf|]. split; [|split].
  - apply (Htop ".gitignore"). apply elem_of_dom. vm_compute. eauto.
  - apply (Hdir Hwf ["docs.github"] "docs.github" "notes.md").
    + apply elem_of_dom. vm_compute. eauto.
    + now left.
    + reflexivity.
  - apply (Hdir Hwf [".git"] ".git" "HEAD").
    + apply elem_of_dom. vm_compute. eauto.
    + now left.
    + reflexivity.
Defined.

(** ** A target that is missing (C5) *)

(** Where the walk stops: at the first component that is no directory. *)
Lemma follow_stop (kind : path -> Os.Kind) (nm c : string) (rest : list string)
      (a : path) (s : bool) :
  rest <> [] -> entry_name c = true -> kind (a ++ [c]) <> Os.Directory ->
  Os.follow kind nm a (c :: rest) s
  = Os.Fails (match kind (a ++ [c]) with
              | Os.Regular => NotADirectoryError nm
              | _ => FileNotFoundError nm
              end).
Proof.
  intros Hrest (_ & H1 & H2 & _ & _ & Hlen)%entry_name_spec Hk.
  apply String.eqb_neq in H1, H2.
  destruct rest as [|c' rest]; [congruence|].
  cbn [Os.follow]. rewrite H1, H2.
  replace (Os.NAME_MAX <? String.length c)%nat with false
    by (symmetry; now apply Nat.ltb_ge).
  now destruct (kind (a ++ [c])).
Qed.

(** A directory on the way is gone, and no regular file stands in its
    place. *)
Lemma follow_gone (kind : path -> Os.Kind) (nm : string) (d : list string)
      (name : string) (a : path) (s : bool) :
  Forall (fun c => entry_name c = true) d ->
  d <> [] -> kind (a ++ d) <> Os.Directory ->
  (forall k, (0 < k <= length d)%nat -> kind (a ++ take k d) <> Os.Regular) ->
  Os.follow kind nm a (d ++ [name]) s = Os.Fails (FileNotFoundError nm).
Proof.
  revert a. induction d as [|c d IH]; intros a Hall Hne Hend Hreg; [congruence|].
  change ((c :: d) ++ [name]) with (c :: (d ++ [name])).
  inversion Hall as [|? ? Hc Hrest]; subst.
  pose proof (Hreg 1%nat) as H1. change (take 1 (c :: d)) with [c] in H1.
  specialize (H1 ltac:(cbn [length]; lia)).
  destruct (kind (a ++ [c])) eqn:Ek; [|congruence|].
  - rewrite follow_stop; [now rewrite Ek|now destruct d|exact Hc|congruence].
  - destruct d as [|c' d]; [congruence|].
    rewrite follow_step; [|discriminate|exact Hc|exact Ek].
    apply IH; [exact Hrest|discriminate|now rewrite <- app_assoc|].
    intros k Hk. rewrite <- app_assoc. apply (Hreg (S k)).
    cbn [length] in *. lia.
Qed.

(** A regular file stands where a directory on the way should be. *)
Lemma follow_blocked (kind : path -> Os.Kind) (nm : string) (d : list string)
      (name : string) (a : path) (s : bool) :
  Forall (fun c => entry_name c = true) d ->
  d <> [] -> kind (a ++ d) = Os.Regular ->
  (forall k, (0 < k < length d)%nat -> kind (a ++ take k d) = Os.Directory) ->
  Os.follow kind nm a (d ++ [name]) s = Os.Fails (NotADirectoryError nm).
Proof.
  revert a. induction d as [|c d IH]; intros a Hall Hne Hend Hdir; [congruence|].
  change ((c :: d) ++ [name]) with (c :: (d ++ [name])).
  inversion Hall as [|? ? Hc Hrest]; subst.
  destruct d as [|c' d].
  - rewrite follow_stop; [now rewrite Hend|discriminate|exact Hc|congruence].
  - pose proof (Hdir 1%nat) as H1. change (take 1 (c :: c' :: d)) with [c] in H1.
    specialize (H1 ltac:(cbn [length]; lia)).
    rewrite follow_step; [|discriminate|exact Hc|exact H1].
    apply IH; [exact Hrest|discriminate|now rewrite <- app_assoc|].
    intros k Hk. rewrite <- app_assoc. apply (Hdir (S k)).
    cbn [length] in *. lia.
Qed.

Lemma kind_at_inside (w : World) (p : path) :
  Os.kind_at w (Os.cwd_path w ++ p) = Os.kind_in_tree (fs w) p.
Proof. unfold Os.kind_at. apply kind_of_inside. Qed.

(** What both operations make of a name that leads nowhere. *)
Lemma lookup_fails_both (w : World) (f : string) (e : exn) :
  Os.lookup w f = Os.Fails e ->
  delete_file f w = (Raise e, w) /\ modify_file f w = (Raise e, w).
Proof.
  intros El. split.
  - apply (delete_file_raises f w w). unfold Os.remove. now rewrite El.
  - apply (modify_file_raises f w w). unfold Os.open. now rewrite El.
Qed.

Lemma remove_missing (name : string) (a : path) (s : bool) (w : World) :
  Os.lookup w name = Os.Entry a s -> Os.too_long a = false ->
  Os.kind_at w a = Os.Missing ->
  Os.remove name w = (Raise (FileNotFoundError name), w).
Proof. intros El Hlong Ek. unfold Os.remove. now rewrite El, Hlong, Ek. Qed.

(** C5, as stated, fails for [modify_file]: opening in append mode creates
    a missing file.  In an empty tree, [modify_file] on a name that does
    not exist returns normally. *)
Lemma C5_counterexample_modify_creates :
  ~ (forall (w : World) (f : string),
       Os.read w f = None ->
       exists w', modify_file f w = (Raise (FileNotFoundError f), w')).
Proof.
  intros claim.
  destruct (claim world_empty "ghost.txt" eq_refl) as (w' & Erun).
  apply (f_equal fst) in Erun. vm_compute in Erun. discriminate.
Qed.

(** C5, amended.  For a name as [get_existing_files] reports it,
    [./dir/.../name], in a tree as it is on disk: when the file is gone and
    its directory is still there, [delete_file f] raises
    [FileNotFoundError], which the caller receives, the world being left as
    it was, but [modify_file f] does not fail: the file is created and holds
    the appended text only.  When the directory is gone too, both raise
    [FileNotFoundError]; when a regular file stands where the directory
    was, both raise [NotADirectoryError]; the world is left as it was.
    For every name: an error met on the way to [f] is what both operations
    raise, and the caller receives it.  When the directory that should hold
    [f] exists and has no entry of that name, [delete_file f] raises
    [FileNotFoundError] and [modify_file f] creates the file (unless [f] is
    written with a final separator: then it is taken for a directory and
    [modify_file f] raises [IsADirectoryError]).  When [f] is a directory,
    both raise [IsADirectoryError]. *)
Theorem C5_missing_target (w : World) (f : string) :
  (forall e : exn,
     Os.lookup w f = Os.Fails e ->
     delete_file f w = (Raise e, w) /\ modify_file f w = (Raise e, w))
  /\ (forall (a : path) (slash : bool),
        Os.lookup w f = Os.Entry a slash -> Os.too_long a = false ->
        Os.kind_at w a = Os.Missing ->
        delete_file f w = (Raise (FileNotFoundError f), w)
        /\ if slash
           then modify_file f w = (Raise (IsADirectoryError f), w)
           else exists (data : Z) (w' : World),
                  let stamp := "Modified at " +:+ Datetime.str (peek (clock w)) in
                  let payload := "Additional data: " +:+ Text.str_int data in
                  1 <= data <= 1000000
                  /\ modify_file f w = (Ok f, w')
                  /\ Os.kind_at w' a = Os.Regular
                  /\ (Os.target w f <> None ->
                      Os.read w' f
                      = Some ((Text.NL +:+ stamp +:+ Text.NL) +:+ (payload +:+ Text.NL))))
  /\ (forall (a : path) (slash : bool),
        Os.lookup w f = Os.Entry a slash -> Os.kind_at w a = Os.Directory ->
        Os.too_long a = false ->
        delete_file f w = (Raise (IsADirectoryError f), w)
        /\ modify_file f w = (Raise (IsADirectoryError f), w))
  /\ (forall (d : path) (name : string),
        on_disk (fs w) ->
        f = Os.path_join (Os.root_name d) name ->
        Forall (fun c => entry_name c = true) (d ++ [name]) ->
        (String.length f < Os.PATH_MAX)%nat ->
        ((d = [] \/ d ∈ dirs (fs w)) ->
         (d ++ [name] ∉ dom (files (fs w))) -> (d ++ [name] ∉ dirs (fs w)) ->
         delete_file f w = (Raise (FileNotFoundError f), w)
         /\ exists (data : Z) (w' : World),
              let stamp := "Modified at " +:+ Datetime.str (peek (clock w)) in
              let payload := "Additional data: " +:+ Text.str_int data in
              1 <= data <= 1000000
              /\ modify_file f w = (Ok f, w')
              /\ files (fs w')
                 = <[d ++ [name] := (Text.NL +:+ stamp +:+ Text.NL) +:+ (payload +:+ Text.NL)]>
                     (files (fs w))
              /\ dirs (fs w') = dirs (fs w))
        /\ (d <> [] -> (d ∉ dirs (fs w)) ->
            (forall k : nat, take k d ∉ dom (files (fs w))) ->
            delete_file f w = (Raise (FileNotFoundError f), w)
            /\ modify_file f w = (Raise (FileNotFoundError f), w))
        /\ (d ∈ dom (files (fs w)) ->
            delete_file f w = (Raise (NotADirectoryError f), w)
            /\ modify_file f w = (Raise (NotADirectoryError f), w))).
Proof.
  split; [exact (lookup_fails_both w f)|]. split; [|split].
  - intros a slash El Hlong Ek. split.
    + apply (delete_file_raises f w w). unfold Os.remove.
      now rewrite El, Hlong, Ek.
    + destruct slash.
      * apply (modify_file_raises f w w). unfold Os.open. now rewrite El.
      * pose proof (Z.mod_pos_bound (peek (rng w)) 1000000 eq_refl) as Hd.
        destruct (modify_file_missing f a w El Hlong Ek)
          as (w' & Erun & _ & Ek' & _ & Hin & _).
        exists (1 + peek (rng w) mod 1000000), w'. cbv zeta.
        split; [lia|]. split; [exact Erun|]. split; [exact Ek'|].
        intros Ht. unfold Os.target in Ht. rewrite El in Ht.
        destruct (Os.strip (Os.cwd_path w) a) as [p|] eqn:Es; [|congruence].
        destruct (Hin p eq_refl) as [_ Hread]. rewrite Hread.
        now rewrite !app_assoc_s.
  - intros a slash El Ek Hlong. split.
    + apply (delete_file_raises f w w). unfold Os.remove.
      now rewrite El, Hlong, Ek.
    + apply (modify_file_raises f w w). unfold Os.open.
      rewrite El, Hlong, Ek. now destruct slash.
  - intros d name Hwf -> Hall Hlen.
    pose proof Hall as [Hd_all Hname]%Forall_app.
    apply Forall_inv in Hname.
    split; [|split].
    + intros Hd Hnofile Hnodir.
      pose proof (lookup_listed w d name Hwf Hd Hall Hlen) as El.
      assert (Hlong : Os.too_long (Os.cwd_path w ++ d ++ [name]) = false).
      { rewrite app_assoc. apply too_long_snoc.
        now apply entry_name_spec in Hname. }
      assert (Ek : Os.kind_at w (Os.cwd_path w ++ d ++ [name]) = Os.Missing).
      { rewrite kind_at_inside. apply kind_in_tree_Missing.
        split; [now destruct d|]. now split. }
      split.
      * apply (delete_file_raises _ w w).
        exact (remove_missing _ _ false w El Hlong Ek).
      * pose proof (Z.mod_pos_bound (peek (rng w)) 1000000 eq_refl) as Hdata.
        destruct (modify_file_missing _ _ w El Hlong Ek)
          as (w' & Erun & _ & _ & Hdirs & Hin & _).
        exists (1 + peek (rng w) mod 1000000), w'. cbv zeta.
        split; [lia|]. split; [exact Erun|]. split; [|exact Hdirs].
        destruct (Hin (d ++ [name]) (strip_app _ _)) as [Hfiles _].
        rewrite Hfiles. now rewrite !app_assoc_s.
    + intros Hne Hnodir Hnofile. apply lookup_fails_both.
      rewrite lookup_listed_follow by assumption.
      apply follow_gone; [exact Hd_all|exact Hne| |].
      * rewrite kind_at_inside. intros [H|H]%kind_in_tree_Directory; contradiction.
      * intros k _. rewrite kind_at_inside.
        intros (_ & _ & H)%kind_in_tree_Regular. exact (Hnofile k H).
    + intros Hfile. apply lookup_fails_both.
      rewrite lookup_listed_follow by assumption.
      pose proof Hwf as (Hf1 & _ & Hf3 & _).
      destruct (Hf1 _ Hfile) as [Hne _]. destruct (Hf3 _ Hfile) as [Hplaced Hnodir].
      apply follow_blocked; [exact Hd_all|exact Hne| |].
      * rewrite kind_at_inside. now apply kind_in_tree_Regular.
      * intros k Hk. rewrite kind_at_inside. apply kind_in_tree_Directory. right.
        unfold placed in Hplaced. rewrite removelast_firstn_len in Hplaced.
        destruct Hplaced as [Hp|Hp].
        -- apply (f_equal (@length string)) in Hp.
           rewrite length_take in Hp. cbn [length] in Hp. lia.
        -- replace (take k d) with (take k (take (Nat.pred (length d)) d))
             by (rewrite take_take; f_equal; lia).
           apply (on_disk_prefixes _ _ Hwf Hp). rewrite length_take. lia.
Qed.

Lemma C5_missing_target_witness :
  Os.lookup world_empty "sub/ghost.txt" = Os.Fails (FileNotFoundError "sub/ghost.txt")
  /\ delete_file "sub/ghost.txt" world_empty
     = (Raise (FileNotFoundError "sub/ghost.txt"), world_empty)
  /\ modify_file "sub/ghost.txt" world_empty
     = (Raise (FileNotFoundError "sub/ghost.txt"), world_empty)
  /\ Os.lookup world_empty "ghost.txt"
     = Os.Entry ["home"; "dev"; "repo"; "ghost.txt"] false
  /\ Os.kind_at world_empty ["home"; "dev"; "repo"; "ghost.txt"] = Os.Missing
  /\ delete_file "ghost.txt" world_empty
     = (Raise (FileNotFoundError "ghost.txt"), world_empty)
  /\ (exists (data : Z) (w' : World),
        modify_file "ghost.txt" world_empty = (Ok "ghost.txt", w')
        /\ Os.kind_at w' ["home"; "dev"; "repo"; "ghost.txt"] = Os.Regular)
  /\ Os.lookup (world_of tree_repo [41] [an_instant] []) "src"
     = Os.Entry ["home"; "dev"; "repo"; "src"] false
  /\ delete_file "src" (world_of tree_repo [41] [an_instant] [])
     = (Raise (IsADirectoryError "src"), world_of tree_repo [41] [an_instant] [])
  /\ on_disk (fs world_empty)
  /\ delete_file "./ghost.txt" world_empty
     = (Raise (FileNotFoundError "./ghost.txt"), world_empty)
  /\ (exists (data : Z) (w' : World),
        modify_file "./ghost.txt" world_empty = (Ok "./ghost.txt", w')
        /\ dirs (fs w') = dirs (fs world_empty))
  /\ modify_file "./sub/ghost.txt" world_empty
     = (Raise (FileNotFoundError "./sub/ghost.txt"), world_empty)
  /\ on_disk (fs (world_of tree_notes [41] [an_instant] []))
  /\ modify_file "./notes.txt/x" (world_of tree_notes [41] [an_instant] [])
     = (Raise (NotADirectoryError "./notes.txt/x"),
        world_of tree_notes [41] [an_instant] [])
  /\ delete_file "./notes.txt/x" (world_of tree_notes [41] [an_instant] [])
     = (Raise (NotADirectoryError "./notes.txt/x"),
        world_of tree_notes [41] [an_instant] []).
Proof.
  set (w := world_empty).
  assert (H1 : Os.lookup w "sub/ghost.txt" = Os.Fails (FileNotFoundError "sub/ghost.txt"))
    by (vm_compute; reflexivity).
  assert (H2 : Os.lookup w "ghost.txt" = Os.Entry ["home"; "dev"; "repo"; "ghost.txt"] false)
    by (vm_compute; reflexivity).
  assert (H3 : Os.kind_at w ["home"; "dev"; "repo"; "ghost.txt"] = Os.Missing)
    by (vm_compute; reflexivity).
  assert (H4 : Os.too_long ["home"; "dev"; "repo"; "ghost.txt"] = false)
    by (vm_compute; reflexivity).
  assert (H5 : Os.lookup (world_of tree_repo [41] [an_instant] []) "src"
               = Os.Entry ["home"; "dev"; "repo"; "src"] false)
    by (vm_compute; reflexivity).
  assert (H6 : Os.kind_at (world_of tree_repo [41] [an_instant] [])
                 ["home"; "dev"; "repo"; "src"] = Os.Directory)
    by (vm_compute; reflexivity).
  assert (H7 : Os.too_long ["home"; "dev"; "repo"; "src"] = false)
    by (vm_compute; reflexivity).
  assert (Hwf : on_disk (fs w)) by (apply on_disk_b_sound; vm_compute; reflexivity).
  assert (Hwf' : on_disk (fs (world_of tree_notes [41] [an_instant] [])))
    by (apply on_disk_b_sound; vm_compute; reflexivity).
  assert (Hnone : forall p : path, p ∉ dom (files (fs w)))
    by (intros p; apply not_elem_of_empty).
  assert (Hnodir : forall p : path, p ∉ dirs (fs w))
    by (intros p; apply not_elem_of_empty).
  assert (Hfile : ["notes.txt"] ∈ dom (files (fs (world_of tree_notes [41] [an_instant] []))))
    by (apply elem_of_dom; vm_compute; eauto).
  destruct (C5_missing_target w "sub/ghost.txt") as (Hfail & _ & _ & _).
  destruct (C5_missing_target w "ghost.txt") as (_ & Hmiss & _ & _).
  destruct (C5_missing_target (world_of tree_repo [41] [an_instant] []) "src")
    as (_ & _ & Hdir & _).
  destruct (C5_missing_target w "./ghost.txt") as (_ & _ & _ & Hhere).
  destruct (C5_missing_target w "./sub/ghost.txt") as (_ & _ & _ & Hgone).
  destruct (C5_missing_target (world_of tree_notes [41] [an_instant] []) "./notes.txt/x")
    as (_ & _ & _ & Hblocked).
  destruct (Hfail _ H1) as [Hd1 Hm1].
  destruct (Hmiss _ _ H2 H4 H3) as [Hd2 (data & w' & _ & Hm2 & Hk2 & _)].
  destruct (Hdir _ _ H5 H6 H7) as [Hd3 _].
  destruct (Hhere [] "ghost.txt" Hwf eq_refl) as (Hcase & _ & _);
    [repeat constructor|apply Nat.ltb_lt; vm_compute; reflexivity|].
  destruct (Hcase (or_introl eq_refl) (Hnone _) (Hnodir _))
    as [Hd4 (data4 & w4 & _ & Hm4 & _ & Hdirs4)].
  destruct (Hgone ["sub"] "ghost.txt" Hwf eq_refl) as (_ & Hcase5 & _);
    [repeat constructor|apply Nat.ltb_lt; vm_compute; reflexivity|].
  destruct (Hcase5 ltac:(discriminate) (Hnodir _) (fun k => Hnone _)) as [_ Hm5].
  destruct (Hblocked ["notes.txt"] "x" Hwf' eq_refl) as (_ & _ & Hcase6);
    [repeat constructor|apply Nat.ltb_lt; vm_compute; reflexivity|].
  destruct (Hcase6 Hfile) as [Hd6 Hm6].
  split; [exact H1|]. split; [exact Hd1|]. split; [exact Hm1|].
  split; [exact H2|]. split; [exact H3|]. split; [exact Hd2|].
  split; [exists data, w'; split; [exact Hm2|exact Hk2]|].
  split; [exact H5|]. split; [exact Hd3|].
  split; [exact Hwf|]. split; [exact Hd4|].
  split; [exists data4, w4; split; [exact Hm4|exact Hdirs4]|].
  split; [exact Hm5|]. split; [exact Hwf'|]. split; [exact Hm6|exact Hd6].
Defined.


(** ** The file operations on a tree as a filesystem holds it *)

Lemma NoDup_map_inj_on {A B} (f : A -> B) (l : list A) :
  (forall x y, In x l -> In y l -> f x = f y -> x = y) ->
  NoDup l -> NoDup (List.map f l).
Proof.
  intros Hinj Hnd. induction Hnd as [|x l Hx Hnd IH]; [constructor|].
  cbn [List.map]. constructor.
  - rewrite list_elem_of_In, in_map_iff. intros (y & Hxy & Hy).
    apply Hx, list_elem_of_In.
    rewrite (Hinj x y (or_introl eq_refl) (or_intror Hy) (eq_sym Hxy)). exact Hy.
  - apply IH. intros a b Ha Hb. apply Hinj; now right.
Qed.

Lemma NoDup_flat_map_keyed {A B K} (key : B -> K) (ka : A -> K) (f : A -> list B)
      (l : list A) :
  NoDup (List.map ka l) ->
  (forall a b, In a l -> In b (f a) -> key b = ka a) ->
  (forall a, In a l -> NoDup (f a)) ->
  NoDup (flat_map f l).
Proof.
  induction l as [|a l IH]; intros Hnd Hkey Hin; [constructor|].
  cbn [flat_map List.map] in *. inversion Hnd as [|? ? Ha Hnd']; subst.
  apply NoDup_app. split; [apply Hin; now left|]. split.
  - intros b Hb Hb'. rewrite list_elem_of_In in Hb, Hb'.
    apply in_flat_map in Hb' as (a' & Ha' & Hb').
    apply Ha, list_elem_of_In, in_map_iff. exists a'. split; [|exact Ha'].
    rewrite <- (Hkey a' b (or_intror Ha') Hb'). apply Hkey; [now left|exact Hb].
  - apply IH; [exact Hnd'| |].
    + intros a' b Ha' Hb. apply Hkey; [now right|exact Hb].
    + intros a' Ha'. apply Hin. now right.
Qed.

Lemma flat_map_of_map {A B C} (g : A -> B) (f : B -> list C) (l : list A) :
  flat_map f (List.map g l) = flat_map (fun a => f (g a)) l.
Proof. induction l as [|a l IH]; [reflexivity|]. cbn. now rewrite IH. Qed.

Lemma flat_map_singleton {A B} (g : A -> B) (l : list A) :
  flat_map (fun a => [g a]) l = List.map g l.
Proof. induction l as [|a l IH]; [reflexivity|]. cbn. now rewrite IH. Qed.

Lemma flat_map_nil {A B} (l : list A) : flat_map (fun _ : A => @nil B) l = [].
Proof. induction l as [|a l IH]; [reflexivity|exact IH]. Qed.

Lemma children_NoDup (ps : list path) (d : path) :
  NoDup ps -> NoDup (Os.children ps d).
Proof.
  intros Hnd. unfold Os.children. apply NoDup_map_inj_on.
  - intros x y Hx Hy Hlast.
    apply filter_In in Hx as [_ Hx]. apply filter_In in Hy as [_ Hy].
    apply bool_decide_eq_true in Hx as [Hx1 Hx2].
    apply bool_decide_eq_true in Hy as [Hy1 Hy2].
    rewrite (app_removelast_last EmptyString Hx1), (app_removelast_last EmptyString Hy1).
    congruence.
  - now apply NoDup_ListNoDup, List.NoDup_filter, NoDup_ListNoDup.
Qed.

(** In a well-formed tree no name is listed twice. *)
Lemma listed_NoDup (t : FileSystem) : wf_tree t -> NoDup (existing_files_of t).
Proof.
  intros (Hf & Hd). unfold existing_files_of, Os.walk. rewrite flat_map_of_map.
  apply (NoDup_flat_map_keyed (fun b => removelast (List.tl (Os.pieces b)))
                              (fun d => d)).
  - rewrite map_id. constructor.
    + intros Hin. apply list_elem_of_In, filter_In in Hin as [Hin _].
      apply list_elem_of_In, elem_of_elements, Hd in Hin. now destruct Hin.
    + apply NoDup_ListNoDup, List.NoDup_filter, NoDup_ListNoDup, NoDup_elements.
  - intros d b _ Hb.
    apply in_flat_map in Hb as (name & Hname & Hb).
    destruct (negb (Text.contains ".git" (Os.root_name d))); [|destruct Hb].
    destruct Hb as [<-|[]].
    apply children_spec, list_elem_of_In, elem_of_elements in Hname.
    destruct (Hf _ Hname) as [_ Hsane].
    rewrite (pieces_listed_name d name Hsane). cbn [List.tl]. apply removelast_last.
  - intros d _.
    destruct (negb (Text.contains ".git" (Os.root_name d))).
    + rewrite flat_map_singleton. apply NoDup_map_inj_on.
      * intros x y _ _ Hxy. unfold Os.path_join in Hxy.
        now apply String.app_inj, String.app_inj in Hxy.
      * apply children_NoDup, NoDup_elements.
    + rewrite flat_map_nil. constructor.
Qed.

(** More files in the same directories: more names listed. *)
Lemma listed_mono (t t' : FileSystem) :
  dirs t' = dirs t -> dom (files t) ⊆ dom (files t') ->
  incl (existing_files_of t) (existing_files_of t').
Proof.
  intros Hdirs Hdom p Hp.
  apply listed_iff in Hp as (d & name & Hd & Hfile & Hgit & ->).
  apply listed_iff. exists d, name. rewrite Hdirs.
  split; [exact Hd|]. split; [now apply Hdom|]. now split.
Qed.

(** One file less: one name less, the name of that file. *)
Lemma listed_after_delete (t t' : FileSystem) (p : path) :
  dirs t' = dirs t ->
  dom (files t') = dom (files t) ∖ {[p]} ->
  incl (existing_files_of t)
       (Os.path_join (Os.root_name (removelast p)) (List.last p EmptyString)
          :: existing_files_of t').
Proof.
  intros Hdirs Hdom x Hx.
  apply listed_iff in Hx as (d0 & name0 & Hd & Hfile & Hgit & ->).
  destruct (decide (d0 ++ [name0] = p)) as [<-|Hne].
  - left. now rewrite removelast_last, last_last.
  - right. apply listed_iff. exists d0, name0. rewrite Hdirs.
    split; [exact Hd|]. split; [|now split].
    rewrite Hdom. apply elem_of_difference. split; [exact Hfile|].
    now rewrite elem_of_singleton.
Qed.

(** One file more in the working directory: at most its name more. *)
Lemma listed_after_create (t t' : FileSystem) (name : string) :
  dirs t' = dirs t ->
  dom (files t') ⊆ {[ [name] ]} ∪ dom (files t) ->
  incl (existing_files_of t') (("./" +:+ name) :: existing_files_of t).
Proof.
  intros Hdirs Hdom p Hp.
  apply listed_iff in Hp as (d & nm & Hd & Hfile & Hgit & ->).
  apply Hdom, elem_of_union in Hfile as [Hfile|Hfile].
  - left. apply elem_of_singleton in Hfile.
    destruct d as [|c d]; [|destruct d; discriminate].
    now injection Hfile as ->.
  - right. apply listed_iff. exists d, nm. rewrite <- Hdirs. auto.
Qed.

(** A new file in the working directory keeps the names in order. *)
Lemma wf_tree_new_file (t t' : FileSystem) (name : string) :
  dirs t' = dirs t -> dom (files t') ⊆ {[ [name] ]} ∪ dom (files t) ->
  sane_name name = true -> wf_tree t -> wf_tree t'.
Proof.
  intros Hd Hf Hsane (H1 & H2). unfold wf_tree. rewrite Hd. split; [|exact H2].
  intros p Hp. apply Hf, elem_of_union in Hp as [Hp|Hp]; [|now apply H1].
  apply elem_of_singleton in Hp as ->. split; [discriminate|].
  constructor; [exact Hsane|constructor].
Qed.

(** A tree stays a tree when regular files go away, or change. *)
Lemma on_disk_files (t t' : FileSystem) :
  dirs t' = dirs t -> dom (files t') ⊆ dom (files t) -> on_disk t -> on_disk t'.
Proof.
  intros Hd Hf (H1 & H2 & H3 & H4). unfold on_disk, placed in *. rewrite Hd.
  split; [intros p Hp; apply H1, Hf, Hp|]. split; [exact H2|].
  split; [intros p Hp; apply H3, Hf, Hp|exact H4].
Qed.

(** And when a regular file comes into the working directory under a name
    no directory has. *)
Lemma on_disk_new_file (t t' : FileSystem) (name : string) :
  dirs t' = dirs t -> dom (files t') ⊆ {[ [name] ]} ∪ dom (files t) ->
  entry_name name = true -> [name] ∉ dirs t -> on_disk t -> on_disk t'.
Proof.
  intros Hd Hf Hsane Hfree (H1 & H2 & H3 & H4). unfold on_disk, placed in *.
  rewrite Hd. split; [|split; [exact H2|split; [|exact H4]]].
  - intros p Hp. apply Hf, elem_of_union in Hp as [Hp|Hp]; [|now apply H1].
    apply elem_of_singleton in Hp as ->. split; [discriminate|].
    constructor; [exact Hsane|constructor].
  - intros p Hp. apply Hf, elem_of_union in Hp as [Hp|Hp]; [|now apply H3].
    apply elem_of_singleton in Hp as ->. split; [now left|exact Hfree].
Qed.

Lemma short_listing_files (t t' : FileSystem) :
  dirs t' = dirs t -> dom (files t') ⊆ dom (files t) ->
  short_listing t -> short_listing t'.
Proof.
  intros Hd Hf Hs p Hp. apply Hs. revert Hp.
  apply (listed_mono t' t); [now symmetry|exact Hf].
Qed.

Lemma short_listing_new_file (t t' : FileSystem) (name : string) :
  dirs t' = dirs t -> dom (files t') ⊆ {[ [name] ]} ∪ dom (files t) ->
  entry_name name = true -> short_listing t -> short_listing t'.
Proof.
  intros Hd Hf Hsane Hs p Hp.
  apply (listed_after_create t t' name Hd Hf) in Hp as [<-|Hp]; [|now apply Hs].
  apply entry_name_spec in Hsane as (_ & _ & _ & _ & _ & Hlen).
  rewrite length_app_s. cbn [String.length].
  unfold Os.NAME_MAX, Os.PATH_MAX in *. lia.
Qed.

(** The tree [create_file] leaves. *)
Lemma create_file_tree (w : World) :
  exists n : Z,
    let filename := "file_" +:+ Text.str_int n +:+ ".txt" in
    1000 <= n <= 9999
    /\ n = 1000 + peek (rng w) mod 9000
    /\ ([filename] ∈ dirs (fs w) ->
        exists w', create_file w = (Raise (IsADirectoryError filename), w')
                   /\ fs w' = fs w
                   /\ rng w' = advance (advance (rng w)))
    /\ ([filename] ∉ dirs (fs w) ->
        exists w', create_file w = (Ok filename, w')
                   /\ dirs (fs w') = dirs (fs w)
                   /\ files (fs w') !! [filename] <> None
                   /\ dom (files (fs w')) = {[ [filename] ]} ∪ dom (files (fs w))
                   /\ rng w' = advance (advance (rng w))).
Proof.
  pose proof (Z.mod_pos_bound (peek (rng w)) 9000 eq_refl) as Hn.
  exists (1000 + peek (rng w) mod 9000). cbv zeta.
  split; [lia|]. split; [reflexivity|].
  pose proof (create_file_run w) as Erun. cbv zeta in Erun.
  split; intros Hdir.
  - rewrite bool_decide_true in Erun by assumption. eexists. now split; [exact Erun|].
  - rewrite bool_decide_false in Erun by assumption.
    eexists. split; [exact Erun|].
    cbn [fs files dirs set_files set_fs set_rng set_clock rng].
    split; [reflexivity|]. split; [now rewrite lookup_insert_eq|].
    split; [apply dom_insert_L|reflexivity].
Qed.

(** A listed name leads to its file or, too long, nowhere. *)
Lemma lookup_listed_cases (w : World) (d : path) (name : string) :
  on_disk (fs w) -> d = [] \/ d ∈ dirs (fs w) ->
  d ++ [name] ∈ dom (files (fs w)) ->
  Os.lookup w (Os.path_join (Os.root_name d) name)
  = Os.Entry (Os.cwd_path w ++ d ++ [name]) false
  \/ Os.lookup w (Os.path_join (Os.root_name d) name)
     = Os.Fails (Os.name_too_long (Os.path_join (Os.root_name d) name)).
Proof.
  intros Hwf Hd Hfile.
  destruct (Nat.lt_ge_cases (String.length (Os.path_join (Os.root_name d) name))
                            Os.PATH_MAX) as [Hlen|Hlen].
  - left. pose proof Hwf as (Hsane & _). destruct (Hsane _ Hfile) as [_ Hall].
    now apply lookup_listed.
  - right. unfold Os.lookup.
    pose proof Hwf as (Hsane & _). destruct (Hsane _ Hfile) as [_ Hall].
    rewrite no_NUL_listed by assumption. cbn [negb].
    rewrite is_empty_listed.
    now replace (Os.PATH_MAX <=? _)%nat with true by (symmetry; now apply Nat.leb_le).
Qed.

(** What [modify_file] and [delete_file] leave of the tree, whatever the
    outcome. *)
Lemma modify_file_tree (filename : string) (w : World) :
  dirs (fs (snd (modify_file filename w))) = dirs (fs w)
  /\ dom (files (fs w)) ⊆ dom (files (fs (snd (modify_file filename w))))
  /\ (forall q, Os.target w filename <> Some q ->
        files (fs (snd (modify_file filename w))) !! q = files (fs w) !! q).
Proof.
  split; [|split; [apply modify_file_keeps|]].
  - destruct (Os.open filename Os.mode_a w) as [[a|e] w1] eqn:Eopen.
    + rewrite (modify_file_run _ _ _ _ Eopen). cbn [snd fs set_fs set_rng set_clock].
      rewrite !(proj1 (dirs_extend _ _ _ _)).
      apply open_returns in Eopen as (_ & _ & _ & [->| ->]); [reflexivity|].
      cbn [fs set_fs]. apply dirs_put.
    + now rewrite (modify_file_raises _ _ _ _ Eopen).
  - intros q Hq.
    destruct (Os.open filename Os.mode_a w) as [[a|e] w1] eqn:Eopen.
    + rewrite (modify_file_run _ _ _ _ Eopen). cbn [snd fs set_fs set_rng set_clock].
      apply open_returns in Eopen as (El & _ & _ & Hw1).
      unfold Os.target in Hq. rewrite El in Hq.
      unfold Os.extend.
      destruct (Os.strip (Os.cwd_path w) a) as [p|] eqn:Es.
      * cbn [files]. rewrite !lookup_alter_ne by congruence.
        destruct Hw1 as [->| ->]; [reflexivity|].
        cbn [fs set_fs]. unfold Os.put. rewrite Es. cbn [files].
        now rewrite lookup_insert_ne by congruence.
      * destruct Hw1 as [->| ->]; [reflexivity|].
        cbn [fs set_fs]. unfold Os.put. now rewrite Es.
    + now rewrite (modify_file_raises _ _ _ _ Eopen).
Qed.

Lemma delete_file_tree (filename : string) (w : World) :
  dirs (fs (snd (delete_file filename w))) = dirs (fs w)
  /\ (forall q, Os.target w filename <> Some q ->
        files (fs (snd (delete_file filename w))) !! q = files (fs w) !! q)
  /\ (fs (snd (delete_file filename w)) = fs w
      \/ exists a : path,
           Os.lookup w filename = Os.Entry a false
           /\ fst (delete_file filename w) = Ok filename
           /\ fs (snd (delete_file filename w)) = Os.unlink (fs w) (Os.cwd_path w) a).
Proof.
  destruct (Os.remove filename w) as [[[]|e] w1] eqn:Erm.
  - pose proof Erm as (a & El & _ & _ & ->)%remove_returns.
    unfold delete_file. rewrite (bind_Ok _ _ _ _ _ Erm). unfold ret.
    cbn [fst snd fs set_fs].
    split; [apply dirs_unlink|]. split.
    + intros q Hq. unfold Os.target in Hq. rewrite El in Hq.
      unfold Os.unlink. destruct (Os.strip (Os.cwd_path w) a) as [p|]; [|reflexivity].
      cbn [files]. now rewrite lookup_delete_ne by congruence.
    + right. exists a. auto.
  - rewrite (delete_file_raises _ _ _ _ Erm). cbn [snd]. auto.
Qed.

Lemma create_file_dirs (w : World) : dirs (fs (snd (create_file w))) = dirs (fs w).
Proof. rewrite create_file_run. now case_bool_decide. Qed.

Lemma carry_out_dirs (k : Kind) (l : list string) (w : World) :
  dirs (fs (snd (carry_out k l w))) = dirs (fs w).
Proof.
  destruct k; unfold carry_out, bind.
  - pose proof (create_file_dirs w) as H.
    destruct (create_file w) as [[x|e] w1]; exact H.
  - pose proof (choice_fs l w) as Hc.
    destruct (Random.choice l w) as [[x|e] w1]; cbn [snd] in Hc |- *; [|now rewrite Hc].
    pose proof (modify_file_tree x w1) as [H _]. rewrite Hc in H.
    destruct (modify_file x w1) as [[y|e] w2]; exact H.
  - pose proof (choice_fs l w) as Hc.
    destruct (Random.choice l w) as [[x|e] w1]; cbn [snd] in Hc |- *; [|now rewrite Hc].
    pose proof (delete_file_tree x w1) as [H _]. rewrite Hc in H.
    destruct (delete_file x w1) as [[y|e] w2]; exact H.
Qed.

(** Modifying and deleting a listed name of a workable tree. *)
Lemma listed_read (w : World) (x : string) :
  on_disk (fs w) -> short_listing (fs w) -> In x (existing_files_of (fs w)) ->
  exists old : string, Os.read w x = Some old.
Proof.
  intros Hwf Hshort Hx. pose proof (Hshort _ Hx) as Hlen.
  apply listed_iff in Hx as (d & name & Hd & Hfile & _ & ->).
  assert (Hd' : d = [] \/ d ∈ dirs (fs w)) by (destruct Hd as [|[? _]]; auto).
  destruct (listed_found w d name Hwf Hd' Hfile Hlen) as (El & Hlong & Ek & Es).
  apply elem_of_dom in Hfile as [old Hold]. exists old.
  now rewrite (read_found _ _ _ _ El Hlong Ek Es).
Qed.

Lemma carry_out_workable (k : Kind) (l : list string) (w : World) :
  on_disk (fs w) -> short_listing (fs w) ->
  incl l (existing_files_of (fs w)) -> (k <> Create -> l <> []) ->
  (exists (n : Z) (w' : World),
     1000 <= n <= 9999 /\ k = Create
     /\ ["file_" +:+ Text.str_int n +:+ ".txt"] ∈ dirs (fs w)
     /\ carry_out k l w
        = (Raise (IsADirectoryError ("file_" +:+ Text.str_int n +:+ ".txt")), w')
     /\ fs w' = fs w)
  \/ (exists (filename : string) (w' : World),
        carry_out k l w = (Ok (filename, kind_name k), w')
        /\ on_disk (fs w') /\ short_listing (fs w')
        /\ dirs (fs w') = dirs (fs w)
        /\ (k <> Create -> In filename l)).
Proof.
  intros Hwf Hshort Hl Hne. destruct k; unfold carry_out.
  - destruct (create_file_tree w) as (n & Hn & _ & Hclash & Hfree). cbv zeta in *.
    destruct (decide (["file_" +:+ Text.str_int n +:+ ".txt"] ∈ dirs (fs w)))
      as [Hdir|Hdir].
    + left. destruct (Hclash Hdir) as (w' & Erun & Hfs & _).
      exists n, w'. rewrite (bind_Raise _ _ _ _ _ Erun). auto.
    + right. destruct (Hfree Hdir) as (w' & Erun & Hdirs & _ & Hdom & _).
      eexists _, w'. rewrite (bind_Ok _ _ _ _ _ Erun).
      split; [reflexivity|].
      assert (Hsub : dom (files (fs w'))
                     ⊆ {[ ["file_" +:+ Text.str_int n +:+ ".txt"] ]} ∪ dom (files (fs w)))
        by (now rewrite Hdom).
      split; [eapply on_disk_new_file; eauto using entry_created_name|].
      split; [eapply short_listing_new_file; eauto using entry_created_name|].
      split; [exact Hdirs|congruence].
  - right.
    destruct (choice_spec l w) as (x & i & Ex & _ & Hx); [now apply Hne|].
    apply lookup_In in Hx. rewrite (bind_Ok _ _ _ _ _ Ex).
    set (w1 := set_rng (advance (rng w)) w).
    destruct (listed_read w1 x Hwf Hshort (Hl _ Hx)) as (old & Hold).
    destruct (modify_file_existing x old w1 Hold) as (p & _ & Hp & Erun & _).
    rewrite (bind_Ok _ _ _ _ _ Erun).
    eexists _, _. split; [reflexivity|].
    cbn [fs set_files set_fs set_rng set_clock files dirs].
    assert (Hdom : dom (<[p := ((old +:+ Text.NL +:+ "Modified at "
                                   +:+ Datetime.str (peek (clock w1)) +:+ Text.NL)
                                  +:+ "Additional data: "
                                  +:+ Text.str_int (1 + peek (rng w1) mod 1000000)
                                  +:+ Text.NL)]>
                          (files (fs w))) ⊆ dom (files (fs w))).
    { rewrite dom_insert_L. apply union_least; [|reflexivity].
      apply singleton_subseteq_l, elem_of_dom. eauto. }
    split; [now apply (on_disk_files (fs w))|].
    split; [now apply (short_listing_files (fs w))|].
    split; [reflexivity|now intros _].
  - right.
    destruct (choice_spec l w) as (x & i & Ex & _ & Hx); [now apply Hne|].
    apply lookup_In in Hx. rewrite (bind_Ok _ _ _ _ _ Ex).
    set (w1 := set_rng (advance (rng w)) w).
    destruct (listed_read w1 x Hwf Hshort (Hl _ Hx)) as (old & Hold).
    destruct (delete_file_existing x old w1 Hold) as (p & _ & Hp & Erun).
    rewrite (bind_Ok _ _ _ _ _ Erun).
    eexists _, _. split; [reflexivity|].
    cbn [fs set_files set_fs set_rng set_clock files dirs].
    assert (Hdom : dom (delete p (files (fs w))) ⊆ dom (files (fs w)))
      by (rewrite dom_delete_L; apply subseteq_difference_l; reflexivity).
    split; [now apply (on_disk_files (fs w))|].
    split; [now apply (short_listing_files (fs w))|].
    split; [reflexivity|now intros _].
Qed.

Lemma same_tree (t t' : FileSystem) :
  dirs t' = dirs t -> files t' = files t ->
  outer_dirs t' = outer_dirs t -> outer_files t' = outer_files t -> t' = t.
Proof. destruct t, t'. cbn. congruence. Qed.

(** Deleting takes at most one name off the list. *)
Lemma carry_out_delete_listing (l : list string) (w : World) :
  exists name : string,
    incl (existing_files_of (fs w))
         (name :: existing_files_of (fs (snd (carry_out Delete l w)))).
Proof.
  unfold carry_out, bind.
  pose proof (choice_fs l w) as Hc.
  destruct (Random.choice l w) as [[x|e] w1]; cbn [snd] in Hc |- *.
  2:{ exists EmptyString. rewrite Hc. apply incl_tl, incl_refl. }
  pose proof (delete_file_tree x w1) as (Hd & _ & Hcases).
  destruct (delete_file x w1) as [[y|e] w2]; cbn [fst snd] in *;
    unfold ret; cbv beta iota; cbn [snd].
  - destruct Hcases as [Hfs|(a & _ & _ & Hfs)].
    + exists EmptyString. rewrite Hfs, Hc. apply incl_tl, incl_refl.
    + rewrite <- Hc. rewrite Hfs. unfold Os.unlink.
      destruct (Os.strip (Os.cwd_path w1) a) as [p|].
      * eexists. apply (listed_after_delete _ _ p); [reflexivity|].
        cbn [files]. apply dom_delete_L.
      * exists EmptyString. apply incl_tl. apply listed_mono; reflexivity.
  - destruct Hcases as [Hfs|(a & _ & [=] & _)].
    exists EmptyString. rewrite Hfs, Hc. apply incl_tl, incl_refl.
Qed.

Lemma short_listing_b_sound (t : FileSystem) :
  short_listing_b t = true -> short_listing t.
Proof.
  unfold short_listing_b. rewrite forallb_forall. intros H p Hp.
  now apply Nat.ltb_lt, H.
Qed.

Lemma perform_random_operation_workable (w : World) :
  on_disk (fs w) -> short_listing (fs w) ->
  (exists (n : Z) (w' : World),
     1000 <= n <= 9999
     /\ ["file_" +:+ Text.str_int n +:+ ".txt"] ∈ dirs (fs w)
     /\ perform_random_operation w
        = (Raise (IsADirectoryError ("file_" +:+ Text.str_int n +:+ ".txt")), w')
     /\ fs w' = fs w)
  \/ (exists (k : Kind) (filename : string) (w' : World),
        perform_random_operation w = (Ok (filename, kind_name k), w')
        /\ on_disk (fs w') /\ short_listing (fs w')
        /\ dirs (fs w') = dirs (fs w)
        /\ (k <> Create -> In filename (existing_files_of (fs w)))).
Proof.
  intros Hwf Hshort. rewrite perform_random_operation_policy.
  destruct (existing_files_of (fs w)) as [|f0 rest] eqn:E.
  - destruct (carry_out_workable Create [] w Hwf Hshort)
      as [(n & w' & Hn & _ & Hdir & Hrun & Hfs)|(f & w' & Hrun & H1 & H2 & H3 & _)];
      [intros p []|congruence| |].
    + left. exists n, w'. auto.
    + right. exists Create, f, w'. repeat (split; [assumption|]). congruence.
  - rewrite (bind_Ok _ _ _ _ _ (random_run w)).
    set (r := (_ # _)%Q). set (w1 := set_rng _ w).
    destruct (carry_out_workable (chooseOperation (f0 :: rest) r) (f0 :: rest) w1)
      as [(n & w' & Hn & _ & Hdir & Hrun & Hfs)|(f & w' & Hrun & H1 & H2 & H3 & H4)].
    + exact Hwf.
    + exact Hshort.
    + intros p Hp. cbn [fs w1 set_rng]. now rewrite E.
    + discriminate.
    + left. exists n, w'. auto.
    + right. exists (chooseOperation (f0 :: rest) r), f, w'. auto.
Qed.

Lemma perform_random_operation_stays_workable (w : World) :
  workable (fs w) ->
  exists (r : string * string) (w' : World),
    perform_random_operation w = (Ok r, w') /\ workable (fs w').
Proof.
  intros (Hwf & Hshort & Hfree).
  destruct (perform_random_operation_workable w Hwf Hshort)
    as [(n & w' & Hn & Hdir & _)|(k & f & w' & Hrun & H1 & H2 & H3 & _)].
  - now destruct (Hfree n Hn).
  - exists (f, kind_name k), w'. split; [exact Hrun|].
    split; [exact H1|]. split; [exact H2|].
    intros n Hn. rewrite H3. now apply Hfree.
Qed.

(** ** [perform_random_operation] on a tree as it is on disk *)

(** X6: on a tree as it is on disk whose listed names the OS takes,
    [perform_random_operation] fails in one way only: [create_file] drew
    the name of a directory.  Then it raises [IsADirectoryError] with that
    name and leaves the tree as it was.  Otherwise it returns a file name
    with one of the labels create, modify, delete; for modify and delete
    the name is one of the list of existing files; the tree it leaves is
    again as on disk, with short listed names and the same directories.  So
    where no directory bears a name [create_file] can draw, it never
    raises, and the tree it leaves is again such a tree: the property holds
    for every later call too. *)
Theorem X6_perform_random_operation_outcomes (w : World) :
  on_disk (fs w) -> short_listing (fs w) ->
  ((exists (n : Z) (w' : World),
      1000 <= n <= 9999
      /\ ["file_" +:+ Text.str_int n +:+ ".txt"] ∈ dirs (fs w)
      /\ perform_random_operation w
         = (Raise (IsADirectoryError ("file_" +:+ Text.str_int n +:+ ".txt")), w')
      /\ fs w' = fs w)
   \/ (exists (filename operation : string) (w' : World),
         perform_random_operation w = (Ok (filename, operation), w')
         /\ (operation = "create" \/ operation = "modify" \/ operation = "delete")
         /\ (operation <> "create" -> In filename (existing_files_of (fs w)))
         /\ on_disk (fs w') /\ short_listing (fs w')
         /\ dirs (fs w') = dirs (fs w)))
  /\ (no_directory_in_the_way (fs w) ->
      exists (filename operation : string) (w' : World),
        perform_random_operation w = (Ok (filename, operation), w')
        /\ workable (fs w')).
Proof.
  intros Hwf Hshort. split.
  - destruct (perform_random_operation_workable w Hwf Hshort)
      as [Hraise|(k & f & w' & Hrun & H1 & H2 & H3 & H4)]; [now left|right].
    exists f, (kind_name k), w'. split; [exact Hrun|].
    split; [destruct k; simpl; tauto|].
    split; [|split; [exact H1|split; [exact H2|exact H3]]].
    intros Hk. apply H4. intros ->. now apply Hk.
  - intros Hfree.
    destruct (perform_random_operation_stays_workable w)
      as ([f op] & w' & Hrun & Hw); [exact (conj Hwf (conj Hshort Hfree))|].
    now exists f, op, w'.
Qed.

Lemma X6_perform_random_operation_outcomes_witness :
  on_disk (fs world_repo) /\ short_listing (fs world_repo)
  /\ no_directory_in_the_way (fs world_repo)
  /\ exists (filename operation : string) (w' : World),
       perform_random_operation world_repo = (Ok (filename, operation), w')
       /\ workable (fs w').
Proof.
  assert (Hwf : on_disk (fs world_repo)) by (apply on_disk_b_sound; vm_compute; reflexivity).
  assert (Hshort : short_listing (fs world_repo))
    by (apply short_listing_b_sound; vm_compute; reflexivity).
  assert (Hfree : no_directory_in_the_way (fs world_repo)).
  { intros n _ Hin. cbn [fs world_repo world_of tree_repo tree_of dirs] in Hin.
    rewrite !elem_of_union, !elem_of_singleton in Hin.
    destruct Hin as [[Hin|Hin]|Hin]; discriminate Hin. }
  split; [exact Hwf|]. split; [exact Hshort|]. split; [exact Hfree|].
  exact (proj2 (X6_perform_random_operation_outcomes world_repo Hwf Hshort) Hfree).
Defined.

(** ** File operations, one after the other *)

(** X8: [create_file] fails only when the name it drew is the name of a
    directory, and then leaves the tree as it was.  Otherwise creating a
    file and then deleting it under the returned name succeeds and leaves
    no file of that name; the tree is then the old one without that entry,
    hence the old one itself when the name was free.  Deleting a second
    time raises [FileNotFoundError]. *)
Theorem X8_create_then_delete (w : World) :
  exists n : Z,
    let filename := "file_" +:+ Text.str_int n +:+ ".txt" in
    1000 <= n <= 9999
    /\ if bool_decide ([filename] ∈ dirs (fs w))
       then exists w1 : World,
              create_file w = (Raise (IsADirectoryError filename), w1)
              /\ fs w1 = fs w
       else exists w1 w2 : World,
              create_file w = (Ok filename, w1)
              /\ delete_file filename w1 = (Ok filename, w2)
              /\ Os.read w2 filename = None
              /\ files (fs w2) = delete [filename] (files (fs w))
              /\ (Os.read w filename = None -> fs w2 = fs w)
              /\ delete_file filename w2 = (Raise (FileNotFoundError filename), w2).
Proof.
  pose proof (Z.mod_pos_bound (peek (rng w)) 9000 eq_refl) as Hn.
  exists (1000 + peek (rng w) mod 9000). cbv zeta. split; [lia|].
  pose proof (create_file_run w) as Ecreate. cbv zeta in Ecreate.
  set (filename := "file_" +:+ Text.str_int (1000 + peek (rng w) mod 9000) +:+ ".txt") in *.
  assert (Hsane : entry_name filename = true) by (apply entry_created_name; lia).
  case_bool_decide as Hdir.
  { eexists. split; [exact Ecreate|reflexivity]. }
  match type of Ecreate with _ = (_, ?x) => set (w1 := x) in * end.
  assert (Hdir1 : [filename] ∉ dirs (fs w1)) by exact Hdir.
  assert (Hread : exists content, Os.read w1 filename = Some content).
  { rewrite (read_plain _ _ Hsane), bool_decide_false by exact Hdir1.
    subst w1. cbn [fs files set_files set_fs set_rng set_clock].
    rewrite lookup_insert_eq. eauto. }
  destruct Hread as (content & Hread).
  destruct (delete_file_existing filename content w1 Hread) as (p & Hp & _ & Edelete).
  assert (p = [filename]) as ->.
  { unfold Os.target in Hp. rewrite (lookup_plain _ _ Hsane), strip_app in Hp.
    congruence. }
  match type of Edelete with _ = (_, ?x) => set (w2 := x) in * end.
  assert (Hfiles : files (fs w2) = delete [filename] (files (fs w))).
  { subst w2 w1. cbn [fs files set_files set_fs set_rng set_clock].
    apply delete_insert_eq. }
  assert (Hdir2 : [filename] ∉ dirs (fs w2)) by exact Hdir.
  assert (Hgone : Os.read w2 filename = None).
  { rewrite (read_plain _ _ Hsane), bool_decide_false by exact Hdir2.
    rewrite Hfiles. apply lookup_delete_eq. }
  exists w1, w2.
  split; [exact Ecreate|]. split; [exact Edelete|]. split; [exact Hgone|].
  split; [exact Hfiles|]. split.
  - intros Hfree.
    rewrite (read_plain _ _ Hsane), bool_decide_false in Hfree by exact Hdir.
    rewrite (delete_id _ _ Hfree) in Hfiles.
    apply same_tree; [reflexivity|exact Hfiles|reflexivity|reflexivity].
  - apply (delete_file_raises _ _ w2).
    apply (remove_missing _ (Os.cwd_path w2 ++ [filename]) false).
    + now apply lookup_plain.
    + apply too_long_snoc. now apply entry_name_spec in Hsane.
    + unfold Os.kind_at. rewrite kind_of_inside. apply kind_in_tree_Missing.
      split; [discriminate|]. split; [exact Hdir2|].
      rewrite Hfiles, dom_delete_L. apply not_elem_of_difference. right.
      now apply elem_of_singleton.
Qed.

Lemma ends_with_newline_app_NL (s : string) :
  Text.ends_with_newline (s +:+ Text.NL) = true.
Proof.
  induction s as [|c s IH]; [reflexivity|].
  change (String c s +:+ Text.NL) with (String c (s +:+ Text.NL)).
  cbn [Text.ends_with_newline]. destruct (s +:+ Text.NL) eqn:E; [|exact IH].
  destruct s; discriminate.
Qed.

(** X9: what [modify_file] leaves always ends with a line feed.  So from
    the second modification on, each call of [modify_file] on the same file
    adds exactly three lines: an empty one, the timestamp and the data. *)
Theorem X9_modify_again_adds_three_lines (w : World) (f old : string) :
  Os.read w f = Some old ->
  exists (w1 w2 : World) (new1 new2 : string),
    modify_file f w = (Ok f, w1)
    /\ Os.read w1 f = Some new1
    /\ Text.ends_with_newline new1 = true
    /\ modify_file f w1 = (Ok f, w2)
    /\ Os.read w2 f = Some new2
    /\ Text.line_count new2 = (Text.line_count new1 + 3)%nat.
Proof.
  intros E.
  destruct (modify_file_existing f old w E) as (p & _ & _ & E1 & Hread1).
  cbv zeta in E1, Hread1.
  match type of Hread1 with _ = Some ?c => set (new1 := c) in * end.
  match type of E1 with _ = (_, ?x) => set (w1 := x) in * end.
  assert (Hend : Text.ends_with_newline new1 = true).
  { subst new1. rewrite <- !app_assoc_s. apply ends_with_newline_app_NL. }
  destruct (modify_file_existing f new1 w1 Hread1) as (p' & _ & _ & E2 & Hread2).
  cbv zeta in E2, Hread2.
  match type of E2 with _ = (_, ?x) => set (w2 := x) in * end.
  exists w1, w2, new1. eexists.
  split; [exact E1|]. split; [exact Hread1|]. split; [exact Hend|].
  split; [exact E2|]. split; [exact Hread2|].
  match goal with
  | |- Text.line_count ?x = _ =>
      replace x
        with (new1
                +:+ (Text.NL +:+ ("Modified at " +:+ Datetime.str (peek (clock w1)))
                       +:+ Text.NL)
                +:+ (("Additional data: "
                        +:+ Text.str_int (1 + peek (rng w1) mod 1000000)) +:+ Text.NL))
        by (rewrite !app_assoc_s; reflexivity)
  end.
  rewrite line_count_append_block.
  - rewrite Hend, orb_true_r. reflexivity.
  - rewrite no_char_app, datetime_str_no_newline. reflexivity.
  - rewrite no_char_app, str_int_no_newline. reflexivity.
Qed.

Lemma X9_modify_again_adds_three_lines_witness :
  Os.read (world_of tree_notes [41; 42] [an_instant; an_instant] []) "notes.txt"
  = Some ("first line" +:+ Text.NL)
  /\ exists (w1 w2 : World) (new1 new2 : string),
       modify_file "notes.txt" (world_of tree_notes [41; 42] [an_instant; an_instant] [])
       = (Ok "notes.txt", w1)
       /\ modify_file "notes.txt" w1 = (Ok "notes.txt", w2)
       /\ Os.read w1 "notes.txt" = Some new1
       /\ Os.read w2 "notes.txt" = Some new2
       /\ Text.line_count new2 = (Text.line_count new1 + 3)%nat.
Proof.
  assert (Hread : Os.read (world_of tree_notes [41; 42] [an_instant; an_instant] [])
                          "notes.txt"
                  = Some ("first line" +:+ Text.NL)) by (vm_compute; reflexivity).
  split; [exact Hread|].
  destruct (X9_modify_again_adds_three_lines
              (world_of tree_notes [41; 42] [an_instant; an_instant] [])
              "notes.txt" ("first line" +:+ Text.NL) Hread)
    as (w1 & w2 & new1 & new2 & E1 & R1 & _ & E2 & R2 & Hcount).
  exists w1, w2, new1, new2. auto.
Defined.

(** ** The floor of five files *)

(** X13: on a well-formed tree, one call of [perform_random_operation]
    takes at most one name off the list of existing files, and none while
    at most 5 are listed.  So once 5 files are listed, the list never gets
    shorter than 5. *)
Theorem X13_five_files_floor (w : World) :
  wf_tree (fs w) ->
  let before := length (existing_files_of (fs w)) in
  let after := length (existing_files_of (fs (snd (perform_random_operation w)))) in
  (before <= S after)%nat
  /\ ((before <= 5)%nat -> (before <= after)%nat)
  /\ ((5 <= before)%nat -> (5 <= after)%nat).
Proof.
  intros Hwf before after.
  assert (Hnd : List.NoDup (existing_files_of (fs w)))
    by (now apply NoDup_ListNoDup, listed_NoDup).
  assert (Hgrow : forall k l w0,
             fs w0 = fs w -> k <> Delete ->
             (before <= length (existing_files_of (fs (snd (carry_out k l w0)))))%nat).
  { intros k l w0 Hfs Hk.
    pose proof (carry_out_keeps k l w0 Hk) as Hdom.
    pose proof (carry_out_dirs k l w0) as Hdirs.
    rewrite Hfs in Hdirs, Hdom.
    apply List.NoDup_incl_length; [exact Hnd|]. now apply listed_mono. }
  assert (Hcases : (before <= after)%nat \/ ((5 < before)%nat /\ (before <= S after)%nat)).
  { subst after. rewrite perform_random_operation_policy.
    destruct (existing_files_of (fs w)) as [|f0 rest] eqn:E.
    - left. apply Hgrow; [reflexivity|discriminate].
    - rewrite (bind_Ok _ _ _ _ _ (random_run w)).
      set (r := (_ # _)%Q). set (w1 := set_rng _ w).
      destruct (chooseOperation (f0 :: rest) r) eqn:Ek.
      + left. apply Hgrow; [reflexivity|discriminate].
      + left. apply Hgrow; [reflexivity|discriminate].
      + right. apply chooseOperation_Delete in Ek.
        split; [subst before; rewrite ?E; exact Ek|].
        destruct (carry_out_delete_listing (f0 :: rest) w1) as (name & Hincl).
        change (fs w1) with (fs w) in Hincl. rewrite E in Hincl.
        pose proof (List.NoDup_incl_length Hnd Hincl) as Hlen.
        subst before. rewrite ?E in *. exact Hlen. }
  lia.
Qed.

Lemma X13_five_files_floor_witness :
  wf_tree (fs world_six)
  /\ length (existing_files_of (fs world_six)) = 6%nat
  /\ fst (perform_random_operation world_six) = Ok ("./c.txt", "delete")
  /\ (5 <= length (existing_files_of (fs (snd (perform_random_operation world_six)))))%nat.
Proof.
  assert (Hwf : wf_tree (fs world_six)) by (apply wf_tree_b_sound; vm_compute; reflexivity).
  assert (Hsix : length (existing_files_of (fs world_six)) = 6%nat)
    by (vm_compute; reflexivity).
  split; [exact Hwf|]. split; [exact Hsix|]. split; [vm_compute; reflexivity|].
  destruct (X13_five_files_floor world_six Hwf) as (_ & _ & Hfloor).
  apply Hfloor. rewrite Hsix. lia.
Defined.

(** ** What the file operations leave alone *)

(** X14: [modify_file] and [delete_file], whether they succeed or raise,
    change no file other than the one their name leads to, and
    [create_file] changes no file other than the one it returns; none of
    them changes the directories, prints, starts a process or touches the
    environment. *)
Theorem X14_file_operations_touch_one_file (w : World) (f : string) (q : path) :
  Os.target w f <> Some q ->
  (files (fs (snd (modify_file f w))) !! q = files (fs w) !! q
   /\ dirs (fs (snd (modify_file f w))) = dirs (fs w)
   /\ quiet_step w (snd (modify_file f w)))
  /\ (files (fs (snd (delete_file f w))) !! q = files (fs w) !! q
      /\ dirs (fs (snd (delete_file f w))) = dirs (fs w)
      /\ quiet_step w (snd (delete_file f w)))
  /\ (forall (name : string) (w' : World),
        create_file w = (Ok name, w') -> q <> [name] ->
        files (fs w') !! q = files (fs w) !! q
        /\ dirs (fs w') = dirs (fs w)
        /\ quiet_step w w').
Proof.
  intros Hq. split; [|split].
  - destruct (modify_file_tree f w) as (Hd & _ & Hf).
    split; [now apply Hf|]. split; [exact Hd|apply modify_file_quiet].
  - destruct (delete_file_tree f w) as (Hd & Hf & _).
    split; [now apply Hf|]. split; [exact Hd|apply delete_file_quiet].
  - intros name w' Ecreate Hname.
    pose proof (create_file_quiet w) as Hquiet.
    rewrite create_file_run in Ecreate. rewrite create_file_run in Hquiet.
    case_bool_decide; [discriminate|].
    injection Ecreate as <- <-. cbn [snd] in Hquiet.
    cbn [fs files dirs set_files set_fs set_rng set_clock].
    split; [now rewrite lookup_insert_ne by congruence|].
    split; [reflexivity|exact Hquiet].
Qed.

Lemma X14_file_operations_touch_one_file_witness :
  Os.target world_five "./a.txt" <> Some ["b.txt"]
  /\ files (fs (snd (modify_file "./a.txt" world_five))) !! ["b.txt"]
     = Some ("b" +:+ Text.NL)
  /\ files (fs (snd (delete_file "./a.txt" world_five))) !! ["b.txt"]
     = Some ("b" +:+ Text.NL).
Proof.
  assert (Hq : Os.target world_five "./a.txt" <> Some ["b.txt"])
    by (vm_compute; congruence).
  destruct (X14_file_operations_touch_one_file world_five "./a.txt" ["b.txt"] Hq)
    as ((Hm & _) & (Hd & _) & _).
  split; [exact Hq|].
  split; [etransitivity; [exact Hm|reflexivity] | etransitivity; [exact Hd|reflexivity]].
Defined.

(** ** The first operation *)

Lemma NoDup_singleton_of {A} (l : list A) (x : A) :
  NoDup l -> (forall p, In p l <-> p = x) -> l = [x].
Proof.
  intros Hnd Hin. destruct l as [|a l].
  - exfalso. now apply (proj2 (Hin x)).
  - assert (a = x) as -> by (apply Hin; now left).
    destruct l as [|b l]; [reflexivity|].
    assert (b = x) as -> by (apply Hin; right; now left).
    inversion Hnd as [|? ? Hx _]; subst. exfalso. apply Hx. now left.
Qed.

(** X15: when no file is listed, [perform_random_operation] creates one
    without drawing for the choice: it draws exactly the two numbers of
    [create_file], for a name [file_<n>.txt].  If a directory bears that
    name, it raises [IsADirectoryError] and the tree stays as it was.
    Otherwise it returns the label create with that name and, on a
    well-formed tree, that file is then the one listed file. *)
Theorem X15_first_operation_creates (w : World) :
  existing_files_of (fs w) = [] -> wf_tree (fs w) ->
  exists (n : Z) (w' : World),
    let filename := "file_" +:+ Text.str_int n +:+ ".txt" in
    1000 <= n <= 9999
    /\ rng w' = advance (advance (rng w))
    /\ if bool_decide ([filename] ∈ dirs (fs w))
       then perform_random_operation w = (Raise (IsADirectoryError filename), w')
            /\ fs w' = fs w
       else perform_random_operation w = (Ok (filename, "create"), w')
            /\ existing_files_of (fs w') = ["./" +:+ filename].
Proof.
  intros Hnone Hwf.
  destruct (create_file_tree w) as (n & Hn & _ & Hclash & Hfree). cbv zeta in *.
  exists n.
  set (filename := "file_" +:+ Text.str_int n +:+ ".txt") in *.
  rewrite perform_random_operation_policy, Hnone. unfold carry_out.
  case_bool_decide as Hdir.
  { destruct (Hclash Hdir) as (w' & Erun & Hfs & Hrng).
    exists w'. rewrite (bind_Raise _ _ _ _ _ Erun). auto. }
  destruct (Hfree Hdir) as (w' & Erun & Hdirs & _ & Hdom & Hrng).
  exists w'. rewrite (bind_Ok _ _ _ _ _ Erun).
  split; [exact Hn|]. split; [exact Hrng|]. split; [reflexivity|].
  assert (Hsane : sane_name filename = true)
    by (now apply entry_sane, entry_created_name).
  assert (Hwf' : wf_tree (fs w')).
  { apply (wf_tree_new_file (fs w) _ filename); auto. now rewrite Hdom. }
  apply NoDup_singleton_of; [now apply listed_NoDup|].
  intros p. rewrite listed_iff. split.
  - intros (d & name & Hd & Hfile & Hgit & ->).
    rewrite Hdom in Hfile. apply elem_of_union in Hfile as [Hfile|Hfile].
    + apply elem_of_singleton in Hfile.
      destruct d as [|c d]; [|destruct d; discriminate].
      injection Hfile as ->. reflexivity.
    + exfalso. assert (Hin : In (Os.path_join (Os.root_name d) name)
                                (existing_files_of (fs w))).
      { apply listed_iff. exists d, name. rewrite <- Hdirs. auto. }
      rewrite Hnone in Hin. destruct Hin.
  - intros ->. exists [], filename. split; [now left|].
    split; [|split; reflexivity].
    rewrite Hdom. apply elem_of_union. left. now apply elem_of_singleton.
Qed.

Lemma X15_first_operation_creates_witness :
  existing_files_of (fs (world_of tree_empty [5; 7] [an_instant] [])) = []
  /\ wf_tree (fs (world_of tree_empty [5; 7] [an_instant] []))
  /\ exists (n : Z) (w' : World),
       1000 <= n <= 9999
       /\ rng w' = advance (advance (rng (world_of tree_empty [5; 7] [an_instant] [])))
       /\ if bool_decide (["file_" +:+ Text.str_int n +:+ ".txt"]
                            ∈ dirs (fs (world_of tree_empty [5; 7] [an_instant] [])))
          then perform_random_operation (world_of tree_empty [5; 7] [an_instant] [])
               = (Raise (IsADirectoryError ("file_" +:+ Text.str_int n +:+ ".txt")), w')
               /\ fs w' = fs (world_of tree_empty [5; 7] [an_instant] [])
          else perform_random_operation (world_of tree_empty [5; 7] [an_instant] [])
               = (Ok ("file_" +:+ Text.str_int n +:+ ".txt", "create"), w')
               /\ existing_files_of (fs w')
                  = ["./" +:+ "file_" +:+ Text.str_int n +:+ ".txt"].
Proof.
  assert (Hnone : existing_files_of (fs (world_of tree_empty [5; 7] [an_instant] [])) = [])
    by reflexivity.
  assert (Hwf : wf_tree (fs (world_of tree_empty [5; 7] [an_instant] [])))
    by (apply wf_tree_b_sound; vm_compute; reflexivity).
  split; [exact Hnone|]. split; [exact Hwf|].
  exact (X15_first_operation_creates _ Hnone Hwf).
Defined.

(** ** [create_commit]: failure and what it leaves behind *)



(** ** [main]: what it prints and what it commits *)

Lemma commit_started_file_operation (e : exn) :
  from_file_operation e = true -> commit_started (Raise e) = false.
Proof. destruct e; try discriminate; reflexivity. Qed.

Lemma commit_date_of_staging (op f : string) (environment : gmap string string) :
  commit_date_of (staging_process op f environment) = None.
Proof.
  unfold commit_date_of, staging_process. cbn [argv take].
  rewrite bool_decide_false; [reflexivity|].
  destruct (String.eqb op "delete"); discriminate.
Qed.

Lemma commit_date_of_commit (msg date_str : string) (environment : gmap string string) :
  commit_date_of (commit_process msg date_str environment) = Some date_str.
Proof.
  unfold commit_date_of, commit_process. cbn [argv env take].
  rewrite bool_decide_true by reflexivity.
  rewrite lookup_insert_ne by discriminate. apply lookup_insert_eq.
Qed.

(** What [create_commit] leaves untouched, and the processes it adds. *)
Lemma create_commit_frame (d : Datetime.datetime) (w : World) :
  let w' := snd (create_commit d w) in
  stdout w' = stdout w /\ getcwd w' = getcwd w /\ environ w' = environ w
  /\ src (git w') = src (git w) /\ git_leaves w' = git_leaves w
  /\ exists ps : list Process,
       spawned w' = spawned w ++ ps
       /\ (length ps <= 2)%nat
       /\ committed_dates ps
          = if commit_started (fst (create_commit d w))
            then [Datetime.strftime_ymd_hms d] else [].
Proof.
  cbv zeta.
  pose proof (perform_random_operation_quiet w) as Hq.
  destruct (perform_random_operation w) as [[[f op]|e] w1] eqn:Eop; cbn [snd] in Hq;
    destruct Hq as (Hsp & Henv & Hgit & Hout & Hcwd & Hleaves).
  2:{ rewrite (create_commit_propagates _ _ _ _ Eop). cbn [fst snd].
      rewrite (commit_started_file_operation e)
        by (eapply perform_random_operation_raises_os; exact Eop).
      repeat split; try congruence.
      exists []. rewrite app_nil_r. repeat split; [exact Hsp|simpl; lia]. }
  destruct (create_commit_run d _ _ _ _ Eop) as (msg & r & _ & E).
  cbv zeta in E. rewrite E. clear E.
  pose proof (commit_date_of_staging op f (environ w)) as Hstage.
  pose proof (commit_date_of_commit msg (Datetime.strftime_ymd_hms d) (environ w))
    as Hcommit.
  destruct (peek (git w) =? 0).
  - destruct (peek (advance (git w)) =? 0);
      cbn [fst snd stdout getcwd environ git git_leaves spawned set_fs set_spawned
             set_git set_rng src advance commit_started];
      (split; [exact Hout|]); (split; [exact Hcwd|]); (split; [exact Henv|]);
      (split; [reflexivity|]); (split; [exact Hleaves|]);
      (eexists; split; [reflexivity|]; split; [simpl; lia|]);
      unfold committed_dates; cbn [omap list_omap]; rewrite Hstage, Hcommit.
    + reflexivity.
    + cbn [commit_process argv take]. now rewrite bool_decide_true by reflexivity.
  - cbn [fst snd stdout getcwd environ git git_leaves spawned set_fs set_spawned
           set_git set_rng src advance commit_started].
    split; [exact Hout|]. split; [exact Hcwd|]. split; [exact Henv|].
    split; [reflexivity|]. split; [exact Hleaves|].
    eexists. split; [reflexivity|]. split; [simpl; lia|].
    unfold committed_dates. cbn [omap list_omap]. rewrite Hstage.
    cbn [staging_process argv take]. rewrite bool_decide_false; [reflexivity|].
    destruct (String.eqb op "delete"); discriminate.
Qed.

Lemma starts_with_self_app (p s : string) : Text.starts_with p (p +:+ s) = true.
Proof.
  induction p as [|c p IH]; [reflexivity|]. simpl. now rewrite Ascii.eqb_refl.
Qed.

Lemma committed_dates_app (ps qs : list Process) :
  committed_dates (ps ++ qs) = committed_dates ps ++ committed_dates qs.
Proof. apply omap_app. Qed.

Lemma reported_cons (x : Z * Datetime.datetime * Outcome)
      (log : list (Z * Datetime.datetime * Outcome)) :
  reported (x :: log) = reported [x] ++ reported log.
Proof. change (x :: log) with ([x] ++ log). apply omap_app. Qed.

Lemma committed_cons (x : Z * Datetime.datetime * Outcome)
      (log : list (Z * Datetime.datetime * Outcome)) :
  committed (x :: log) = committed [x] ++ committed log.
Proof. change (x :: log) with ([x] ++ log). apply omap_app. Qed.

(** One turn of the loop: what it leaves untouched, the processes it adds,
    and the line it prints when the index is no multiple of 50. *)
Lemma iteration_frame (n : nat) (i : Z) (date : Datetime.datetime) (w : World) :
  let w' := snd (iteration n i date w) in
  let turn := [(i, date, fst (create_commit date w))] in
  getcwd w' = getcwd w /\ environ w' = environ w /\ src (git w') = src (git w)
  /\ git_leaves w' = git_leaves w
  /\ (exists ps : list Process,
        spawned w' = spawned w ++ ps
        /\ (length ps <= 2)%nat
        /\ committed_dates ps = List.map Datetime.strftime_ymd_hms (committed turn))
  /\ (i mod 50 <> 0 -> stdout w' = stdout w ++ reported turn).
Proof.
  cbv zeta. rewrite iteration_run.
  pose proof (create_commit_frame date w) as Hf. cbv zeta in Hf.
  destruct Hf as (Hout & Hcwd & Henv & Hgit & Hleaves & ps & Hsp & Hlen & Hdates).
  assert (Hps : committed_dates ps
                = List.map Datetime.strftime_ymd_hms
                    (committed [(i, date, fst (create_commit date w))])).
  { rewrite Hdates. unfold committed. cbn [omap list_omap].
    now destruct (commit_started (fst (create_commit date w))). }
  clear Hdates.
  destruct (create_commit date w) as [[r|e] w1]; cbn [fst snd] in *.
  - destruct (Z.eqb_spec (i mod 50) 0) as [Hi|Hi];
      cbn [snd print stdout getcwd environ git git_leaves spawned set_stdout].
    + repeat (split; [assumption|]). split; [eauto|]. intros Hne. now destruct Hne.
    + repeat (split; [assumption|]). split; [eauto|]. intros _.
      unfold reported. cbn [omap list_omap]. now rewrite app_nil_r.
  - cbn [snd print stdout getcwd environ git git_leaves spawned set_stdout].
    repeat (split; [assumption|]). split; [eauto|]. intros _.
    now rewrite Hout.
Qed.

Lemma In_enumerate {A} (l : list A) (start i : Z) (x : A) :
  In (i, x) (enumerate l start) -> start <= i < start + Z.of_nat (length l).
Proof.
  revert start. induction l as [|y l IH]; intros start; [intros []|].
  cbn [enumerate length]. intros [[= <- _]|Hin]; [lia|].
  apply IH in Hin. lia.
Qed.

Lemma map_snd_enumerate {A} (l : list A) (start : Z) :
  List.map snd (enumerate l start) = l.
Proof.
  revert start. induction l as [|y l IH]; intros start; [reflexivity|].
  cbn [enumerate List.map snd]. now rewrite IH.
Qed.

(** The log has one entry per turn, with the index and the date of the
    turn. *)
Lemma outcomes_keys (n : nat) (l : list (Z * Datetime.datetime)) (w : World) :
  List.map fst (outcomes n l w) = l.
Proof.
  revert w. induction l as [|[i d] l IH]; intros w; [reflexivity|].
  cbn [outcomes List.map fst]. now rewrite IH.
Qed.

Lemma committed_sublist (log : list (Z * Datetime.datetime * Outcome)) :
  sublist (committed log) (List.map snd (List.map fst log)).
Proof.
  induction log as [|[[i d] r] log IH]; [constructor|].
  rewrite committed_cons. unfold committed at 1. cbn [omap list_omap List.map fst snd].
  destruct (commit_started r).
  - now apply sublist_skip.
  - now apply sublist_cons.
Qed.

Lemma reported_error_lines (log : list (Z * Datetime.datetime * Outcome)) :
  Forall (fun s => is_error_line s = true) (reported log)
  /\ (length (reported log) <= length log)%nat.
Proof.
  induction log as [|[[i d] r] log [IH1 IH2]]; [split; [constructor|reflexivity]|].
  rewrite reported_cons. unfold reported at 1 3. cbn [omap list_omap].
  destruct r as [x|e]; cbn [app length]; [split; [exact IH1|lia]|].
  split; [|lia]. constructor; [apply starts_with_self_app|exact IH1].
Qed.

(** The whole loop. *)
Lemma run_iterations_frame (n : nat) (l : list (Z * Datetime.datetime)) (w : World) :
  let w' := run_iterations n l w in
  getcwd w' = getcwd w /\ environ w' = environ w /\ src (git w') = src (git w)
  /\ git_leaves w' = git_leaves w
  /\ (exists ps : list Process,
        spawned w' = spawned w ++ ps
        /\ (length ps <= 2 * length l)%nat
        /\ committed_dates ps
           = List.map Datetime.strftime_ymd_hms (committed (outcomes n l w)))
  /\ ((forall i d, In (i, d) l -> i mod 50 <> 0) ->
      stdout w' = stdout w ++ reported (outcomes n l w)).
Proof.
  cbv zeta. revert w. induction l as [|[i d] l IH]; intros w.
  - cbn [run_iterations fold_left outcomes]. repeat split.
    + exists []. rewrite app_nil_r. repeat split. simpl; lia.
    + intros _. unfold reported. cbn [omap list_omap]. now rewrite app_nil_r.
  - change (run_iterations n ((i, d) :: l) w)
      with (run_iterations n l (snd (iteration n i d w))).
    cbn [outcomes].
    pose proof (iteration_frame n i d w) as H1. cbv zeta in H1.
    set (w1 := snd (iteration n i d w)) in *.
    destruct H1 as (Hcwd1 & Henv1 & Hgit1 & Hleaves1 & (ps1 & Hsp1 & Hlen1 & Hdates1) & Hout1).
    destruct (IH w1) as (Hcwd & Henv & Hgit & Hleaves & (ps & Hsp & Hlen & Hdates) & Hout).
    split; [congruence|]. split; [congruence|]. split; [congruence|].
    split; [congruence|]. split.
    + exists (ps1 ++ ps).
      split; [rewrite Hsp, Hsp1; now rewrite app_assoc|].
      split; [rewrite length_app; cbn [length]; lia|].
      rewrite committed_dates_app, committed_cons, List.map_app.
      now rewrite Hdates, Hdates1.
    + intros Hmod.
      rewrite reported_cons.
      rewrite Hout by (intros j x Hin; apply (Hmod j x); now right).
      rewrite (Hout1 (Hmod i d (or_introl eq_refl))).
      now rewrite app_assoc.
Qed.

Lemma sublist_Forall_keep {A} (P : A -> Prop) (l1 l2 : list A) :
  sublist l1 l2 -> Forall P l2 -> Forall P l1.
Proof.
  induction 1 as [|x l1 l2 _ IH|x l1 l2 _ IH]; intros HF.
  - constructor.
  - inversion HF; subst. constructor; auto.
  - inversion HF; subst. auto.
Qed.

Lemma sublist_StronglySorted {A} (R : A -> A -> Prop) (l1 l2 : list A) :
  sublist l1 l2 -> StronglySorted R l2 -> StronglySorted R l1.
Proof.
  induction 1 as [|x l1 l2 Hsub IH|x l1 l2 Hsub IH]; intros HS.
  - constructor.
  - inversion HS; subst. constructor; [auto|].
    eapply sublist_Forall_keep; eassumption.
  - inversion HS; subst. auto.
Qed.

Lemma generate_random_date_quiet (w : World) :
  quiet_step w (snd (generate_random_date w)).
Proof. repeat split. Qed.

Lemma replicateM_generate_quiet (n : nat) (w : World) :
  quiet_step w (snd (replicateM n generate_random_date w)).
Proof.
  revert w. induction n as [|n IH]; intros w; [apply quiet_step_refl|].
  cbn [replicateM].
  destruct (generate_random_date_window w) as (t & w1 & Et & _).
  pose proof (generate_random_date_quiet w) as H1. rewrite Et in H1. cbn [snd] in H1.
  rewrite (bind_Ok _ _ _ _ _ Et).
  specialize (IH w1).
  destruct (replicateM n generate_random_date w1) as [[ts|e] w2] eqn:E2.
  - rewrite (bind_Ok _ _ _ _ _ E2). cbn [snd] in *.
    exact (quiet_step_trans _ _ _ H1 IH).
  - rewrite (bind_Raise _ _ _ _ _ E2). cbn [snd] in *.
    exact (quiet_step_trans _ _ _ H1 IH).
Qed.

Lemma replicateM_generate_fs (n : nat) (w : World) :
  fs (snd (replicateM n generate_random_date w)) = fs w.
Proof.
  revert w. induction n as [|n IH]; intros w; [reflexivity|].
  cbn [replicateM].
  destruct (generate_random_date_window w) as (t & w1 & Et & _).
  assert (H1 : fs w1 = fs w).
  { apply (f_equal snd) in Et. cbn [snd] in Et. now rewrite <- Et. }
  rewrite (bind_Ok _ _ _ _ _ Et).
  specialize (IH w1).
  destruct (replicateM n generate_random_date w1) as [[ts|e] w2] eqn:E2.
  - rewrite (bind_Ok _ _ _ _ _ E2). unfold ret. cbn [snd] in *. congruence.
  - rewrite (bind_Raise _ _ _ _ _ E2). cbn [snd] in *. congruence.
Qed.

(** [main], with the dates it generates and the world its loop starts
    from. *)
Lemma main_with_loop (num_commits : nat) (w : World) :
  exists (dates : list Datetime.datetime) (w1 : World),
    let w2 := at_loop_start num_commits w1 in
    let w3 := run_iterations num_commits (enumerate dates 1) w2 in
    generate_dates num_commits (after_banner w) = (Ok dates, w1)
    /\ length dates = num_commits
    /\ StronglySorted Z.le dates
    /\ fs w2 = fs w /\ git w2 = git w /\ git_leaves w2 = git_leaves w
    /\ spawned w2 = spawned w /\ getcwd w2 = getcwd w
    /\ stdout w2 = stdout w ++ opening_lines num_commits
    /\ main_with num_commits w
       = (Ok tt, set_stdout (stdout w3 ++ closing_lines num_commits (getcwd w3)) w3).
Proof.
  destruct (main_with_run num_commits w) as (dates & w1 & Edates & Hlen & Emain).
  cbv zeta in Edates, Emain.
  change (set_stdout (stdout w ++ ["Git Commit Generator"; Text.repeat_char "="%char 50]) w)
    with (after_banner w) in *.
  destruct (replicateM_generate_random_date num_commits (after_banner w))
    as (drawn & w1' & Edrawn & _).
  pose proof (replicateM_generate_quiet num_commits (after_banner w)) as Hq.
  rewrite Edrawn in Hq. cbn [snd] in Hq.
  pose proof (replicateM_generate_fs num_commits (after_banner w)) as Hfs.
  rewrite Edrawn in Hfs. cbn [snd] in Hfs.
  assert (Edates' : generate_dates num_commits (after_banner w) = (Ok (sort drawn), w1')).
  { unfold generate_dates. now rewrite (bind_Ok _ _ _ _ _ Edrawn). }
  pose proof Edates as Ekeep.
  rewrite Edates' in Edates. injection Edates as <- <-.
  destruct Hq as (Hsp & Henv & Hgit & Hout & Hcwd & Hleaves).
  exists (sort drawn), w1'. cbv zeta.
  split; [exact Ekeep|].
  split; [exact Hlen|].
  split; [apply StronglySorted_merge_sort; apply _|].
  split; [exact Hfs|]. split; [exact Hgit|]. split; [exact Hleaves|].
  split; [exact Hsp|]. split; [exact Hcwd|].
  split; [|exact Emain].
  unfold at_loop_start. cbn [stdout set_stdout]. rewrite Hout.
  unfold after_banner. cbn [stdout set_stdout].
  rewrite <- app_assoc. reflexivity.
Qed.

Lemma no_progress_line {A} (dates : list A) (i : Z) (d : A) :
  (length dates < 50)%nat -> In (i, d) (enumerate dates 1) -> i mod 50 <> 0.
Proof.
  intros Hn Hin. apply In_enumerate in Hin. intros Hmod.
  apply Z.mod_divide in Hmod; [|lia]. destruct Hmod as [q Hq]. lia.
Qed.

(** X10: with fewer than 50 commits configured (5 are), [main] returns
    normally and prints the three opening lines, then for every turn of
    the loop whose [create_commit] raised the line
    [Error creating commit <index>: <exception>], in the order of the
    turns, and nothing else for the loop (no progress line is ever
    printed), then the summary, the location of the working directory and
    the hint.  The turns are those of the enumerated timestamps
    [generate_dates] made, each started in the world the one before
    left. *)
Theorem X10_main_output (num_commits : nat) (w : World) :
  (num_commits < 50)%nat ->
  exists (dates : list Datetime.datetime) (w1 : World),
    let log := outcomes num_commits (enumerate dates 1) (at_loop_start num_commits w1) in
    generate_dates num_commits (after_banner w) = (Ok dates, w1)
    /\ length dates = num_commits
    /\ List.map fst log = enumerate dates 1
    /\ fst (main_with num_commits w) = Ok tt
    /\ stdout (snd (main_with num_commits w))
       = stdout w ++ opening_lines num_commits ++ reported log
           ++ closing_lines num_commits (getcwd w)
    /\ (length (reported log) <= num_commits)%nat
    /\ Forall (fun s => is_error_line s = true) (reported log).
Proof.
  intros Hn.
  destruct (main_with_loop num_commits w)
    as (dates & w1 & Edates & Hlen & _ & _ & _ & _ & _ & Hcwd2 & Hout2 & Emain).
  cbv zeta in Emain, Hcwd2, Hout2.
  pose proof (run_iterations_frame num_commits (enumerate dates 1)
                (at_loop_start num_commits w1)) as Hloop.
  cbv zeta in Hloop.
  destruct Hloop as (Hcwd & _ & _ & _ & _ & Hout).
  specialize (Hout ltac:(intros i d; apply no_progress_line; now rewrite Hlen)).
  exists dates, w1. cbv zeta. rewrite Emain. cbn [fst snd stdout set_stdout].
  split; [exact Edates|]. split; [exact Hlen|]. split; [apply outcomes_keys|].
  split; [reflexivity|]. split.
  - rewrite Hout, Hout2, Hcwd, Hcwd2. now rewrite <- !app_assoc.
  - destruct (reported_error_lines
                (outcomes num_commits (enumerate dates 1) (at_loop_start num_commits w1)))
      as [Hall Hcount].
    split; [|exact Hall].
    pose proof (f_equal (@length _)
                  (outcomes_keys num_commits (enumerate dates 1)
                     (at_loop_start num_commits w1))) as Hlog.
    rewrite length_map, enumerate_length in Hlog. lia.
Qed.

Lemma X10_main_output_witness :
  (NUM_COMMITS < 50)%nat
  /\ exists (dates : list Datetime.datetime) (w1 : World),
       generate_dates NUM_COMMITS (after_banner world_git_down) = (Ok dates, w1)
       /\ length dates = NUM_COMMITS
       /\ List.map fst (outcomes NUM_COMMITS (enumerate dates 1)
                          (at_loop_start NUM_COMMITS w1))
          = enumerate dates 1
       /\ fst (main_with NUM_COMMITS world_git_down) = Ok tt
       /\ stdout (snd (main_with NUM_COMMITS world_git_down))
          = stdout world_git_down ++ opening_lines NUM_COMMITS
              ++ reported (outcomes NUM_COMMITS (enumerate dates 1)
                             (at_loop_start NUM_COMMITS w1))
              ++ closing_lines NUM_COMMITS (getcwd world_git_down)
       /\ (length (reported (outcomes NUM_COMMITS (enumerate dates 1)
                              (at_loop_start NUM_COMMITS w1))) <= NUM_COMMITS)%nat
       /\ Forall (fun s => is_error_line s = true)
                 (reported (outcomes NUM_COMMITS (enumerate dates 1)
                              (at_loop_start NUM_COMMITS w1))).
Proof.
  assert (Hn : (NUM_COMMITS < 50)%nat) by (unfold NUM_COMMITS; lia).
  split; [exact Hn|].
  exact (X10_main_output NUM_COMMITS world_git_down Hn).
Defined.

(** X11: the commit commands [main] starts carry non-decreasing dates, in
    the order started: they are the timestamps [generate_dates] made,
    sorted, of exactly the turns that got as far as the commit command
    (those whose [create_commit] returned or failed with the exit status of
    that command).  [main] starts at most two processes per configured
    commit. *)
Theorem X11_commits_in_date_order (num_commits : nat) (w : World) :
  exists (dates : list Datetime.datetime) (w1 : World) (ps : list Process),
    let log := outcomes num_commits (enumerate dates 1) (at_loop_start num_commits w1) in
    generate_dates num_commits (after_banner w) = (Ok dates, w1)
    /\ length dates = num_commits
    /\ StronglySorted Z.le dates
    /\ List.map fst log = enumerate dates 1
    /\ spawned (snd (main_with num_commits w)) = spawned w ++ ps
    /\ (length ps <= 2 * num_commits)%nat
    /\ committed_dates ps = List.map Datetime.strftime_ymd_hms (committed log)
    /\ sublist (committed log) dates
    /\ StronglySorted Z.le (committed log).
Proof.
  destruct (main_with_loop num_commits w)
    as (dates & w1 & Edates & Hlen & Hsorted & _ & _ & _ & Hsp2 & _ & _ & Emain).
  cbv zeta in Emain, Hsp2.
  pose proof (run_iterations_frame num_commits (enumerate dates 1)
                (at_loop_start num_commits w1)) as Hloop.
  cbv zeta in Hloop.
  destruct Hloop as (_ & _ & _ & _ & (ps & Hsp & Hlen_ps & Hdates) & _).
  rewrite enumerate_length, Hlen in Hlen_ps.
  pose proof (committed_sublist
                (outcomes num_commits (enumerate dates 1) (at_loop_start num_commits w1)))
    as Hsub.
  rewrite outcomes_keys, map_snd_enumerate in Hsub.
  exists dates, w1, ps. cbv zeta. rewrite Emain. cbn [snd spawned set_stdout].
  split; [exact Edates|]. split; [exact Hlen|]. split; [exact Hsorted|].
  split; [apply outcomes_keys|].
  split; [now rewrite Hsp, Hsp2|]. split; [exact Hlen_ps|].
  split; [exact Hdates|]. split; [exact Hsub|].
  exact (sublist_StronglySorted _ _ _ Hsub Hsorted).
Qed.

(** *** When [git] never fails *)

Lemma create_commit_all_ok (d : Datetime.datetime) (w : World) :
  workable (fs w) -> git_always_succeeds w -> git_keeps_workable w ->
  exists (result : string * string * string) (w' : World) (stage commit : Process),
    create_commit d w = (Ok result, w')
    /\ workable (fs w') /\ git_always_succeeds w' /\ git_keeps_workable w'
    /\ stdout w' = stdout w /\ getcwd w' = getcwd w
    /\ spawned w' = spawned w ++ [stage; commit]
    /\ committed_dates [stage; commit] = [Datetime.strftime_ymd_hms d].
Proof.
  intros Hwf Hgit Hkeep.
  destruct (perform_random_operation_stays_workable w Hwf) as ([f op] & w1 & Eop & Hwf1).
  pose proof (perform_random_operation_quiet w) as Hq.
  rewrite Eop in Hq. cbn [snd] in Hq. destruct Hq as (_ & _ & _ & Hout & Hcwd & Hleaves).
  destruct (create_commit_run d _ _ _ _ Eop) as (msg & r & _ & E).
  cbv zeta in E.
  assert (H1 : (peek (git w) =? 0) = true) by (apply Z.eqb_eq, Hgit).
  assert (H2 : (peek (advance (git w)) =? 0) = true) by (apply Z.eqb_eq, Hgit).
  rewrite H1, H2 in E.
  eexists _, _, _, _. split; [exact E|].
  cbn [fs stdout getcwd git git_leaves spawned set_fs set_spawned set_git set_rng].
  split; [now apply Hkeep, Hkeep|]. split; [intros n; apply Hgit|].
  split.
  { intros k t Ht. cbn [git_leaves set_fs set_spawned set_git set_rng].
    rewrite Hleaves. now apply Hkeep. }
  split; [exact Hout|]. split; [exact Hcwd|]. split; [reflexivity|].
  unfold committed_dates. cbn [omap list_omap].
  now rewrite commit_date_of_staging, commit_date_of_commit.
Qed.

Lemma run_iterations_all_ok (n : nat) (l : list (Z * Datetime.datetime)) (w : World) :
  workable (fs w) -> git_always_succeeds w -> git_keeps_workable w ->
  (forall i d, In (i, d) l -> i mod 50 <> 0) ->
  let w' := run_iterations n l w in
  workable (fs w') /\ stdout w' = stdout w /\ getcwd w' = getcwd w
  /\ Forall (fun x => exists r, snd x = Ok r) (outcomes n l w)
  /\ exists ps : list Process,
       spawned w' = spawned w ++ ps
       /\ length ps = (2 * length l)%nat
       /\ committed_dates ps = List.map Datetime.strftime_ymd_hms (List.map snd l).
Proof.
  cbv zeta. revert w. induction l as [|[i d] l IH]; intros w Hwf Hgit Hkeep Hmod.
  - cbn [run_iterations fold_left outcomes].
    split; [exact Hwf|]. split; [reflexivity|]. split; [reflexivity|].
    split; [constructor|].
    exists []. split; [now rewrite app_nil_r|]. split; reflexivity.
  - change (run_iterations n ((i, d) :: l) w)
      with (run_iterations n l (snd (iteration n i d w))).
    cbn [outcomes].
    destruct (create_commit_all_ok d w Hwf Hgit Hkeep)
      as (res & w1 & stage & commit & E & Hwf1 & Hgit1 & Hkeep1 & Hout1 & Hcwd1 & Hsp1 & Hd1).
    assert (Eit : snd (iteration n i d w) = w1).
    { rewrite iteration_run, E.
      destruct (Z.eqb_spec (i mod 50) 0) as [Hi|Hi]; [|reflexivity].
      exfalso. apply (Hmod i d); [now left|exact Hi]. }
    rewrite Eit, E. cbn [fst].
    destruct (IH w1 Hwf1 Hgit1 Hkeep1) as (Hwf' & Hout & Hcwd & Hall & ps & Hsp & Hlen & Hdates).
    { intros j x Hin. apply (Hmod j x). now right. }
    split; [exact Hwf'|]. split; [congruence|]. split; [congruence|].
    split; [constructor; [now exists res|exact Hall]|].
    exists ([stage; commit] ++ ps).
    split; [rewrite Hsp, Hsp1; now rewrite <- app_assoc|].
    split; [rewrite length_app; cbn [length]; lia|].
    rewrite committed_dates_app, Hd1, Hdates. reflexivity.
Qed.

(** X12: started on a workable tree (one as on disk, whose listed names the
    OS takes and where no directory bears a name [create_file] can draw)
    with a [git] that always exits with 0 and leaves workable trees
    workable, and with fewer than 50 commits configured, [main] fails in no
    turn of its loop: every [create_commit] returns, [main] prints the
    opening and closing lines only, starts exactly two processes per
    configured commit, and commits every timestamp [generate_dates] made,
    in their non-decreasing order.  The tree it leaves is workable. *)
Theorem X12_main_commits_all_when_git_succeeds (num_commits : nat) (w : World) :
  (num_commits < 50)%nat -> workable (fs w) ->
  git_always_succeeds w -> git_keeps_workable w ->
  exists (dates : list Datetime.datetime) (w1 : World) (ps : list Process),
    let log := outcomes num_commits (enumerate dates 1) (at_loop_start num_commits w1) in
    generate_dates num_commits (after_banner w) = (Ok dates, w1)
    /\ length dates = num_commits
    /\ StronglySorted Z.le dates
    /\ List.map fst log = enumerate dates 1
    /\ Forall (fun x => exists r, snd x = Ok r) log
    /\ fst (main_with num_commits w) = Ok tt
    /\ stdout (snd (main_with num_commits w))
       = stdout w ++ opening_lines num_commits ++ closing_lines num_commits (getcwd w)
    /\ spawned (snd (main_with num_commits w)) = spawned w ++ ps
    /\ length ps = (2 * num_commits)%nat
    /\ committed_dates ps = List.map Datetime.strftime_ymd_hms dates
    /\ workable (fs (snd (main_with num_commits w))).
Proof.
  intros Hn Hwf Hgit Hkeep.
  destruct (main_with_loop num_commits w)
    as (dates & w1 & Edates & Hlen & Hsorted & Hfs2 & Hgit2 & Hleaves2 & Hsp2 & Hcwd2
        & Hout2 & Emain).
  cbv zeta in Emain, Hfs2, Hgit2, Hleaves2, Hsp2, Hcwd2, Hout2.
  destruct (run_iterations_all_ok num_commits (enumerate dates 1)
              (at_loop_start num_commits w1))
    as (Hwf' & Hout & Hcwd & Hall & ps & Hsp & Hlen_ps & Hdates).
  { now rewrite Hfs2. }
  { intros k. rewrite Hgit2. apply Hgit. }
  { intros k t Ht. rewrite Hleaves2. now apply Hkeep. }
  { intros i d. apply no_progress_line. now rewrite Hlen. }
  rewrite map_snd_enumerate in Hdates. rewrite enumerate_length, Hlen in Hlen_ps.
  exists dates, w1, ps. cbv zeta. rewrite Emain. cbn [fst snd stdout spawned fs set_stdout].
  split; [exact Edates|]. split; [exact Hlen|]. split; [exact Hsorted|].
  split; [apply outcomes_keys|]. split; [exact Hall|].
  split; [reflexivity|].
  split; [rewrite Hout, Hout2, Hcwd, Hcwd2; now rewrite <- app_assoc|].
  split; [now rewrite Hsp, Hsp2|].
  split; [exact Hlen_ps|]. split; [exact Hdates|exact Hwf'].
Qed.

Lemma workable_five : workable tree_five.
Proof.
  split; [apply on_disk_b_sound; vm_compute; reflexivity|].
  split; [apply short_listing_b_sound; vm_compute; reflexivity|].
  intros n _ Hin. now apply not_elem_of_empty in Hin.
Qed.

Lemma X12_main_commits_all_when_git_succeeds_witness :
  (NUM_COMMITS < 50)%nat /\ workable (fs world_git_ok)
  /\ git_always_succeeds world_git_ok /\ git_keeps_workable world_git_ok
  /\ exists (dates : list Datetime.datetime) (w1 : World) (ps : list Process),
       generate_dates NUM_COMMITS (after_banner world_git_ok) = (Ok dates, w1)
       /\ length dates = NUM_COMMITS
       /\ StronglySorted Z.le dates
       /\ List.map fst (outcomes NUM_COMMITS (enumerate dates 1)
                          (at_loop_start NUM_COMMITS w1))
          = enumerate dates 1
       /\ Forall (fun x => exists r, snd x = Ok r)
                 (outcomes NUM_COMMITS (enumerate dates 1) (at_loop_start NUM_COMMITS w1))
       /\ fst (main_with NUM_COMMITS world_git_ok) = Ok tt
       /\ stdout (snd (main_with NUM_COMMITS world_git_ok))
          = stdout world_git_ok ++ opening_lines NUM_COMMITS
              ++ closing_lines NUM_COMMITS (getcwd world_git_ok)
       /\ spawned (snd (main_with NUM_COMMITS world_git_ok)) = spawned world_git_ok ++ ps
       /\ length ps = (2 * NUM_COMMITS)%nat
       /\ committed_dates ps = List.map Datetime.strftime_ymd_hms dates
       /\ workable (fs (snd (main_with NUM_COMMITS world_git_ok))).
Proof.
  assert (Hn : (NUM_COMMITS < 50)%nat) by (unfold NUM_COMMITS; lia).
  assert (Hwf : workable (fs world_git_ok)) by exact workable_five.
  assert (Hgit : git_always_succeeds world_git_ok) by (intros [|k]; reflexivity).
  assert (Hkeep : git_keeps_workable world_git_ok) by (intros k t Ht; exact Ht).
  split; [exact Hn|]. split; [exact Hwf|]. split; [exact Hgit|]. split; [exact Hkeep|].
  exact (X12_main_commits_all_when_git_succeeds NUM_COMMITS world_git_ok Hn Hwf Hgit Hkeep).
Defined.
